(** * personal-llm-chat-site: context engineering and chat engine

    A shallow embedding of [assets/site-config.js], [assets/context.js] and
    [assets/chat.js], and the properties the specification states about
    them.

    Modelling conventions.
    - A JavaScript string is a [string] of 8-bit code units; the texts
      handled here are taken to be ASCII, so that [length], [toLowerCase],
      [trim] and the character classes of the regular expressions agree
      with the JavaScript ones.
    - [undefined] / [null] results are [None]; a thrown exception is the
      [Throw] completion.
    - [Math.random()] is an explicit source of draws, threaded as state.
    - An [async] function is cut at its [await]s: each piece between two
      suspension points is one function on the state. *)

From Stdlib Require Import ZArith QArith Qround String Ascii DecimalString Lqa.
From stdpp Require Import base list strings gmap.

Local Open Scope string_scope.
Local Open Scope Z_scope.

(* ===================================================================== *)
(** ** JavaScript values and string primitives *)
(* ===================================================================== *)

Module Js.

Definition LF : ascii := ascii_of_nat 10.
Definition DQ : string := String (ascii_of_nat 34) EmptyString.
Definition NL : string := String LF EmptyString.

(** The ASCII part of the [\s] class (and of what [trim] strips):
    tab, line feed, vertical tab, form feed, carriage return, space. *)
Definition is_space (c : ascii) : bool :=
  let n := nat_of_ascii c in
  ((9 <=? n)%nat && (n <=? 13)%nat) || (n =? 32)%nat.

Definition is_digit (c : ascii) : bool :=
  let n := nat_of_ascii c in (48 <=? n)%nat && (n <=? 57)%nat.

Definition lower_char (c : ascii) : ascii :=
  let n := nat_of_ascii c in
  if (65 <=? n)%nat && (n <=? 90)%nat then ascii_of_nat (n + 32) else c.

Fixpoint toLowerCase (s : string) : string :=
  match s with
  | EmptyString => EmptyString
  | String c s' => String (lower_char c) (toLowerCase s')
  end.

Definition startsWith (s p : string) : bool := String.prefix p s.

Fixpoint includes (s p : string) : bool :=
  if String.prefix p s then true
  else match s with
       | EmptyString => false
       | String _ s' => includes s' p
       end.

Fixpoint trimStart (s : string) : string :=
  match s with
  | EmptyString => EmptyString
  | String c s' => if is_space c then trimStart s' else s
  end.

Fixpoint all_space (s : string) : bool :=
  match s with
  | EmptyString => true
  | String c s' => is_space c && all_space s'
  end.

Fixpoint trimEnd (s : string) : string :=
  match s with
  | EmptyString => EmptyString
  | String c s' => if all_space s then EmptyString else String c (trimEnd s')
  end.

Definition trim (s : string) : string := trimEnd (trimStart s).

(** [s.slice(n)] for [0 <= n]. *)
Fixpoint sdrop (n : nat) (s : string) : string :=
  match n, s with
  | O, _ => s
  | S n', String _ s' => sdrop n' s'
  | S _, EmptyString => EmptyString
  end.

Definition cons_head (c : ascii) (fields : list string) : list string :=
  match fields with
  | f :: fs => String c f :: fs
  | [] => [String c EmptyString]
  end.

(** [s.split('\n\n')]: the separator is matched left to right, without
    overlap; the result is never empty. *)
Fixpoint split_nn (s : string) : list string :=
  match s with
  | EmptyString => [EmptyString]
  | String c s' =>
      match s' with
      | String c2 s'' =>
          if Ascii.eqb c LF && Ascii.eqb c2 LF
          then EmptyString :: split_nn s''
          else cons_head c (split_nn s')
      | EmptyString => [String c EmptyString]
      end
  end.

(** [s.split(/[class]+/)]: the fields between maximal runs of characters
    of the class. [in_run] says that the previous character was already a
    separator. *)
Fixpoint split_runs (d : ascii -> bool) (in_run : bool) (s : string)
  : list string :=
  match s with
  | EmptyString => [EmptyString]
  | String c s' =>
      if d c
      then (if in_run then split_runs d true s'
            else EmptyString :: split_runs d true s')
      else cons_head c (split_runs d false s')
  end.

Definition split_class (d : ascii -> bool) (s : string) : list string :=
  split_runs d false s.

Fixpoint join (sep : string) (l : list string) : string :=
  match l with
  | [] => EmptyString
  | [x] => x
  | x :: rest => x ++ sep ++ join sep rest
  end.

(** [s.replace(pat, by)] with a string pattern: the first occurrence.
    The replacement is taken literally (the dollar patterns of JavaScript
    are not interpreted). *)
Fixpoint replace_first (pat by_ s : string) : string :=
  if String.prefix pat s then by_ ++ sdrop (String.length pat) s
  else match s with
       | EmptyString => EmptyString
       | String c s' => String c (replace_first pat by_ s')
       end.

(** [s.replace(/^\s*\.\.\.\s*/, "")]. *)
Definition strip_leading_dots (s : string) : string :=
  let t := trimStart s in
  if String.prefix "..." t then trimStart (sdrop 3 t) else s.

(** [/^[0-9\s]+$/.test(s)]. *)
Fixpoint all_digit_or_space (s : string) : bool :=
  match s with
  | EmptyString => true
  | String c s' => (is_digit c || is_space c) && all_digit_or_space s'
  end.

Definition only_digits_and_spaces (s : string) : bool :=
  negb (String.eqb s EmptyString) && all_digit_or_space s.

(** Truthiness of a possibly absent string: [null], [undefined] and the
    empty string are falsy. *)
Definition truthy (o : option string) : bool :=
  match o with
  | Some s => negb (String.eqb s EmptyString)
  | None => false
  end.

(** [String(v)] inside a template literal, for a possibly undefined
    string. *)
Definition show (o : option string) : string :=
  match o with
  | Some s => s
  | None => "undefined"
  end.

(** The [%] operator on integers: the remainder has the sign of the
    dividend, and a zero divisor gives [NaN] ([None]). *)
Definition rem (a b : Z) : option Z :=
  if b =? 0 then None else Some (Z.rem a b).

(** [arr[i]]: [undefined] for [NaN], a negative index or one past the
    end. *)
Definition get {A} (l : list A) (i : option Z) : option A :=
  match i with
  | Some i => if i <? 0 then None else l !! Z.to_nat i
  | None => None
  end.

(** [arr.slice(start, end)] with the relative (negative) indices of
    JavaScript; [None] for an omitted [end]. *)
Definition rel_index (len i : Z) : Z :=
  if i <? 0 then Z.max (len + i) 0 else Z.min i len.

Definition slice {A} (l : list A) (start : Z) (stop : option Z) : list A :=
  let len := Z.of_nat (length l) in
  let k := rel_index len start in
  let e := match stop with Some e => rel_index len e | None => len end in
  take (Z.to_nat (e - k)) (drop (Z.to_nat k) l).

(** Completion of a call that may throw. *)
Inductive Completion (A : Type) : Type :=
| Normal (a : A)
| Throw (message : string).
Arguments Normal {A} a.
Arguments Throw {A} message.

(** [Math.random()]: a number in [0, 1). A draw is a fraction whose
    numerator is reduced modulo its denominator, so the contract holds
    for every draw. The source of draws is a stream with a cursor. *)
Record Draw : Type := { num : N; den : positive }.

Definition value (d : Draw) : Q :=
  Z.of_N (N.modulo (num d) (Npos (den d))) # den d.

Record Rng : Type := { draws : nat -> Draw; pos : nat }.

Definition random (g : Rng) : Q * Rng :=
  (value (draws g (pos g)), {| draws := draws g; pos := S (pos g) |}).

(** [Math.floor(r * n)] for an integer [n]. *)
Definition floor_mul (r : Q) (n : Z) : Z := Qfloor (r * inject_Z n).

Definition Qltb (a b : Q) : bool := negb (Qle_bool b a).

End Js.

(* ===================================================================== *)
(** ** site-config.js *)
(* ===================================================================== *)

Module SiteConfig.

Record Book : Type := {
  title : string;
  price : string;
  url : string;
  description : string;
  funFacts : list string
}.

(** The options read by the modelled code. A path or the book set to
    [null] is [None]. *)
Record t : Type := {
  name : string;
  resumeJsonPath : option string;
  highlightsPath : option string;
  manuscriptPath : option string;
  resumePdfPath : option string;
  book : option Book;
  personalityTrait : string;
  expertiseAreas : list string;
  useBookPromos : bool;
  useFunnyQuips : bool;
  gracefulDegradation : bool
}.

Definition SITE_CONFIG : t := {|
  name := "Your Name";
  resumeJsonPath := Some "assets/resume.json";
  highlightsPath := Some "public/files/highlights.sample.json";
  manuscriptPath := Some "public/files/manuscript.sample.txt";
  resumePdfPath := Some "public/files/resume.sample.pdf";
  book := Some {|
    title := "Your Awesome Book Title";
    price := "$9.99 (ebook), $14.99 (paperback)";
    url := "https://example.com/your-book";
    description := "An entertaining and informative book about your expertise area.";
    funFacts := [ "Contains witty observations and practical insights";
                  "Written with a sense of humor";
                  "Perfect for professionals and curious minds alike" ]
  |};
  personalityTrait := "snarky and humorous";
  expertiseAreas := [ "Your primary expertise";
                      "Secondary area of knowledge";
                      "Another skill or interest" ];
  useBookPromos := true;
  useFunnyQuips := true;
  gracefulDegradation := true
|}.

Definition funnyQuips : list string := [
  "I'm running locally in your browser. If my answers get weird, your computer might just be tired.";
  "My code is open source, just like my sense of humor: trying its best but occasionally buggy.";
  "I have a degree in making conversation from the University of Localhost.";
  "Just a heads-up: I'm a small model, so my facts are mostly accurate with occasional creative interpretation.";
  "If you ask me to do something unethical, I'll respond with a random animal fact instead.";
  "I'm not saying I'm the smartest AI, but I did figure out how to run entirely in your browser."
].

Definition bookPromos : list string := [
  "Speaking of which, there's a book called '{BOOK_TITLE}' that you might find interesting. Check it out at {BOOK_URL}.";
  "Fun fact: This site was built to showcase how AI can enhance personal websites. You can read more about it in '{BOOK_TITLE}' - available at {BOOK_URL}.";
  "Before we continue, did you know about the book '{BOOK_TITLE}'? It explores these exact topics. Get it at {BOOK_URL}.";
  "This chatbot is here to help and maybe mention the book '{BOOK_TITLE}' once in a while. You can find it at {BOOK_URL}.";
  "The author wrote '{BOOK_TITLE}' which has been described as 'surprisingly readable.' That was meant as a compliment. Available at {BOOK_URL}."
].

End SiteConfig.

(* ===================================================================== *)
(** ** context.js *)
(* ===================================================================== *)

Module Context.
Import Js.

(** Options of the selection functions: [seed] is [undefined] or an
    integer, [randomize] is [undefined] or a boolean. *)
Record Options : Type := {
  seed : option Z;
  randomize : option bool
}.

Definition no_options : Options := {| seed := None; randomize := None |}.

(** [options.seed !== undefined || options.randomize === false] *)
Definition deterministic (o : Options) : bool :=
  match seed o, randomize o with
  | Some _, _ => true
  | None, Some false => true
  | None, _ => false
  end.

(** [options.seed || 0] *)
Definition seed_or_zero (o : Options) : Z :=
  match seed o with
  | Some s => s
  | None => 0
  end.

(** *** DataLoader *)

Record Job : Type := {
  role : string; company : string; period : string; job_description : string
}.

Record ResumeData : Type := {
  resume_name : string;
  currentRole : string;
  experience : string;
  summary : string;
  technicalSkills : list string;
  workHistory : list Job;
  education : list string;
  publications : list string;
  background : string
}.

Record HighlightEntry : Type := { text : string }.

Record BookEntry : Type := {
  book_title : string;
  book_author : string;
  highlights : option (list HighlightEntry)
}.

Record HighlightsData : Type := { books : option (list BookEntry) }.

(** What the network answers to one [fetch]: the call rejects, or it
    resolves to a response whose body is read by [json()] or [text()],
    which may reject in turn. *)
Record Response (B : Type) : Type := {
  ok : bool;
  statusText : string;
  body : Completion B
}.
Arguments ok {B} _.
Arguments statusText {B} _.
Arguments body {B} _.

Record DataLoader : Type := {
  resumeData : option ResumeData;
  highlightsData : option HighlightsData;
  manuscriptData : option string
}.

(** [new DataLoader()] *)
Definition new_DataLoader : DataLoader :=
  {| resumeData := None; highlightsData := None; manuscriptData := None |}.

(** The loader together with the console, to which warnings go. *)
Record Env : Type := { loader : DataLoader; console : list string }.

(** Code that reads and writes the loader and may throw. *)
Definition M (A : Type) : Type := Env -> Completion A * Env.

Definition ret {A} (a : A) : M A := fun e => (Normal a, e).
Definition throw {A} (msg : string) : M A := fun e => (Throw msg, e).
Definition bind {A B} (m : M A) (k : A -> M B) : M B :=
  fun e => match m e with
           | (Normal a, e') => k a e'
           | (Throw msg, e') => (Throw msg, e')
           end.
Definition try_catch {A} (m : M A) (handler : string -> M A) : M A :=
  fun e => match m e with
           | (Normal a, e') => (Normal a, e')
           | (Throw msg, e') => handler msg e'
           end.
Definition warn (line : string) : M unit :=
  fun e => (Normal tt, {| loader := loader e; console := console e ++ [line] |}).
Definition get_loader : M DataLoader := fun e => (Normal (loader e), e).
Definition set_loader (l : DataLoader) : M unit :=
  fun e => (Normal tt, {| loader := l; console := console e |}).
(** [await p] for a promise that settles with [c]. *)
Definition await {A} (c : Completion A) : M A := fun e => (c, e).

Local Notation "x <- m ;; k" := (bind m (fun x => k))
  (at level 100, m at next level, right associativity).
Local Notation "m ;;; k" := (bind m (fun _ => k))
  (at level 100, right associativity).

Section WithConfig.

Variable cfg : SiteConfig.t.

(** [generateBookPromos()] and the module constants computed from the
    configuration when the module is loaded. *)
Definition generateBookPromos : list string :=
  match SiteConfig.book cfg with
  | Some b =>
      if SiteConfig.useBookPromos cfg
      then map (fun promo =>
                  replace_first "{BOOK_URL}" (SiteConfig.url b)
                    (replace_first "{BOOK_TITLE}" (SiteConfig.title b) promo))
               SiteConfig.bookPromos
      else []
  | None => []
  end.

Definition BOOK_PROMOS : list string := generateBookPromos.

Definition FUNNY_QUIPS : list string :=
  if SiteConfig.useFunnyQuips cfg then SiteConfig.funnyQuips else [].

Definition loadResumeData (fetch : string -> Completion (Response ResumeData))
  : M (option ResumeData) :=
  l <- get_loader ;;
  match resumeData l with
  | Some cached => ret (Some cached)
  | None =>
      if negb (truthy (SiteConfig.resumeJsonPath cfg)) then ret None
      else
        let path := Js.show (SiteConfig.resumeJsonPath cfg) in
        try_catch
          (response <- await (fetch path) ;;
           if negb (ok response) then
             if SiteConfig.gracefulDegradation cfg then
               warn ("Resume not found at " ++ path ++ ", continuing without it") ;;;
               ret None
             else throw ("Failed to fetch resume: " ++ statusText response)
           else
             data <- await (body response) ;;
             l' <- get_loader ;;
             set_loader {| resumeData := Some data;
                           highlightsData := highlightsData l';
                           manuscriptData := manuscriptData l' |} ;;;
             ret (Some data))
          (fun error =>
             warn ("Could not load resume data: " ++ error) ;;;
             ret None)
  end.

Definition loadHighlightsData (fetch : string -> Completion (Response HighlightsData))
  : M (option HighlightsData) :=
  l <- get_loader ;;
  match highlightsData l with
  | Some cached => ret (Some cached)
  | None =>
      if negb (truthy (SiteConfig.highlightsPath cfg)) then ret None
      else
        let path := Js.show (SiteConfig.highlightsPath cfg) in
        try_catch
          (resp <- await (fetch path) ;;
           if negb (ok resp) then
             if SiteConfig.gracefulDegradation cfg then
               warn ("Highlights not found at " ++ path ++ ", continuing without them") ;;;
               ret None
             else throw ("Failed to fetch highlights: " ++ statusText resp)
           else
             data <- await (body resp) ;;
             l' <- get_loader ;;
             set_loader {| resumeData := resumeData l';
                           highlightsData := Some data;
                           manuscriptData := manuscriptData l' |} ;;;
             ret (Some data))
          (fun error =>
             warn ("Could not load highlights data: " ++ error) ;;;
             ret None)
  end.

(** The cached manuscript is a string, which is falsy when empty: an
    empty manuscript is fetched again. *)
Definition loadManuscriptData (fetch : string -> Completion (Response string))
  : M (option string) :=
  l <- get_loader ;;
  if truthy (manuscriptData l) then ret (manuscriptData l)
  else
    if negb (truthy (SiteConfig.manuscriptPath cfg)) then ret None
    else
      let path := Js.show (SiteConfig.manuscriptPath cfg) in
      try_catch
        (resp <- await (fetch path) ;;
         if negb (ok resp) then
           if SiteConfig.gracefulDegradation cfg then
             warn ("Manuscript not found at " ++ path ++ ", continuing without it") ;;;
             ret None
           else throw ("Failed to fetch manuscript: " ++ statusText resp)
         else
           data <- await (body resp) ;;
           l' <- get_loader ;;
           set_loader {| resumeData := resumeData l';
                         highlightsData := highlightsData l';
                         manuscriptData := Some data |} ;;;
           ret (Some data))
        (fun error =>
           warn ("Could not load manuscript data: " ++ error) ;;;
           ret None).

End WithConfig.

(** *** Selection utilities *)

(** One entry of [allHighlights]. *)
Record Highlight : Type := {
  h_text : string;
  bookTitle : string;
  author : string
}.

(** The entries of [allHighlights] are objects, compared by identity with
    [===]: a reference carries the allocation number of its object. An
    array slot read by index is [undefined] or a reference. *)
Record Ref : Type := { oid : nat; obj : Highlight }.

Definition Slot : Type := option Ref.

Definition same_ref (a b : Slot) : bool :=
  match a, b with
  | None, None => true
  | Some x, Some y => (oid x =? oid y)%nat
  | _, _ => false
  end.

(** [arr.find(p)]: the first element that satisfies [p], else
    [undefined]. *)
Definition find_slot (p : Slot -> bool) (l : list Slot) : Slot :=
  match List.find p l with
  | Some h => h
  | None => None
  end.

Definition collect (bs : list BookEntry) : list Highlight :=
  flat_map (fun b =>
              match highlights b with
              | Some hs =>
                  map (fun h => {| h_text := text h;
                                   bookTitle := book_title b;
                                   author := book_author b |}) hs
              | None => []
              end) bs.

Definition allHighlights (bs : list BookEntry) : list Ref :=
  imap (fun i h => {| oid := i; obj := h |}) (collect bs).

(** The [for] loop of the seeded branch, from counter [i] for [n] more
    rounds. *)
Fixpoint seeded_loop (all : list Ref) (s : Z) (i n : nat) (selected : list Slot)
  : list Slot :=
  match n with
  | O => selected
  | S n' =>
      let index := rem (s + Z.of_nat i * 17) (Z.of_nat (length all)) in
      let cand := get all index in
      let selected' :=
        if negb (bool_decide (is_Some (find_slot (same_ref cand) selected)))
        then (selected ++ [cand])%list
        else selected in
      seeded_loop all s (S i) n' selected'
  end.

(** The [while] loop of the random branch. It stops when enough entries
    are selected; each round consumes one draw. [None]: the fuel ran out
    before the loop stopped. *)
Fixpoint random_loop (fuel : nat) (all : list Ref) (selected : list Slot)
    (usedIndices : gset Z) (g : Rng) : option (list Slot * Rng) :=
  if ((length selected <? 3)%nat && (length selected <? length all)%nat)%bool
  then
    match fuel with
    | O => None
    | S fuel' =>
        let '(r, g') := random g in
        let randomIndex := floor_mul r (Z.of_nat (length all)) in
        if bool_decide (randomIndex ∈ usedIndices)
        then random_loop fuel' all selected usedIndices g'
        else random_loop fuel' all (selected ++ [get all (Some randomIndex)])%list
               ({[ randomIndex ]} ∪ usedIndices) g'
    end
  else Some (selected, g).

(** [selectRandomHighlights(highlightsData, options)]. The inner option
    is the [null] result. *)
Definition selectRandomHighlights (data : option HighlightsData) (options : Options)
    (fuel : nat) (g : Rng) : option (option (list Slot) * Rng) :=
  match data with
  | None => Some (None, g)
  | Some d =>
      match books d with
      | None => Some (None, g)
      | Some bs =>
          let all := allHighlights bs in
          if (length all <? 1)%nat then Some (None, g)
          else if deterministic options then
            let count := Nat.min 3 (length all) in
            Some (Some (seeded_loop all (seed_or_zero options) 0 count []), g)
          else
            match random_loop fuel all [] ∅ g with
            | Some (selected, g') => Some (Some selected, g')
            | None => None
            end
      end
  end.

(** The paragraph filter of [selectRandomManuscriptChunk]. *)
Definition MIN_PARAGRAPH_LENGTH : nat := 100.
Definition MAX_CHUNK_LENGTH : nat := 300.

Definition not_boilerplate (p : string) : bool :=
  negb (startsWith p "Chapter ") &&
  negb (startsWith p "Copyright") &&
  negb (startsWith p "ISBN") &&
  negb (only_digits_and_spaces p) &&
  negb (startsWith p "Robo-Excerpt") &&
  negb (includes p "[ ||| ]").

Definition qualifies (p : string) : bool :=
  (MIN_PARAGRAPH_LENGTH <? String.length p)%nat && not_boilerplate p.

(** [manuscriptData.split('\n\n').map(p => p.trim())] *)
Definition trimmed_paragraphs (manuscript : string) : list string :=
  map trim (split_nn manuscript).

Definition paragraphs (manuscript : string) : list string :=
  filter (fun p => qualifies p = true) (trimmed_paragraphs manuscript).

Definition is_sentence_end (c : ascii) : bool :=
  Ascii.eqb c "." || Ascii.eqb c "!" || Ascii.eqb c "?".

(** [Math.min(3, Math.max(1, Math.floor(n * 0.4)))]. The double nearest
    to 0.4 lies above it by less than 2^-55, so the floor of the product
    is that of 4n/10 for every array length. *)
Definition numSentences (n : nat) : nat :=
  Nat.min 3 (Nat.max 1 (n * 4 / 10)).

Definition truncate (chunk : string) : string :=
  if (MAX_CHUNK_LENGTH <? String.length chunk)%nat then
    let sentences := split_class is_sentence_end chunk in
    join "." (take (numSentences (length sentences)) sentences) ++ "."
  else chunk.

(** [selectedIndex] and the draws left. *)
Definition select_index (n : nat) (options : Options) (g : Rng) : option Z * Rng :=
  if deterministic options then (rem (seed_or_zero options) (Z.of_nat n), g)
  else let '(r, g') := random g in (Some (floor_mul r (Z.of_nat n)), g').

(** [paragraphs[selectedIndex]] and the draws left. *)
Definition selected_paragraph (ps : list string) (options : Options) (g : Rng)
  : option string * Rng :=
  let '(selectedIndex, g') := select_index (length ps) options g in
  (get ps selectedIndex, g').

(** [selectRandomManuscriptChunk(manuscriptData, options)]. Reading
    [chunk.length] of an [undefined] chunk throws. *)
Definition selectRandomManuscriptChunk (manuscriptData : option string)
    (options : Options) (g : Rng) : Completion (option string) * Rng :=
  if negb (truthy manuscriptData) then (Normal None, g)
  else
    let ps := paragraphs (show manuscriptData) in
    if (length ps =? 0)%nat then (Normal None, g)
    else
      match selected_paragraph ps options g with
      | (None, g') =>
          (Throw "TypeError: Cannot read properties of undefined (reading 'length')", g')
      | (Some chunk, g') => (Normal (Some (trim (truncate chunk))), g')
      end.

(** [selectRandomPromo(options)] and [selectRandomQuip(options)] read the
    module constants; [from_list] is their common body. *)
Definition from_list (l : list string) (options : Options) (g : Rng)
  : option string * Rng :=
  let '(i, g') := select_index (length l) options g in (get l i, g').

Definition selectRandomPromo (cfg : SiteConfig.t) : Options -> Rng -> option string * Rng :=
  from_list (BOOK_PROMOS cfg).

Definition selectRandomQuip (cfg : SiteConfig.t) : Options -> Rng -> option string * Rng :=
  from_list (FUNNY_QUIPS cfg).

End Context.

(* ===================================================================== *)
(** ** chat.js: CONFIG *)
(* ===================================================================== *)

Module Config.
Import Js.

Record DynamicValues : Type := {
  MAX_NEW_TOKENS : Z;
  TEMPERATURE : Q;
  TOP_P : Q;
  TOP_K : Z;
  REPETITION_PENALTY : Q;
  HISTORY_LIMIT : Z;
  MAX_CONTEXT_LENGTH : Z
}.

(** [Math.floor(Math.random() * (max - min + 1)) + min] *)
Definition int_between (lo hi : Z) (g : Rng) : Z * Rng :=
  let '(r, g') := random g in (floor_mul r (hi - lo + 1) + lo, g').

(** [Math.random() * (max - min) + min] *)
Definition float_between (lo hi : Q) (g : Rng) : Q * Rng :=
  let '(r, g') := random g in ((r * (hi - lo) + lo)%Q, g').

(** [CONFIG.getDynamicValues()]: one draw per entry of [RANGES], in the
    order of the object's keys. *)
Definition getDynamicValues (g : Rng) : DynamicValues * Rng :=
  let '(max_new_tokens, g) := int_between 80 200 g in
  let '(temperature, g) := float_between (5 # 10) (13 # 10) g in
  let '(top_p, g) := float_between (8 # 10) (95 # 100) g in
  let '(top_k, g) := int_between 15 25 g in
  let '(repetition_penalty, g) := float_between (102 # 100) (115 # 100) g in
  let '(history_limit, g) := int_between 5 10 g in
  let '(max_context_length, g) := int_between 800 1100 g in
  ({| MAX_NEW_TOKENS := max_new_tokens;
      TEMPERATURE := temperature;
      TOP_P := top_p;
      TOP_K := top_k;
      REPETITION_PENALTY := repetition_penalty;
      HISTORY_LIMIT := history_limit;
      MAX_CONTEXT_LENGTH := max_context_length |}, g).

(** Two of the fields of [__CHAT_DEBUG__]: the formatted prompt and the
    final response ([CONFIG.DEBUG] is [true], so the hooks are written). *)
Record Debug : Type := {
  lastFormatted : option string;
  lastResponse : option string
}.

Definition set_lastResponse (r : string) (d : Debug) : Debug :=
  {| lastFormatted := lastFormatted d; lastResponse := Some r |}.

Definition set_lastFormatted (f : string) (d : Debug) : Debug :=
  {| lastFormatted := Some f; lastResponse := lastResponse d |}.

End Config.

(* ===================================================================== *)
(** ** chat.js: ChatEngine *)
(* ===================================================================== *)

Module ChatEngine.
Import Js Config.

(** A turn is the pair [[role, content]]. *)
Definition Turn : Type := (string * string)%type.

Record t : Type := {
  history : list Turn;
  _genSeq : nat;
  currentParams : option DynamicValues
}.

(** [new ChatEngine()] *)
Definition new : t := {| history := []; _genSeq := 0; currentParams := None |}.

Definition bookPromoChance : Q := 2 # 10.

Definition addMessage (role content : string) (e : t) : t :=
  {| history := history e ++ [(role, content)];
     _genSeq := _genSeq e;
     currentParams := currentParams e |}.

Definition clearHistory (e : t) : t :=
  {| history := []; _genSeq := _genSeq e; currentParams := currentParams e |}.

Definition cancelGeneration (e : t) : t :=
  {| history := history e; _genSeq := S (_genSeq e); currentParams := currentParams e |}.

Definition set_currentParams (p : DynamicValues) (e : t) : t :=
  {| history := history e; _genSeq := _genSeq e; currentParams := Some p |}.

(** [this.currentParams ? this.currentParams.HISTORY_LIMIT : 8] *)
Definition historyLimit (e : t) : Z :=
  match currentParams e with
  | Some p => HISTORY_LIMIT p
  | None => 8
  end.

(** [currentInput.toLowerCase().split(/\s+/).filter(w => w.length > 3)] *)
Definition keywords (currentInput : string) : list string :=
  filter (fun w => (3 < String.length w)%nat)
         (split_class is_space (toLowerCase currentInput)).

Definition relevant (kws : list string) (turn : Turn) : bool :=
  existsb (fun keyword => includes (toLowerCase (snd turn)) keyword) kws.

Definition _pruneHistory (e : t) (currentInput : string) : list Turn :=
  let historyLimit := historyLimit e in
  if Z.of_nat (length (history e)) <=? historyLimit
  then slice (history e) (- historyLimit) None
  else
    let recentHistory := slice (history e) (- historyLimit) None in
    let keywords := keywords currentInput in
    let relevantOlder :=
      slice (filter (fun turn => relevant keywords turn = true)
                    (slice (history e) 0 (Some (- historyLimit))))
            (-2) None in
    (relevantOlder ++ recentHistory)%list.

Definition MIN_EMBELLISH_LENGTH : nat := 30.

Definition bookTriggers : list string := [
  "evolution"; "ai"; "artificial intelligence"; "machine learning"; "biology";
  "career"; "journey"; "background"; "scientist"; "book"; "write"; "author";
  "creative"; "creativity"; "robot"; "code"; "programming"
].

(** The guard that skips promos and quips. *)
Definition skip_embellishment (response : string) : bool :=
  String.eqb response EmptyString
  || (String.length response <? MIN_EMBELLISH_LENGTH)%nat
  || includes response "apologize"
  || includes response "not sure".

Definition hasBookTrigger (response userText : string) : bool :=
  existsb (fun trigger =>
             includes (toLowerCase userText) trigger
             || includes (toLowerCase response) trigger) bookTriggers.

(** [finalizeResponse(response, userText)]; the state it touches is the
    source of draws and the debug hook. *)
Definition finalizeResponse (cfg : SiteConfig.t) (response userText : string)
    (g : Rng) (d : Debug) : string * Rng * Debug :=
  if skip_embellishment response then (response, g, d)
  else
    let '(promo, g1) :=
      if hasBookTrigger response userText then (true, g)
      else let '(r, g') := random g in (Qltb r bookPromoChance, g') in
    if promo then
      let '(randomPromo, g2) := Context.selectRandomPromo cfg Context.no_options g1 in
      let finalResponse := response ++ NL ++ NL ++ show randomPromo in
      (finalResponse, g2, set_lastResponse finalResponse d)
    else
      let '(r, g2) := random g1 in
      if Qltb r (15 # 100) then
        let '(randomQuip, g3) := Context.selectRandomQuip cfg Context.no_options g2 in
        let finalResponse := response ++ NL ++ NL ++ "*" ++ show randomQuip ++ "*" in
        (finalResponse, g3, set_lastResponse finalResponse d)
      else (response, g2, set_lastResponse response d).

End ChatEngine.

(* ===================================================================== *)
(** ** chat.js: UIController *)
(* ===================================================================== *)

Module UIController.
Import Js.

(** A message element: its [data-role], the text of its sender span and
    the formatted content that follows the span. *)
Record Element : Type := {
  data_role : string;
  sender : string;
  content : string
}.

(** Elements are objects held by reference: [elements] has every element
    created so far, a reference is an index into it, and [children] lists
    the references attached to the [#messages] container. An element
    stays reachable through a reference after the container is cleared. *)
Record t : Type := {
  elements : list Element;
  children : list nat;
  status : string;
  controlsEnabled : bool
}.

Definition init : t :=
  {| elements := []; children := []; status := EmptyString; controlsEnabled := true |}.

Definition sender_outerHTML (s : string) : string :=
  "<span class=" ++ DQ ++ "sender" ++ DQ ++ ">" ++ s ++ "</span>".

Definition innerHTML (el : Element) : string :=
  sender_outerHTML (sender el) ++ content el.

(** What the container shows. *)
Definition rendered (u : t) : list Element :=
  omap (fun r => elements u !! r) (children u).

Definition THINKING_DOTS : string :=
  "<span class=" ++ DQ ++ "thinking-dots" ++ DQ ++ "></span>".

(** [String(text).replace(/[&<>]/g, ...)] *)
Fixpoint escape_entities (s : string) : string :=
  match s with
  | EmptyString => EmptyString
  | String c s' =>
      (if Ascii.eqb c "&" then "&amp;"
       else if Ascii.eqb c "<" then "&lt;"
       else if Ascii.eqb c ">" then "&gt;"
       else String c EmptyString) ++ escape_entities s'
  end.

(** The characters before the first [stop] and what follows it. *)
Fixpoint span_until (stop : ascii) (s : string) : option (string * string) :=
  match s with
  | EmptyString => None
  | String c s' =>
      if Ascii.eqb c stop then Some (EmptyString, s')
      else match span_until stop s' with
           | Some (a, r) => Some (String c a, r)
           | None => None
           end
  end.

(** A match of [\[([^\]]+)\]\(([^)]+)\)] at the start of [s]: the two
    groups and the rest. *)
Definition match_link (s : string) : option (string * string * string) :=
  match s with
  | String c s1 =>
      if Ascii.eqb c "[" then
        match span_until "]" s1 with
        | Some (txt, String c2 s2) =>
            if Ascii.eqb c2 "(" && negb (String.eqb txt EmptyString) then
              match span_until ")" s2 with
              | Some (href, rest) =>
                  if String.eqb href EmptyString then None
                  else Some (txt, href, rest)
              | None => None
              end
            else None
        | _ => None
        end
      else None
  | EmptyString => None
  end.

Definition anchor (txt href : string) : string :=
  "<a href=" ++ DQ ++ href ++ DQ ++ " target=" ++ DQ ++ "_blank" ++ DQ
  ++ " rel=" ++ DQ ++ "noopener noreferrer" ++ DQ ++ ">" ++ txt ++ "</a>".

(** The global replacement of markdown links; every round consumes at
    least one character, so the length of the text is enough fuel. *)
Fixpoint replace_links (fuel : nat) (s : string) : string :=
  match fuel with
  | O => s
  | S fuel' =>
      match match_link s with
      | Some (txt, href, rest) => anchor txt href ++ replace_links fuel' rest
      | None =>
          match s with
          | EmptyString => EmptyString
          | String c s' => String c (replace_links fuel' s')
          end
      end
  end.

Definition _escapeHTML (text : string) : string :=
  let escaped := escape_entities text in
  replace_links (String.length escaped) escaped.

(** [formatted.replace(/\n\n+/g, '</p><p>')]; [in_run] says that the
    previous character belonged to a run already replaced. *)
Fixpoint paragraph_breaks (in_run : bool) (s : string) : string :=
  match s with
  | EmptyString => EmptyString
  | String c s' =>
      if Ascii.eqb c LF then
        if in_run then paragraph_breaks true s'
        else match s' with
             | String c2 _ =>
                 if Ascii.eqb c2 LF then "</p><p>" ++ paragraph_breaks true s'
                 else String c (paragraph_breaks false s')
             | EmptyString => String c EmptyString
             end
      else String c (paragraph_breaks false s')
  end.

Definition _formatMessageContent (content : string) : string :=
  if includes content THINKING_DOTS then content
  else
    let formatted := paragraph_breaks false (_escapeHTML content) in
    if includes formatted "</p><p>" then "<p>" ++ formatted ++ "</p>"
    else formatted.

Definition setStatus (text : string) (u : t) : t :=
  {| elements := elements u; children := children u;
     status := text; controlsEnabled := controlsEnabled u |}.

Definition setControlsEnabled (enabled : bool) (u : t) : t :=
  {| elements := elements u; children := children u;
     status := status u; controlsEnabled := enabled |}.

(** [addMessage(role, content)] returns the new element. *)
Definition addMessage (role content : string) (u : t) : nat * t :=
  let messageEl :=
    {| data_role := role;
       sender := if String.eqb role "user" then "you" else "ai";
       content := _formatMessageContent content |} in
  (length (elements u),
   {| elements := elements u ++ [messageEl];
      children := children u ++ [length (elements u)];
      status := status u; controlsEnabled := controlsEnabled u |}).

Definition updateMessage (element : nat) (content : string) (u : t) : t :=
  {| elements :=
       alter (fun el => {| data_role := data_role el;
                           sender := sender el;
                           content := _formatMessageContent content |})
             element (elements u);
     children := children u;
     status := status u; controlsEnabled := controlsEnabled u |}.

Definition clearMessages (u : t) : t :=
  {| elements := elements u; children := [];
     status := status u; controlsEnabled := controlsEnabled u |}.

End UIController.

(* ===================================================================== *)
(** ** chat.js: AIChat *)
(* ===================================================================== *)

Module AIChat.
Import Js Config.

(** The components of section 2 of the specification that a submit can
    enter: [ChatEngine.formatPrompt], [ModelManager.generateText] and
    [ChatEngine.finalizeResponse]. *)
Inductive Component : Type :=
| PromptAssembly
| InferenceAdapter
| ResponseEmbellisher.

(** The state of the custom element. [pipe] says whether
    [modelManager.pipe] is set. [invoked] is not a variable of the source:
    it records, in order, the components entered so far. *)
Record t : Type := {
  chatEngine : ChatEngine.t;
  ui : UIController.t;
  pipe : bool;
  debug : Debug;
  rng : Rng;
  invoked : list Component
}.

Definition with_engine (f : ChatEngine.t -> ChatEngine.t) (w : t) : t :=
  {| chatEngine := f (chatEngine w); ui := ui w; pipe := pipe w;
     debug := debug w; rng := rng w; invoked := invoked w |}.

Definition with_ui (f : UIController.t -> UIController.t) (w : t) : t :=
  {| chatEngine := chatEngine w; ui := f (ui w); pipe := pipe w;
     debug := debug w; rng := rng w; invoked := invoked w |}.

Definition with_pipe (p : bool) (w : t) : t :=
  {| chatEngine := chatEngine w; ui := ui w; pipe := p;
     debug := debug w; rng := rng w; invoked := invoked w |}.

Definition with_debug (d : Debug) (w : t) : t :=
  {| chatEngine := chatEngine w; ui := ui w; pipe := pipe w;
     debug := d; rng := rng w; invoked := invoked w |}.

Definition with_rng (g : Rng) (w : t) : t :=
  {| chatEngine := chatEngine w; ui := ui w; pipe := pipe w;
     debug := debug w; rng := g; invoked := invoked w |}.

Definition enter (c : Component) (w : t) : t :=
  {| chatEngine := chatEngine w; ui := ui w; pipe := pipe w;
     debug := debug w; rng := rng w; invoked := invoked w ++ [c] |}.

(** [this.ui.addMessage(role, content)], with the element it returns. *)
Definition ui_addMessage (role content : string) (w : t) : nat * t :=
  let '(el, u) := UIController.addMessage role content (ui w) in
  (el, with_ui (fun _ => u) w).

(** The state that the user sees: the conversation history and the
    rendered messages. *)
Definition visible (w : t) : list ChatEngine.Turn * list UIController.Element :=
  (ChatEngine.history (chatEngine w), UIController.rendered (ui w)).

Section WithConfig.

Variable cfg : SiteConfig.t.

Definition greetings : list string :=
  ["hi"; "hello"; "hey"; "yo"; "heeey guy"; "sup"].

Definition cannedResponses : list string := [
  "Hello! I'm a simple bot on " ++ SiteConfig.name cfg
    ++ "'s site. You can ask about work, experience, or writing. What's on your mind?";
  "Hey there! I'm here to answer questions about " ++ SiteConfig.name cfg
    ++ ". Fire away!";
  "Hi! Ask me something about " ++ SiteConfig.name cfg
    ++ "'s background or projects."
].

(** [_clearChat()] *)
Definition _clearChat (w : t) : t :=
  let w := with_engine ChatEngine.clearHistory w in
  let w := with_ui UIController.clearMessages w in
  snd (ui_addMessage "assistant" "Chat cleared. What would you like to know?" w).

(** Where [_handleSubmit] stands when it first gives control back: it
    has returned, or it is suspended in
    [await this._generateResponse(userInput, responseEl)]. *)
Inductive Submit : Type :=
| Returned (w : t)
| Generating (w : t) (userInput : string) (responseEl : nat).

(** [_handleSubmit(e)] up to its first suspension; [value] is the text of
    the input field. A draw of [Math.random()] is below 1, so the index
    into [cannedResponses] is in range and the default of [nth] is never
    taken. *)
Definition _handleSubmit (value : string) (w : t) : Submit :=
  let userInput := trim value in
  if String.eqb userInput EmptyString then Returned w
  else
    let lowerInput := trim (toLowerCase userInput) in
    if bool_decide (lowerInput ∈ greetings) then
      let w := with_engine (ChatEngine.addMessage "user" userInput) w in
      let w := snd (ui_addMessage "user" userInput w) in
      let '(r, g) := random (rng w) in
      let w := with_rng g w in
      let response :=
        nth (Z.to_nat (floor_mul r (Z.of_nat (length cannedResponses))))
            cannedResponses EmptyString in
      let w := with_engine (ChatEngine.addMessage "assistant" response) w in
      let w := snd (ui_addMessage "assistant" response w) in
      Returned w
    else
      let w := with_engine (ChatEngine.addMessage "user" userInput) w in
      let w := snd (ui_addMessage "user" userInput w) in
      if negb (pipe w) then
        Returned (snd (ui_addMessage "assistant" "Load a model first." w))
      else
        let w := with_ui (UIController.setControlsEnabled false) w in
        let w := with_ui (UIController.setStatus "Thinking…") w in
        let '(responseEl, w) := ui_addMessage "assistant" UIController.THINKING_DOTS w in
        Generating w userInput responseEl.

(** [formatPrompt(userText, tokenizer)] up to
    [await this.promptManager.generateSystemPrompt()]. *)
Definition formatPrompt_begin (w : t) : t :=
  let w := enter PromptAssembly w in
  let '(params, g) := getDynamicValues (rng w) in
  with_rng g (with_engine (ChatEngine.set_currentParams params) w).

(** The rest of [formatPrompt], once the system prompt is there.
    [templated] is what [tokenizer.apply_chat_template] resolved to;
    [None] when there is no tokenizer or the call threw. *)
Definition formatPrompt_end (userText systemPrompt : string)
    (templated : option string) (w : t) : string * t :=
  let relevantHistory := ChatEngine._pruneHistory (chatEngine w) userText in
  match templated with
  | Some formatted =>
      (formatted, with_debug (set_lastFormatted formatted (debug w)) w)
  | None =>
      let historyText :=
        join NL (map (fun turn : ChatEngine.Turn =>
                        (if String.eqb (fst turn) "me" then "User" else "Assistant")
                        ++ ": " ++ snd turn) relevantHistory) in
      let fullPrompt :=
        systemPrompt ++ NL
        ++ (if String.eqb historyText EmptyString then EmptyString
            else historyText ++ NL)
        ++ "User: " ++ userText ++ NL ++ "Assistant:" in
      (fullPrompt, with_debug (set_lastFormatted fullPrompt (debug w)) w)
  end.

(** The variables that one call of [_generateResponse] closes over. *)
Record Request : Type := {
  userInput : string;
  responseEl : nat;
  formatted : string;
  genSeq : nat;
  latestText : string
}.

Definition set_latestText (s : string) (req : Request) : Request :=
  {| userInput := userInput req; responseEl := responseEl req;
     formatted := formatted req; genSeq := genSeq req; latestText := s |}.

(** [_generateResponse] between the end of [formatPrompt] and
    [await this.modelManager.generateText(...)]: it takes the next
    sequence number. *)
Definition _generateResponse_start (userInput : string) (responseEl : nat)
    (formatted : string) (w : t) : Request * t :=
  let w := with_engine ChatEngine.cancelGeneration w in
  let req := {| userInput := userInput; responseEl := responseEl;
                formatted := formatted;
                genSeq := ChatEngine._genSeq (chatEngine w);
                latestText := EmptyString |} in
  (req, enter InferenceAdapter w).

(** What the runtime hands to the streaming callback. *)
Inductive Chunk : Type :=
| ChunkArray (first_generated_text : option string)
| ChunkObject (generated_text : option string) (token_text : option string)
| ChunkString (s : string)
| ChunkOther.

Definition next_text (latest : string) (chunk : Chunk) : string :=
  match chunk with
  | ChunkArray first => if truthy first then show first else latest
  | ChunkObject generated token =>
      if truthy generated then show generated
      else if truthy token then latest ++ show token
      else latest
  | ChunkString s => latest ++ s
  | ChunkOther => latest
  end.

(** [display] of the callback and [reply] of the final handling. *)
Definition clean (formatted text : string) : string :=
  let display :=
    if negb (String.eqb formatted EmptyString) && startsWith text formatted
    then sdrop (String.length formatted) text
    else text in
  trim (strip_leading_dots display).

Definition or_else (s fallback : string) : string :=
  if String.eqb s EmptyString then fallback else s.

(** The streaming callback [onUpdate(chunk)] of a request. *)
Definition onUpdate (req : Request) (chunk : Chunk) (w : t) : Request * t :=
  if negb (ChatEngine._genSeq (chatEngine w) =? genSeq req)%nat then (req, w)
  else
    let req := set_latestText (next_text (latestText req) chunk) req in
    let display := clean (formatted req) (latestText req) in
    (req, with_ui (UIController.updateMessage (responseEl req) (or_else display "…")) w).

(** [result?.[0]]: absent, or an object with a possibly absent
    [generated_text]. *)
Definition Result : Type := option (option string).

(** [_generateResponse] from the point where [generateText] has resolved
    to [result]. *)
Definition _generateResponse_result (req : Request) (result : Result) (w : t) : t :=
  if negb (ChatEngine._genSeq (chatEngine w) =? genSeq req)%nat then w
  else
    let raw := match result with
               | Some (Some generated) => generated
               | _ => latestText req
               end in
    let full := or_else raw (match result with
                             | Some _ => "[object Object]"
                             | None => EmptyString
                             end) in
    let reply := clean (formatted req) full in
    let w := enter ResponseEmbellisher w in
    let '(reply, g, d) :=
      ChatEngine.finalizeResponse cfg reply (userInput req) (rng w) (debug w) in
    let w := with_debug d (with_rng g w) in
    let w := with_engine (ChatEngine.addMessage "assistant" reply) w in
    let w := with_ui (UIController.updateMessage (responseEl req)
                        (or_else reply "(no response)")) w in
    with_ui (UIController.setStatus EmptyString) w.

(** The [catch] and [finally] blocks of [_handleSubmit]. *)
Definition _handleSubmit_catch (req_el : nat) (w : t) : t :=
  let w := with_ui (UIController.updateMessage req_el
                      "Generation error. Please try again.") w in
  with_ui (UIController.setStatus "Error") w.

Definition _handleSubmit_finally (w : t) : t :=
  with_ui (UIController.setControlsEnabled true) w.

(** The [label] of the entries of [MODELS], by [id]. *)
Definition MODELS : list (string * string) := [
  ("HuggingFaceTB/SmolLM2-135M-Instruct", "SmolLM2 135M (Fast & Derpy)");
  ("HuggingFaceTB/SmolLM2-360M-Instruct", "SmolLM2 360M (Recommended)");
  ("Xenova/codegen-350M-mono", "Tiny Coder 350M (Weird)");
  ("Xenova/tiny-random-StableLmForCausalLM", "Tiny StableLM (Unstable Ideas)");
  ("onnx-community/TinyLlama-1.1B-Chat-v1.0-ONNX", "TinyLlama 1.1B (Actually Smart, but Slow)")
].

(** [MODELS.find(m => m.id === modelId)?.label || modelId] *)
Definition modelName (modelId : string) : string :=
  match List.find (fun m => String.eqb (fst m) modelId) MODELS with
  | Some m => or_else (snd m) modelId
  | None => modelId
  end.

(** [_loadSelectedModel()]: before [await this.modelManager.loadModel],
    after it resolved to a result, and when it rejected. The pipeline
    itself is assigned inside [loadModel] and [_cleanup]. *)
Definition _loadSelectedModel_begin (modelId : string) (w : t) : t :=
  let w := with_ui (UIController.setControlsEnabled false) w in
  with_ui (UIController.setStatus ("Loading " ++ modelId ++ "…")) w.

Definition _loadSelectedModel_loaded (modelId : string) (fallback : bool) (w : t) : t :=
  let w := with_ui (UIController.setStatus "Ready") w in
  let message := "✨ Loaded " ++ modelName modelId ++ ". Ask me anything about "
                 ++ SiteConfig.name cfg ++ "!" in
  let fallbackMsg :=
    if fallback then NL ++ NL ++ "💡 Running on CPU for best compatibility."
    else EmptyString in
  let w := snd (ui_addMessage "assistant" (message ++ fallbackMsg) w) in
  with_ui (UIController.setControlsEnabled true) w.

Definition _loadSelectedModel_failed (modelId : string) (w : t) : t :=
  let w := with_ui (UIController.setStatus "Load failed") w in
  let w := snd (ui_addMessage "assistant"
                  ("Failed to load model: " ++ modelId
                   ++ ". Network or model issue. Try another model or browser.") w) in
  with_ui (UIController.setControlsEnabled true) w.

(** One piece of code run by the event loop. *)
Inductive step : t -> t -> Prop :=
| step_submit_returned value w w' :
    _handleSubmit value w = Returned w' -> step w w'
| step_submit_generating value w w' userInput responseEl :
    _handleSubmit value w = Generating w' userInput responseEl -> step w w'
| step_formatPrompt_begin w :
    step w (formatPrompt_begin w)
| step_formatPrompt_end userText systemPrompt templated w :
    step w (snd (formatPrompt_end userText systemPrompt templated w))
| step_generate_start userInput responseEl formatted w :
    step w (snd (_generateResponse_start userInput responseEl formatted w))
| step_onUpdate req chunk w :
    step w (snd (onUpdate req chunk w))
| step_generate_result req result w :
    step w (_generateResponse_result req result w)
| step_catch el w :
    step w (_handleSubmit_catch el w)
| step_finally w :
    step w (_handleSubmit_finally w)
| step_clear w :
    step w (_clearChat w)
| step_cancel w :
    step w (with_engine ChatEngine.cancelGeneration w)
| step_load_begin modelId w :
    step w (_loadSelectedModel_begin modelId w)
| step_load_pipe p w :
    step w (with_pipe p w)
| step_load_loaded modelId fallback w :
    step w (_loadSelectedModel_loaded modelId fallback w)
| step_load_failed modelId w :
    step w (_loadSelectedModel_failed modelId w).

Definition steps : t -> t -> Prop := rtc step.

End WithConfig.

End AIChat.

(* ===================================================================== *)
(** ** context.js: buildSystemPrompt *)
(* ===================================================================== *)

Module PromptBuilder.
Import Js Context.

(** [String(n)] for a counter. *)
Definition show_nat (n : nat) : string := NilZero.string_of_uint (Nat.to_uint n).

Section WithConfig.

Variable cfg : SiteConfig.t.

(** [createBaseSystemPrompt()] and the constant made from it. *)
Definition createBaseSystemPrompt : string :=
  let resumeReference :=
    if truthy (SiteConfig.resumePdfPath cfg)
    then NL ++ "- When relevant, you may reference " ++ SiteConfig.name cfg
         ++ "'s résumé at " ++ show (SiteConfig.resumePdfPath cfg)
    else EmptyString in
  "You are an assistant on " ++ SiteConfig.name cfg
  ++ "'s personal site. Answer questions about " ++ SiteConfig.name cfg
  ++ " factually, concisely, and without hype, but feel free to be "
  ++ SiteConfig.personalityTrait cfg ++ "." ++ NL ++ NL
  ++ "Guidelines:" ++ NL
  ++ "- Be straightforward and accurate; if unsure, say you don't know" ++ NL
  ++ "- Prefer short, clear answers unless more detail is requested"
  ++ resumeReference ++ NL
  ++ "- Avoid marketing language or exaggerated claims".

Definition BASE_SYSTEM_PROMPT : string := createBaseSystemPrompt.

(** The section added for a résumé. The record is taken to have all its
    fields, as the résumé file of the repository has. *)
Definition job_line (job : Job) : string :=
  "- " ++ role job ++ " at " ++ company job ++ " (" ++ period job ++ "): "
  ++ job_description job.

Definition resume_section (r : ResumeData) : string :=
  NL ++ NL ++ "About " ++ resume_name r ++ ":" ++ NL
  ++ "- Current Role: " ++ currentRole r ++ NL
  ++ "- Experience: " ++ experience r ++ " in " ++ toLowerCase (summary r) ++ NL
  ++ "- Background: " ++ background r ++ NL ++ NL
  ++ "Technical Skills:" ++ NL
  ++ join ", " (slice (technicalSkills r) 0 (Some 12)) ++ " (and more)" ++ NL ++ NL
  ++ "Recent Work Experience:" ++ NL
  ++ join NL (map job_line (slice (workHistory r) 0 (Some 3))) ++ NL ++ NL
  ++ "Education:" ++ NL
  ++ join NL (education r) ++ NL ++ NL
  ++ "Publications & Books:" ++ NL
  ++ join NL (publications r) ++ NL ++ NL
  ++ "Key Expertise Areas:" ++ NL
  ++ join NL (map (fun area => "- " ++ area) (SiteConfig.expertiseAreas cfg)).

Definition IDEAS_HEADER : string :=
  NL ++ NL ++ "Some interesting ideas to consider or reference in conversation:".

Definition IDEAS_FOOTER : string :=
  NL ++ NL ++ "You can reference these ideas, ask thought-provoking questions about them, or use them as conversation starters. Be cheeky and engaging!".

Definition highlight_item (itemIndex : nat) (h : Highlight) : string :=
  NL ++ NL ++ show_nat itemIndex ++ ". From " ++ DQ ++ bookTitle h ++ DQ
  ++ " by " ++ author h ++ ":" ++ NL ++ DQ ++ h_text h ++ DQ.

(** The [forEach] over the selected highlights: the text added and the
    next [itemIndex]. Reading a field of an [undefined] entry throws. *)
Fixpoint highlight_items (itemIndex : nat) (selected : list Slot)
  : Completion (string * nat) :=
  match selected with
  | [] => Normal (EmptyString, itemIndex)
  | None :: _ =>
      Throw "TypeError: Cannot read properties of undefined (reading 'bookTitle')"
  | Some r :: rest =>
      match highlight_items (S itemIndex) rest with
      | Normal (items, next) => Normal (highlight_item itemIndex (obj r) ++ items, next)
      | Throw e => Throw e
      end
  end.

Definition manuscript_item (itemIndex : nat) (b : SiteConfig.Book) (chunk : string)
  : string :=
  NL ++ NL ++ show_nat itemIndex ++ ". Random excerpt from " ++ SiteConfig.name cfg
  ++ "'s book " ++ DQ ++ SiteConfig.title b ++ DQ ++ ":" ++ NL ++ DQ ++ chunk ++ DQ.

Definition has_items (randomHighlights : option (list Slot)) : bool :=
  match randomHighlights with
  | Some (_ :: _) => true
  | _ => false
  end.

(** The section of conversation starters, from the two selections. *)
Definition ideas_section (randomHighlights : option (list Slot))
    (randomManuscriptChunk : option string) : Completion string :=
  if has_items randomHighlights || truthy randomManuscriptChunk then
    match (if has_items randomHighlights
           then highlight_items 1 (default [] randomHighlights)
           else Normal (EmptyString, 1%nat)) with
    | Throw e => Throw e
    | Normal (items, itemIndex) =>
        let excerpt :=
          match SiteConfig.book cfg with
          | Some b =>
              if truthy randomManuscriptChunk
              then manuscript_item itemIndex b (show randomManuscriptChunk)
              else EmptyString
          | None => EmptyString
          end in
        Normal (IDEAS_HEADER ++ items ++ excerpt ++ IDEAS_FOOTER)
    end
  else Normal EmptyString.

(** [buildSystemPrompt(options)] from the point where the three loads
    have settled with [resumeData], [highlightsData] and
    [manuscriptData]. [None]: the random selection of highlights ran out
    of fuel. *)
Definition buildSystemPrompt (resumeData : option ResumeData)
    (highlightsData : option HighlightsData) (manuscriptData : option string)
    (options : Options) (fuel : nat) (g : Rng)
  : option (Completion string * Rng) :=
  let prompt :=
    BASE_SYSTEM_PROMPT
    ++ match resumeData with
       | Some r => resume_section r
       | None => EmptyString
       end in
  match selectRandomHighlights highlightsData options fuel g with
  | None => None
  | Some (randomHighlights, g1) =>
      match selectRandomManuscriptChunk manuscriptData options g1 with
      | (Throw e, g2) => Some (Throw e, g2)
      | (Normal randomManuscriptChunk, g2) =>
          match ideas_section randomHighlights randomManuscriptChunk with
          | Throw e => Some (Throw e, g2)
          | Normal ideas => Some (Normal (prompt ++ ideas), g2)
          end
      end
  end.

End WithConfig.

End PromptBuilder.

(* ===================================================================== *)
(** ** chat.js: ModelManager *)
(* ===================================================================== *)

Module ModelManager.
Import Js Config.

(** A pipeline is known by what it was created with. *)
Record Pipeline : Type := {
  p_model : string;
  p_device : option string;
  p_dtype : option string
}.

(** [tokenizer] holds the model the tokenizer was loaded for; [tf] says
    whether the library is imported; [HF_TOKEN] and [ONNX_NUM_THREADS]
    are the two settings written to its [env], which is taken to
    exist. *)
Record t : Type := {
  pipe : option Pipeline;
  tokenizer : option string;
  currentModelId : option string;
  tf : bool;
  HF_TOKEN : option string;
  ONNX_NUM_THREADS : option nat;
  _loadSeq : nat
}.

(** [new ModelManager()] *)
Definition new : t :=
  {| pipe := None; tokenizer := None; currentModelId := None; tf := false;
     HF_TOKEN := None; ONNX_NUM_THREADS := None; _loadSeq := 0 |}.

Definition set_pipe (p : option Pipeline) (m : t) : t :=
  {| pipe := p; tokenizer := tokenizer m; currentModelId := currentModelId m;
     tf := tf m; HF_TOKEN := HF_TOKEN m; ONNX_NUM_THREADS := ONNX_NUM_THREADS m;
     _loadSeq := _loadSeq m |}.

Definition set_tokenizer (k : option string) (m : t) : t :=
  {| pipe := pipe m; tokenizer := k; currentModelId := currentModelId m;
     tf := tf m; HF_TOKEN := HF_TOKEN m; ONNX_NUM_THREADS := ONNX_NUM_THREADS m;
     _loadSeq := _loadSeq m |}.

Definition set_currentModelId (modelId : string) (m : t) : t :=
  {| pipe := pipe m; tokenizer := tokenizer m; currentModelId := Some modelId;
     tf := tf m; HF_TOKEN := HF_TOKEN m; ONNX_NUM_THREADS := ONNX_NUM_THREADS m;
     _loadSeq := _loadSeq m |}.

(** The [dtype] of the entries of [MODELS]: every entry has "q4". *)
Definition dtype_of (modelId : string) : option string :=
  match List.find (fun entry => String.eqb (fst entry) modelId) AIChat.MODELS with
  | Some _ => Some "q4"
  | None => None
  end.

(** [navigator.gpu ? "webgpu" : undefined] *)
Definition device_of (gpu : bool) : option string :=
  if gpu then Some "webgpu" else None.

Record LoadResult : Type := {
  success : bool;
  device : string;
  fallback : bool
}.

(** [const seq = ++this._loadSeq] *)
Definition loadModel_enter (m : t) : nat * t :=
  (S (_loadSeq m),
   {| pipe := pipe m; tokenizer := tokenizer m; currentModelId := currentModelId m;
      tf := tf m; HF_TOKEN := HF_TOKEN m; ONNX_NUM_THREADS := ONNX_NUM_THREADS m;
      _loadSeq := S (_loadSeq m) |}).

(** [_cleanup()]: an error of [dispose] is caught, and the [finally]
    block clears both fields. *)
Definition _cleanup (m : t) : t := set_tokenizer None (set_pipe None m).

(** What the runtime answers during one load: the import of the library
    (asked for only when it is not loaded yet), the two attempts of
    [_createPipeline] (with and without [dtype]), the tokenizer (its
    failure is caught and gives [null]) and the pipeline of the fallback
    to the CPU. *)
Record Runtime : Type := {
  imported : Completion unit;
  with_dtype : Completion unit;
  without_dtype : Completion unit;
  tokenizer_loaded : bool;
  on_cpu : Completion unit
}.

(** [_loadTransformers()] *)
Definition _loadTransformers (gpu : bool) (rt : Runtime) (m : t) : Completion unit * t :=
  if tf m then (Normal tt, m)
  else
    match imported rt with
    | Throw e => (Throw e, m)
    | Normal _ =>
        (Normal tt,
         {| pipe := pipe m; tokenizer := tokenizer m; currentModelId := currentModelId m;
            tf := true; HF_TOKEN := HF_TOKEN m;
            ONNX_NUM_THREADS := if gpu then ONNX_NUM_THREADS m else Some 2%nat;
            _loadSeq := _loadSeq m |})
    end.

(** [_configureAuth(hfToken)] *)
Definition _configureAuth (hfToken : option string) (m : t) : t :=
  if truthy hfToken
  then {| pipe := pipe m; tokenizer := tokenizer m; currentModelId := currentModelId m;
          tf := tf m; HF_TOKEN := hfToken; ONNX_NUM_THREADS := ONNX_NUM_THREADS m;
          _loadSeq := _loadSeq m |}
  else m.

(** [_createPipeline(modelId, device, dtype)] *)
Definition _createPipeline (modelId : string) (dev dtype : option string)
    (rt : Runtime) : Completion Pipeline :=
  match with_dtype rt with
  | Normal _ => Normal {| p_model := modelId; p_device := dev; p_dtype := dtype |}
  | Throw _ =>
      match without_dtype rt with
      | Normal _ => Normal {| p_model := modelId; p_device := dev; p_dtype := None |}
      | Throw e => Throw e
      end
  end.

(** [_loadTokenizer(modelId)] *)
Definition _loadTokenizer (modelId : string) (rt : Runtime) : option string :=
  if tokenizer_loaded rt then Some modelId else None.

(** [loadModel] when [_createPipeline] has resolved to [p]: the pipeline
    is stored, then the sequence number is compared. The boolean says
    whether the load goes on. *)
Definition loadModel_pipe (seq : nat) (p : Pipeline) (m : t) : bool * t :=
  let m := set_pipe (Some p) m in
  ((seq =? _loadSeq m)%nat, m).

(** [loadModel] when [_loadTokenizer] has resolved: [None] is the [null]
    of a superseded load. *)
Definition loadModel_tokenizer (seq : nat) (modelId : string) (dev : option string)
    (k : option string) (m : t) : option LoadResult * t :=
  let m := set_tokenizer k m in
  if negb (seq =? _loadSeq m)%nat then (None, m)
  else (Some {| success := true;
                device := if truthy dev then show dev else "cpu";
                fallback := false |},
        set_currentModelId modelId m).

(** [_fallbackToCPU(modelId, seq)] when its pipeline has resolved. *)
Definition _fallbackToCPU (seq : nat) (modelId : string) (m : t)
  : option LoadResult * t :=
  let m := set_pipe (Some {| p_model := modelId; p_device := None; p_dtype := None |}) m in
  if negb (seq =? _loadSeq m)%nat then (None, m)
  else (Some {| success := true; device := "cpu"; fallback := true |}, m).

(** [loadModel(modelId, hfToken)] run from its first line to its last
    with no other load in between. *)
Definition loadModel (modelId : string) (hfToken : option string) (gpu : bool)
    (rt : Runtime) (m : t) : Completion (option LoadResult) * t :=
  let '(seq, m) := loadModel_enter m in
  let m := _cleanup m in
  match _loadTransformers gpu rt m with
  | (Throw error, m) => (Throw error, m)
  | (Normal _, m) =>
      let m := _configureAuth hfToken m in
      let dev := device_of gpu in
      match _createPipeline modelId dev (dtype_of modelId) rt with
      | Normal p =>
          let '(go_on, m) := loadModel_pipe seq p m in
          if go_on then
            let '(result, m) :=
              loadModel_tokenizer seq modelId dev (_loadTokenizer modelId rt) m in
            (Normal result, m)
          else (Normal None, m)
      | Throw error =>
          if truthy dev then
            match on_cpu rt with
            | Normal _ =>
                let '(result, m) := _fallbackToCPU seq modelId m in (Normal result, m)
            | Throw e => (Throw e, m)
            end
          else (Throw error, m)
      end
  end.

(** [/WebGPU|kernel|Rotary interleaved|JSEP/i.test(message)] *)
Definition _isGPUKernelError (message : string) : bool :=
  let lower := toLowerCase message in
  includes lower "webgpu" || includes lower "kernel"
  || includes lower "rotary interleaved" || includes lower "jsep".



(** [generateText(prompt, onUpdate, dynamicParams)], with what the
    runtime answers: [first] is the outcome of the pipeline call, [cpu]
    that of creating the pipeline of the retry and [second] that of the
    call on it. The generated text stands for the result. *)
Definition _retryOnCPU (cpu : Completion unit) (second : Completion string) (m : t)
  : Completion string * t :=
  if negb (truthy (currentModelId m)) then (Throw "No current model for CPU retry", m)
  else
    let modelId := show (currentModelId m) in
    let m := _cleanup m in
    match cpu with
    | Throw e => (Throw e, m)
    | Normal _ =>
        (second,
         set_pipe (Some {| p_model := modelId; p_device := None; p_dtype := None |}) m)
    end.

Definition generateText (first : Completion string) (cpu : Completion unit)
    (second : Completion string) (m : t) : Completion string * t :=
  match pipe m with
  | None => (Throw "No model loaded", m)
  | Some _ =>
      match first with
      | Normal out => (Normal out, m)
      | Throw error =>
          if _isGPUKernelError error then _retryOnCPU cpu second m
          else (Throw error, m)
      end
  end.

End ModelManager.

(* ===================================================================== *)
(** ** Sample data and the rule of the specification *)
(* ===================================================================== *)

(** The configuration of the repository with graceful degradation turned
    off, and a server that answers 404 to every request. *)
Definition strict_config : SiteConfig.t := {|
  SiteConfig.name := SiteConfig.name SiteConfig.SITE_CONFIG;
  SiteConfig.resumeJsonPath := SiteConfig.resumeJsonPath SiteConfig.SITE_CONFIG;
  SiteConfig.highlightsPath := SiteConfig.highlightsPath SiteConfig.SITE_CONFIG;
  SiteConfig.manuscriptPath := SiteConfig.manuscriptPath SiteConfig.SITE_CONFIG;
  SiteConfig.resumePdfPath := SiteConfig.resumePdfPath SiteConfig.SITE_CONFIG;
  SiteConfig.book := SiteConfig.book SiteConfig.SITE_CONFIG;
  SiteConfig.personalityTrait := SiteConfig.personalityTrait SiteConfig.SITE_CONFIG;
  SiteConfig.expertiseAreas := SiteConfig.expertiseAreas SiteConfig.SITE_CONFIG;
  SiteConfig.useBookPromos := true;
  SiteConfig.useFunnyQuips := true;
  SiteConfig.gracefulDegradation := false
|}.

Definition not_found {B} (_ : string) : Js.Completion (Context.Response B) :=
  Js.Normal {| Context.ok := false;
               Context.statusText := "Not Found";
               Context.body := Js.Throw "SyntaxError: Unexpected token" |}.

Definition fresh_env : Context.Env :=
  {| Context.loader := Context.new_DataLoader; Context.console := [] |}.

Definition five_quotes : Context.HighlightsData :=
  {| Context.books := Some [
       {| Context.book_title := "On Writing"; Context.book_author := "A";
          Context.highlights := Some [ {| Context.text := "q0" |};
                                       {| Context.text := "q1" |} ] |};
       {| Context.book_title := "Untitled"; Context.book_author := "B";
          Context.highlights := None |};
       {| Context.book_title := "On Code"; Context.book_author := "C";
          Context.highlights := Some [ {| Context.text := "q2" |};
                                       {| Context.text := "q3" |};
                                       {| Context.text := "q4" |} ] |} ] |}.

Definition zero_rng : Js.Rng :=
  {| Js.draws := fun _ => {| Js.num := 0; Js.den := 1 |}; Js.pos := 0 |}.

Definition texts (selected : list Context.Slot) : list (option string) :=
  map (fun slot => match slot with
                   | Some r => Some (Context.h_text (Context.obj r))
                   | None => None
                   end) selected.

(** [s.repeat(n)] *)
Fixpoint repeat_string (s : string) (n : nat) : string :=
  match n with
  | O => EmptyString
  | S n' => s ++ repeat_string s n'
  end.

(** A manuscript with a chapter header, a paragraph of 100 characters
    and one of 101. *)
Definition short_paragraph : string := repeat_string "a" 100.
Definition long_paragraph : string := repeat_string "b" 101.
Definition sample_manuscript : string :=
  "Chapter 1: Test" ++ Js.NL ++ Js.NL ++ short_paragraph
  ++ Js.NL ++ Js.NL ++ long_paragraph ++ Js.NL.

(** The truncation rule in the words of the specification: the first 40%
    of the sentences of the paragraph. *)
Definition spec_truncate (chunk : string) : string :=
  let sentences := Js.split_class Context.is_sentence_end chunk in
  Js.join "." (take (length sentences * 4 / 10) sentences) ++ ".".

(** Paragraphs of twenty and of five sentences. *)
Definition twenty_sentences : string :=
  Js.trim (repeat_string "The quick brown fox jumps. " 20).

Definition five_sentences : string :=
  Js.trim (repeat_string "The quick brown fox jumps over the lazy dog, then rests for a while! " 5).

Definition five_sentences_excerpt : string :=
  "The quick brown fox jumps over the lazy dog, then rests for a while. The quick brown fox jumps over the lazy dog, then rests for a while.".

Definition with_history_limit (n : Z) : Config.DynamicValues :=
  {| Config.MAX_NEW_TOKENS := 80; Config.TEMPERATURE := 5 # 10;
     Config.TOP_P := 8 # 10; Config.TOP_K := 15;
     Config.REPETITION_PENALTY := 102 # 100;
     Config.HISTORY_LIMIT := n; Config.MAX_CONTEXT_LENGTH := 800 |}.

(** An engine with six turns and a window of two. *)
Definition sample_engine : ChatEngine.t :=
  {| ChatEngine.history :=
       [("user", "What is the BOOK about?"); ("assistant", "It is a book about robots.");
        ("user", "hm"); ("assistant", "Which BOOK?");
        ("user", "e"); ("assistant", "f")];
     ChatEngine._genSeq := 0;
     ChatEngine.currentParams := Some (with_history_limit 2) |}.

Definition no_debug : Config.Debug :=
  {| Config.lastFormatted := None; Config.lastResponse := None |}.

(** A configuration with no book and the quips turned off. *)
Definition bare_config : SiteConfig.t := {|
  SiteConfig.name := SiteConfig.name SiteConfig.SITE_CONFIG;
  SiteConfig.resumeJsonPath := SiteConfig.resumeJsonPath SiteConfig.SITE_CONFIG;
  SiteConfig.highlightsPath := SiteConfig.highlightsPath SiteConfig.SITE_CONFIG;
  SiteConfig.manuscriptPath := SiteConfig.manuscriptPath SiteConfig.SITE_CONFIG;
  SiteConfig.resumePdfPath := SiteConfig.resumePdfPath SiteConfig.SITE_CONFIG;
  SiteConfig.book := None;
  SiteConfig.personalityTrait := SiteConfig.personalityTrait SiteConfig.SITE_CONFIG;
  SiteConfig.expertiseAreas := SiteConfig.expertiseAreas SiteConfig.SITE_CONFIG;
  SiteConfig.useBookPromos := true;
  SiteConfig.useFunnyQuips := false;
  SiteConfig.gracefulDegradation := true
|}.

(** Draws 1/2, then 0 for ever: no promo by chance, then a quip. *)
Definition half_then_zero : Js.Rng :=
  {| Js.draws := fun n => match n with
                          | O => {| Js.num := 1; Js.den := 2 |}
                          | S _ => {| Js.num := 0; Js.den := 1 |}
                          end;
     Js.pos := 0 |}.

(** A freshly connected element with a model loaded. *)
Definition ready_chat : AIChat.t :=
  {| AIChat.chatEngine := ChatEngine.new;
     AIChat.ui := UIController.init;
     AIChat.pipe := true;
     AIChat.debug := no_debug;
     AIChat.rng := zero_rng;
     AIChat.invoked := [] |}.

(** A conversation in which a first request streams one chunk and is then
    superseded by a second one. *)
Definition one_turn_shown : AIChat.t :=
  match AIChat._handleSubmit SiteConfig.SITE_CONFIG "tell me about the book" ready_chat with
  | AIChat.Generating w _ _ => w
  | AIChat.Returned w => w
  end.

Definition first_request_streaming : AIChat.t :=
  let '(req, w) :=
    AIChat._generateResponse_start "tell me about the book" 1 "prompt A" one_turn_shown in
  snd (AIChat.onUpdate req (AIChat.ChunkString "The book") w).

Definition first_request_later : AIChat.Request :=
  let '(req, w) :=
    AIChat._generateResponse_start "tell me about the book" 1 "prompt A" one_turn_shown in
  fst (AIChat.onUpdate req (AIChat.ChunkString "The book") w).

Definition two_requests_started : AIChat.t :=
  snd (AIChat._generateResponse_start "and the robots?" 3 "prompt B" first_request_streaming).

(** The data of the repository's own tests of the filter and of the
    truncation. *)
Definition test_mockData : string :=
  Js.join (Js.NL ++ Js.NL) [
    "Chapter 1: Test";
    "Copyright 2021";
    "This is a good paragraph with enough content to be included in the random excerpts. It talks about programming and AI.";
    "Short";
    "Another good paragraph that discusses evolution and machine learning in detail. This has sufficient content.";
    "ISBN: 123";
    "[ ||| ]" ].

Definition test_longChunk : string :=
  "This is a very long paragraph that goes on and on with many sentences. "
  ++ "The first sentence is about AI. The second sentence talks about evolution. "
  ++ "The third sentence discusses programming. The fourth sentence mentions biology. "
  ++ "The fifth sentence is about machine learning. The sixth sentence covers data science. "
  ++ "This continues for many more sentences that should be truncated.".

(** A server that answers every request with [data]. *)
Definition serve {B} (data : B) (_ : string) : Js.Completion (Context.Response B) :=
  Js.Normal {| Context.ok := true; Context.statusText := "OK";
               Context.body := Js.Normal data |}.

Definition sample_resume : Context.ResumeData :=
  {| Context.resume_name := "Your Name";
     Context.currentRole := "Engineer";
     Context.experience := "10 years";
     Context.summary := "Software And Data";
     Context.technicalSkills := ["JavaScript"; "Python"];
     Context.workHistory :=
       [ {| Context.role := "Engineer"; Context.company := "Acme";
            Context.period := "2020-2024"; Context.job_description := "Built things" |} ];
     Context.education := ["BSc"];
     Context.publications := ["A book"];
     Context.background := "Biology" |}.


(** Draws 0/5, 1/5, 2/5, ... in turn. *)
Definition counting_rng : Js.Rng :=
  {| Js.draws := fun n => {| Js.num := N.of_nat n; Js.den := 5 |}; Js.pos := 0 |}.

(** The first three objects of the flattened list of [five_quotes]. *)
Definition firsts_of_five : list Context.Ref :=
  take 3 (Context.allHighlights (default [] (Context.books five_quotes))).

(** A manuscript with two candidate paragraphs. *)
Definition two_paragraphs : string :=
  long_paragraph ++ Js.NL ++ Js.NL ++ repeat_string "c" 120.

(** A paragraph of 400 characters with no sentence end. *)
Definition unpunctuated : string := repeat_string "word" 100.

(** No character of [s] ends a sentence. *)
Fixpoint no_sentence_end (s : string) : bool :=
  match s with
  | EmptyString => true
  | String c s' => negb (Context.is_sentence_end c) && no_sentence_end s'
  end.


(** No highlight and no candidate paragraph to select from. *)
Definition no_highlights (data : option Context.HighlightsData) : Prop :=
  match data with
  | Some d =>
      match Context.books d with
      | Some bs => Context.collect bs = []
      | None => True
      end
  | None => True
  end.

Definition no_paragraphs (manuscript : option string) : Prop :=
  match manuscript with
  | Some m => Context.paragraphs m = []
  | None => True
  end.


(** The prompt built from the sample résumé, five quotes and the sample
    manuscript with seed 0. *)
Definition seeded_sample_prompt : string :=
  match PromptBuilder.buildSystemPrompt SiteConfig.SITE_CONFIG (Some sample_resume)
          (Some five_quotes) (Some sample_manuscript)
          {| Context.seed := Some 0; Context.randomize := None |} 0 zero_rng with
  | Some (Js.Normal prompt, _) => prompt
  | _ => EmptyString
  end.

(** The roles under which the handlers record a turn. *)
Definition known_role (turn : ChatEngine.Turn) : Prop :=
  fst turn = "user" \/ fst turn = "assistant".

Definition roles_ok (history : list ChatEngine.Turn) : Prop :=
  Forall known_role history.

(** The line of a past turn in the prompt without a chat template. *)
Definition history_line (turn : ChatEngine.Turn) : string :=
  (if String.eqb (fst turn) "me" then "User" else "Assistant") ++ ": " ++ snd turn.

(** A selection made of distinct objects of [all]. *)
Definition distinct_objects (all : list Context.Ref) (rs : list Context.Ref) : Prop :=
  NoDup (Context.oid <$> rs) /\ forall r, r ∈ rs -> all !! Context.oid r = Some r.

(** The message store is well formed: every reference attached to the
    container points into the store, and none is attached twice. *)
Definition ui_wf (u : UIController.t) : Prop :=
  Forall (fun r => (r < length (UIController.elements u))%nat) (UIController.children u)
  /\ NoDup (UIController.children u).

(** Every element of [u] is still in [u'], at the same reference, with
    the same role and sender. *)
Definition elements_persist (u u' : UIController.t) : Prop :=
  forall i el,
    UIController.elements u !! i = Some el ->
    exists el',
      UIController.elements u' !! i = Some el'
      /\ UIController.data_role el' = UIController.data_role el
      /\ UIController.sender el' = UIController.sender el.

Definition ui_ok (u u' : UIController.t) : Prop :=
  (ui_wf u -> ui_wf u') /\ elements_persist u u'.

(** What a step does to the history: nothing, or it adds turns with a
    known role at the end, or it empties it. *)
Definition history_step (h h' : list ChatEngine.Turn) : Prop :=
  h' = [] \/ exists added, h' = (h ++ added)%list /\ roles_ok added /\ (length added <= 2)%nat.

(** The state in which [_handleSubmit] gives control back. *)
Definition submit_world (s : AIChat.Submit) : AIChat.t :=
  match s with
  | AIChat.Returned w => w
  | AIChat.Generating w _ _ => w
  end.

(** Three runtimes: one in which everything loads, one in which the
    pipeline can only be created on the CPU, and one in which no
    pipeline can be created. *)
Definition all_loads : ModelManager.Runtime :=
  {| ModelManager.imported := Js.Normal tt;
     ModelManager.with_dtype := Js.Normal tt;
     ModelManager.without_dtype := Js.Normal tt;
     ModelManager.tokenizer_loaded := true;
     ModelManager.on_cpu := Js.Normal tt |}.

Definition only_cpu_loads : ModelManager.Runtime :=
  {| ModelManager.imported := Js.Normal tt;
     ModelManager.with_dtype := Js.Throw "no available backend found";
     ModelManager.without_dtype := Js.Throw "no available backend found";
     ModelManager.tokenizer_loaded := true;
     ModelManager.on_cpu := Js.Normal tt |}.

Definition nothing_loads : ModelManager.Runtime :=
  {| ModelManager.imported := Js.Normal tt;
     ModelManager.with_dtype := Js.Throw "Failed to fetch";
     ModelManager.without_dtype := Js.Throw "Failed to fetch";
     ModelManager.tokenizer_loaded := false;
     ModelManager.on_cpu := Js.Throw "Failed to fetch" |}.

Definition SMOL_135 : string := "HuggingFaceTB/SmolLM2-135M-Instruct".
Definition SMOL_360 : string := "HuggingFaceTB/SmolLM2-360M-Instruct".

(** The manager after [SMOL_135] has been loaded on the GPU. *)
Definition smol_135_loaded : ModelManager.t :=
  snd (ModelManager.loadModel SMOL_135 None true all_loads ModelManager.new).

(** The pipeline that a load of [SMOL_135] on the GPU creates. *)
Definition smol_135_pipeline : ModelManager.Pipeline :=
  {| ModelManager.p_model := SMOL_135;
     ModelManager.p_device := Some "webgpu";
     ModelManager.p_dtype := Some "q4" |}.

(** The manager after a load of [SMOL_135] has run up to the creation of
    its pipeline and a load of [SMOL_360] has then run to its end. *)
Definition smol_360_overtakes : ModelManager.t :=
  snd (ModelManager.loadModel SMOL_360 None true all_loads
         (ModelManager._configureAuth None
            (snd (ModelManager._loadTransformers true all_loads
                    (ModelManager._cleanup
                       (snd (ModelManager.loadModel_enter ModelManager.new))))))).

(* ===================================================================== *)
(** ** Properties of the primitives *)
(* ===================================================================== *)

Example split_nn_three_newlines :
  Js.split_nn ("a" ++ Js.NL ++ Js.NL ++ Js.NL ++ "b") = ["a"; Js.NL ++ "b"].
Proof. reflexivity. Qed.

Example split_class_spaces :
  Js.split_class Js.is_space " tell  me more "
  = [EmptyString; "tell"; "me"; "more"; EmptyString].
Proof. reflexivity. Qed.

Example trim_both_ends : Js.trim "  a b  " = "a b".
Proof. reflexivity. Qed.

Example slice_relative :
  Js.slice [1;2;3;4;5] (-2) None = [4;5] /\
  Js.slice [1;2;3;4;5] 0 (Some (-2)) = [1;2;3] /\
  Js.slice [1;2;3;4;5] (-9) None = [1;2;3;4;5] /\
  Js.slice [1;2;3;4;5] 0 None = [1;2;3;4;5].
Proof. repeat split; reflexivity. Qed.

Example escapeHTML_link :
  UIController._escapeHTML "see [a<b](u) & [x]" 
  = "see " ++ UIController.anchor "a&lt;b" "u" ++ " &amp; [x]".
Proof. reflexivity. Qed.

Example formatMessageContent_paragraphs :
  UIController._formatMessageContent ("a" ++ Js.NL ++ Js.NL ++ Js.NL ++ "b" ++ Js.NL ++ "c")
  = "<p>a</p><p>b" ++ Js.NL ++ "c</p>".
Proof. reflexivity. Qed.

(** A draw is a number of [0, 1). *)
Lemma value_range (d : Js.Draw) : (0 <= Js.value d)%Q /\ (Js.value d < 1)%Q.
Proof.
  unfold Js.value, Qle, Qlt; simpl.
  assert (Hlt : (Js.num d `mod` N.pos (Js.den d) < N.pos (Js.den d))%N)
    by (apply N.mod_lt; discriminate).
  apply N2Z.inj_lt in Hlt. simpl in Hlt.
  pose proof (N2Z.is_nonneg (Js.num d `mod` N.pos (Js.den d))).
  split; lia.
Qed.

(** [Math.floor(Math.random() * n)] is an index below [n]. *)
Lemma floor_mul_range (d : Js.Draw) (n : Z) :
  0 < n -> 0 <= Js.floor_mul (Js.value d) n < n.
Proof.
  intros Hn. destruct (value_range d) as [H0 H1]. unfold Js.floor_mul.
  assert (Hn' : (0 < inject_Z n)%Q) by (change 0%Q with (inject_Z 0); rewrite <- Zlt_Qlt; exact Hn).
  split.
  - change 0 with (Qfloor 0). apply Qfloor_resp_le.
    apply Qmult_le_0_compat; [exact H0 | apply Qlt_le_weak; exact Hn'].
  - rewrite Zlt_Qlt. eapply Qle_lt_trans; [apply Qfloor_le |].
    assert (Hone : (1 * inject_Z n == inject_Z n)%Q) by ring.
    rewrite <- Hone at 2.
    apply Qmult_lt_compat_r; assumption.
Qed.

Lemma floor_mul_zero (r : Q) : Js.floor_mul r 0 = 0.
Proof.
  unfold Js.floor_mul.
  assert (H : (r * inject_Z 0 == 0)%Q) by ring.
  rewrite H. reflexivity.
Qed.

Lemma get_nil {A} (i : option Z) : Js.get (@nil A) i = None.
Proof. destruct i as [i|]; simpl; [destruct (i <? 0) |]; reflexivity. Qed.

Lemma slice_sublist {A} (l : list A) (start : Z) (stop : option Z) :
  Js.slice l start stop `sublist_of` l.
Proof.
  unfold Js.slice.
  etrans; [apply sublist_take | apply sublist_drop].
Qed.

(** [l.slice(-n)] and [l.slice(0, -n)] for a positive [n]. *)
Lemma slice_last {A} (l : list A) (n : Z) :
  0 < n ->
  Js.slice l (- n) None = drop (length l - Z.to_nat n) l.
Proof.
  intros Hn. unfold Js.slice, Js.rel_index.
  destruct (Z.ltb_spec (- n) 0); [| lia].
  replace (Z.to_nat (Z.max (Z.of_nat (length l) + - n) 0))
    with (length l - Z.to_nat n)%nat by lia.
  apply take_ge. rewrite length_drop. lia.
Qed.

Lemma slice_but_last {A} (l : list A) (n : Z) :
  0 < n ->
  Js.slice l 0 (Some (- n)) = take (length l - Z.to_nat n) l.
Proof.
  intros Hn. unfold Js.slice, Js.rel_index.
  destruct (Z.ltb_spec 0 0); [lia |].
  destruct (Z.ltb_spec (- n) 0); [| lia].
  replace (Z.to_nat (Z.min 0 (Z.of_nat (length l)))) with 0%nat by lia.
  simpl. f_equal. lia.
Qed.

(* ===================================================================== *)
(** ** Content Loader *)
(* ===================================================================== *)

(** Runs a loader: unfolds the operations of its monad. *)
Ltac run_loader :=
  unfold Context.loadResumeData, Context.loadHighlightsData,
    Context.loadManuscriptData, Context.bind, Context.try_catch,
    Context.get_loader, Context.await, Context.ret, Context.throw,
    Context.warn, Context.set_loader;
  simpl.

Section Loader.
Import Context.

Variable cfg : SiteConfig.t.

(** No loader ever ends in an exception: the [catch] block of each one
    covers the whole of its [try] block, the [throw] included. *)
Lemma loadResumeData_never_throws fetch e :
  exists r, fst (loadResumeData cfg fetch e) = Js.Normal r.
Proof.
  run_loader. destruct (resumeData (loader e)); [eauto |].
  destruct (negb _); [eauto |].
  destruct (fetch _) as [response | msg]; [| eauto].
  destruct (negb (ok response)).
  - destruct (SiteConfig.gracefulDegradation cfg); eauto.
  - destruct (body response); eauto.
Qed.

Lemma loadHighlightsData_never_throws fetch e :
  exists r, fst (loadHighlightsData cfg fetch e) = Js.Normal r.
Proof.
  run_loader. destruct (highlightsData (loader e)); [eauto |].
  destruct (negb _); [eauto |].
  destruct (fetch _) as [response | msg]; [| eauto].
  destruct (negb (ok response)).
  - destruct (SiteConfig.gracefulDegradation cfg); eauto.
  - destruct (body response); eauto.
Qed.

Lemma loadManuscriptData_never_throws fetch e :
  exists r, fst (loadManuscriptData cfg fetch e) = Js.Normal r.
Proof.
  run_loader. destruct (Js.truthy (manuscriptData (loader e))); [eauto |].
  destruct (negb _); [eauto |].
  destruct (fetch _) as [response | msg]; [| eauto].
  destruct (negb (ok response)).
  - destruct (SiteConfig.gracefulDegradation cfg); eauto.
  - destruct (body response); eauto.
Qed.

(** With graceful degradation enabled, a response that is not ok gives
    [null] and the "not found" warning. *)
Lemma loadResumeData_graceful fetch e status b :
  SiteConfig.gracefulDegradation cfg = true ->
  resumeData (loader e) = None ->
  Js.truthy (SiteConfig.resumeJsonPath cfg) = true ->
  fetch (Js.show (SiteConfig.resumeJsonPath cfg))
    = Js.Normal {| ok := false; statusText := status; body := b |} ->
  loadResumeData cfg fetch e
  = (Js.Normal None,
     {| loader := loader e;
        console := console e ++
          ["Resume not found at " ++ Js.show (SiteConfig.resumeJsonPath cfg)
           ++ ", continuing without it"] |}).
Proof.
  intros Hg Hcache Hpath Hfetch.
  run_loader. rewrite Hcache, Hpath. simpl. rewrite Hfetch. simpl. rewrite Hg. reflexivity.
Qed.

End Loader.

(** C1 (as the code behaves). When the response is not ok and graceful
    degradation is disabled, each loader raises its "Failed to fetch"
    error inside its own [try] block; the [catch] block of the same
    function takes it, logs a warning and returns [null]. The call ends
    normally with [null] for the resume, the highlights and the
    manuscript alike: no fetch error reaches the caller. *)
Theorem fetch_error_is_caught_when_degradation_disabled
    (cfg : SiteConfig.t) (e : Context.Env) (status : string)
    (fetchR : string -> Js.Completion (Context.Response Context.ResumeData))
    (fetchH : string -> Js.Completion (Context.Response Context.HighlightsData))
    (fetchM : string -> Js.Completion (Context.Response string))
    (bR : Js.Completion Context.ResumeData)
    (bH : Js.Completion Context.HighlightsData)
    (bM : Js.Completion string) :
  SiteConfig.gracefulDegradation cfg = false ->
  Context.resumeData (Context.loader e) = None ->
  Context.highlightsData (Context.loader e) = None ->
  Js.truthy (Context.manuscriptData (Context.loader e)) = false ->
  Js.truthy (SiteConfig.resumeJsonPath cfg) = true ->
  Js.truthy (SiteConfig.highlightsPath cfg) = true ->
  Js.truthy (SiteConfig.manuscriptPath cfg) = true ->
  fetchR (Js.show (SiteConfig.resumeJsonPath cfg))
    = Js.Normal {| Context.ok := false; Context.statusText := status; Context.body := bR |} ->
  fetchH (Js.show (SiteConfig.highlightsPath cfg))
    = Js.Normal {| Context.ok := false; Context.statusText := status; Context.body := bH |} ->
  fetchM (Js.show (SiteConfig.manuscriptPath cfg))
    = Js.Normal {| Context.ok := false; Context.statusText := status; Context.body := bM |} ->
  Context.loadResumeData cfg fetchR e
  = (Js.Normal None,
     {| Context.loader := Context.loader e;
        Context.console := Context.console e ++
          ["Could not load resume data: Failed to fetch resume: " ++ status] |})
  /\ Context.loadHighlightsData cfg fetchH e
  = (Js.Normal None,
     {| Context.loader := Context.loader e;
        Context.console := Context.console e ++
          ["Could not load highlights data: Failed to fetch highlights: " ++ status] |})
  /\ Context.loadManuscriptData cfg fetchM e
  = (Js.Normal None,
     {| Context.loader := Context.loader e;
        Context.console := Context.console e ++
          ["Could not load manuscript data: Failed to fetch manuscript: " ++ status] |}).
Proof.
  intros Hg HcR HcH HcM HpR HpH HpM HfR HfH HfM.
  run_loader. rewrite HcR, HcH, HcM, HpR, HpH, HpM. simpl.
  rewrite HfR, HfH, HfM. simpl. rewrite Hg. auto.
Qed.


(** The theorem at the strict configuration, with every fetch answered 404. *)
Lemma fetch_error_is_caught_witness :
  Context.loadResumeData strict_config not_found fresh_env
  = (Js.Normal None,
     {| Context.loader := Context.new_DataLoader;
        Context.console :=
          ["Could not load resume data: Failed to fetch resume: Not Found"] |})
  /\ Context.loadHighlightsData strict_config not_found fresh_env
  = (Js.Normal None,
     {| Context.loader := Context.new_DataLoader;
        Context.console :=
          ["Could not load highlights data: Failed to fetch highlights: Not Found"] |})
  /\ Context.loadManuscriptData strict_config not_found fresh_env
  = (Js.Normal None,
     {| Context.loader := Context.new_DataLoader;
        Context.console :=
          ["Could not load manuscript data: Failed to fetch manuscript: Not Found"] |}).
Proof.
  apply (fetch_error_is_caught_when_degradation_disabled
           strict_config fresh_env "Not Found" not_found not_found not_found
           (Js.Throw "SyntaxError: Unexpected token")
           (Js.Throw "SyntaxError: Unexpected token")
           (Js.Throw "SyntaxError: Unexpected token")); reflexivity.
Defined.

(* ===================================================================== *)
(** ** Prompt Assembler: selection *)
(* ===================================================================== *)

Lemma deterministic_seeded (s : Z) (rz : option bool) :
  Context.deterministic {| Context.seed := Some s; Context.randomize := rz |} = true.
Proof. reflexivity. Qed.

(** The seeded branch of [selectRandomHighlights] returns without
    reading the source of draws or the fuel. *)
Lemma selectRandomHighlights_seeded data options fuel g :
  Context.deterministic options = true ->
  exists r,
    Context.selectRandomHighlights data options fuel g = Some (r, g)
    /\ forall fuel' g',
         Context.selectRandomHighlights data options fuel' g' = Some (r, g').
Proof.
  intros Hd. unfold Context.selectRandomHighlights.
  destruct data as [d|]; [| eauto].
  destruct (Context.books d) as [bs|]; [| eauto].
  destruct (length (Context.allHighlights bs) <? 1)%nat; [eauto |].
  rewrite Hd. eauto.
Qed.

Lemma select_index_seeded n options g :
  Context.deterministic options = true ->
  Context.select_index n options g
  = (Js.rem (Context.seed_or_zero options) (Z.of_nat n), g).
Proof. intros Hd. unfold Context.select_index. rewrite Hd. reflexivity. Qed.

Lemma selectRandomManuscriptChunk_seeded manuscript options g g' :
  Context.deterministic options = true ->
  snd (Context.selectRandomManuscriptChunk manuscript options g) = g
  /\ fst (Context.selectRandomManuscriptChunk manuscript options g)
     = fst (Context.selectRandomManuscriptChunk manuscript options g').
Proof.
  intros Hd. unfold Context.selectRandomManuscriptChunk.
  destruct (negb (Js.truthy manuscript)); [auto |].
  destruct (length _ =? 0)%nat; [auto |].
  unfold Context.selected_paragraph.
  rewrite !select_index_seeded by exact Hd.
  destruct (Js.get _ _); auto.
Qed.

(** C3. With a seed, the highlight selection and the manuscript-chunk
    selection are functions of their inputs and the seed alone: whatever
    the source of random draws (and the fuel of the model) of two
    invocations, both return, and they return the same result. *)
Theorem seeded_selection_is_deterministic
    (data : option Context.HighlightsData) (manuscript : option string)
    (s : Z) (rz : option bool) (fuel1 fuel2 : nat) (g1 g2 : Js.Rng) :
  let options := {| Context.seed := Some s; Context.randomize := rz |} in
  (exists r,
     Context.selectRandomHighlights data options fuel1 g1 = Some (r, g1)
     /\ Context.selectRandomHighlights data options fuel2 g2 = Some (r, g2))
  /\ fst (Context.selectRandomManuscriptChunk manuscript options g1)
     = fst (Context.selectRandomManuscriptChunk manuscript options g2).
Proof.
  intros options. split.
  - destruct (selectRandomHighlights_seeded data options fuel1 g1
                (deterministic_seeded s rz)) as (r & H1 & H2).
    exists r. split; [exact H1 | apply H2].
  - apply selectRandomManuscriptChunk_seeded, deterministic_seeded.
Qed.

(** C4. With exactly five quotes in the flattened list and seed 0, the
    seeded selection returns three highlights: the objects at indices 0,
    17 mod 5 and 34 mod 5 of the flattened list, in that order, which are
    three different objects. *)
Theorem five_quotes_seed_zero
    (d : Context.HighlightsData) (bs : list Context.BookEntry)
    (rz : option bool) (fuel : nat) (g : Js.Rng) :
  Context.books d = Some bs ->
  length (Context.collect bs) = 5%nat ->
  let all := Context.allHighlights bs in
  exists a b c : Context.Ref,
    Context.selectRandomHighlights (Some d)
      {| Context.seed := Some 0; Context.randomize := rz |} fuel g
    = Some (Some [Some a; Some b; Some c], g)
    /\ all !! 0%nat = Some a
    /\ all !! Z.to_nat (17 mod 5) = Some b
    /\ all !! Z.to_nat (34 mod 5) = Some c
    /\ NoDup [Context.oid a; Context.oid b; Context.oid c].
Proof.
  intros Hbooks Hlen all. subst all.
  unfold Context.selectRandomHighlights, Context.allHighlights.
  rewrite Hbooks.
  destruct (Context.collect bs) as [|h0 [|h1 [|h2 [|h3 [|h4 [|h5 rest]]]]]];
    try discriminate Hlen.
  eexists _, _, _. split; [reflexivity |].
  repeat split; try reflexivity.
  simpl. match goal with |- NoDup ?l => exact (bool_decide_unpack (NoDup l) I) end.
Qed.


(** The theorem at five quotes spread over three books. *)
Lemma five_quotes_seed_zero_witness :
  exists a b c : Context.Ref,
    Context.selectRandomHighlights (Some five_quotes)
      {| Context.seed := Some 0; Context.randomize := None |} 0 zero_rng
    = Some (Some [Some a; Some b; Some c], zero_rng)
    /\ Context.allHighlights
         (default [] (Context.books five_quotes)) !! 0%nat = Some a
    /\ Context.allHighlights
         (default [] (Context.books five_quotes)) !! Z.to_nat (17 mod 5) = Some b
    /\ Context.allHighlights
         (default [] (Context.books five_quotes)) !! Z.to_nat (34 mod 5) = Some c
    /\ NoDup [Context.oid a; Context.oid b; Context.oid c].
Proof.
  apply (five_quotes_seed_zero five_quotes _ None 0%nat zero_rng); reflexivity.
Defined.


Example five_quotes_texts :
  match Context.selectRandomHighlights (Some five_quotes)
          {| Context.seed := Some 0; Context.randomize := None |} 0 zero_rng with
  | Some (Some selected, _) => texts selected = [Some "q0"; Some "q2"; Some "q4"]
  | _ => False
  end.
Proof. reflexivity. Qed.

(** A negative seed reads [allHighlights] at a negative index: the
    selection then holds [undefined] entries. *)
Example negative_seed_selects_undefined :
  fst <$> Context.selectRandomHighlights (Some five_quotes)
            {| Context.seed := Some (-1); Context.randomize := None |} 0 zero_rng
  = Some (Some [None;
                Some {| Context.oid := 1;
                        Context.obj := {| Context.h_text := "q1";
                                          Context.bookTitle := "On Writing";
                                          Context.author := "A" |} |};
                Some {| Context.oid := 3;
                        Context.obj := {| Context.h_text := "q3";
                                          Context.bookTitle := "On Code";
                                          Context.author := "C" |} |}]).
Proof. reflexivity. Qed.

(* ===================================================================== *)
(** ** Prompt Assembler: manuscript excerpts *)
(* ===================================================================== *)

Section Manuscript.
Import Context.


Lemma paragraphs_spec m p :
  p ∈ paragraphs m <->
  (MIN_PARAGRAPH_LENGTH < String.length p)%nat
  /\ not_boilerplate p = true
  /\ p ∈ trimmed_paragraphs m.
Proof.
  unfold paragraphs. rewrite list_elem_of_filter.
  unfold qualifies. rewrite andb_true_iff, Nat.ltb_lt. tauto.
Qed.

Lemma truthy_Some_inv o :
  Js.truthy o = true -> exists s, o = Some s /\ s <> EmptyString.
Proof.
  destruct o as [s|]; [| discriminate]. simpl. intros H.
  exists s. split; [reflexivity |].
  intros ->. discriminate H.
Qed.

(** Every index read by the selection is that of a candidate. *)
Lemma selected_paragraph_candidate ps options g p :
  fst (selected_paragraph ps options g) = Some p -> p ∈ ps.
Proof.
  unfold selected_paragraph.
  destruct (select_index _ _ _) as [[i|] g']; simpl; [| discriminate].
  destruct (i <? 0); [discriminate |].
  apply list_elem_of_lookup_2.
Qed.

(** The seed that is the position of a candidate selects it. *)
Lemma selected_paragraph_by_position ps (i : nat) p rz g :
  ps !! i = Some p ->
  selected_paragraph ps {| seed := Some (Z.of_nat i); randomize := rz |} g
  = (Some p, g).
Proof.
  intros Hi. pose proof (lookup_lt_Some _ _ _ Hi) as Hlt.
  unfold selected_paragraph, select_index, Js.rem. simpl.
  destruct (Z.eqb_spec (Z.of_nat (length ps)) 0) as [E | _]; [exfalso; lia |].
  unfold seed_or_zero. simpl.
  rewrite Z.rem_small by lia.
  destruct (Z.ltb_spec (Z.of_nat i) 0) as [? | _]; [exfalso; lia |].
  rewrite Nat2Z.id, Hi. reflexivity.
Qed.

Lemma chunk_of_selected_paragraph manuscript options g c g' :
  selectRandomManuscriptChunk manuscript options g = (Js.Normal (Some c), g') ->
  exists m p,
    manuscript = Some m
    /\ fst (selected_paragraph (paragraphs m) options g) = Some p
    /\ c = Js.trim (truncate p).
Proof.
  unfold selectRandomManuscriptChunk.
  destruct (Js.truthy manuscript) eqn:Ht; simpl; [| discriminate].
  destruct (truthy_Some_inv _ Ht) as (m & -> & _). simpl.
  destruct (length (paragraphs m) =? 0)%nat; [discriminate |].
  destruct (selected_paragraph _ _ _) as [[p|] g1] eqn:Hsel; [| discriminate].
  intros [= <- <-]. exists m, p. rewrite Hsel. repeat split; reflexivity.
Qed.

Lemma chunk_of_candidate m p options g :
  fst (selected_paragraph (paragraphs m) options g) = Some p ->
  selectRandomManuscriptChunk (Some m) options g
  = (Js.Normal (Some (Js.trim (truncate p))),
     snd (selected_paragraph (paragraphs m) options g)).
Proof.
  intros Hsel. pose proof (selected_paragraph_candidate _ _ _ _ Hsel) as Hin.
  unfold selectRandomManuscriptChunk.
  assert (Hm : Js.truthy (Some m) = true).
  { destruct m; [| reflexivity]. vm_compute in Hin. inversion Hin. }
  rewrite Hm. simpl.
  destruct (paragraphs m) as [|q ps] eqn:Hps; [inversion Hin |]. simpl.
  destruct (selected_paragraph _ _ _) as [o g1]. simpl in *. subst o. reflexivity.
Qed.

(** C6 (counterexample). A manuscript whose only paragraph has exactly
    100 characters, none of them boilerplate: the paragraph is at the
    threshold and passes the other filters, yet it is not a candidate and
    both selection modes return [null]. *)
Lemma paragraph_at_threshold_is_rejected :
  String.length short_paragraph = MIN_PARAGRAPH_LENGTH
  /\ not_boilerplate short_paragraph = true
  /\ trimmed_paragraphs short_paragraph = [short_paragraph]
  /\ paragraphs short_paragraph = []
  /\ selectRandomManuscriptChunk (Some short_paragraph)
       {| seed := Some 0; randomize := None |} zero_rng = (Js.Normal None, zero_rng)
  /\ selectRandomManuscriptChunk (Some short_paragraph) no_options zero_rng
     = (Js.Normal None, zero_rng).
Proof. vm_compute. repeat split; reflexivity. Qed.

(** C6 (amended). A trimmed paragraph of at most 100 characters is never
    the selected paragraph, whatever the options and the draws. A trimmed
    paragraph of the manuscript with more than 100 characters that the
    header and boilerplate filters let through is a candidate, and there
    is a seed for which it is the selected paragraph and the excerpt is
    made from it. *)
Theorem paragraph_length_threshold (m p : string) :
  ((String.length p <= MIN_PARAGRAPH_LENGTH)%nat ->
   forall options g,
     fst (selected_paragraph (paragraphs m) options g) <> Some p)
  /\ (p ∈ trimmed_paragraphs m ->
      (MIN_PARAGRAPH_LENGTH < String.length p)%nat ->
      not_boilerplate p = true ->
      p ∈ paragraphs m
      /\ exists s, forall rz g,
           let options := {| seed := Some s; randomize := rz |} in
           selected_paragraph (paragraphs m) options g = (Some p, g)
           /\ selectRandomManuscriptChunk (Some m) options g
              = (Js.Normal (Some (Js.trim (truncate p))), g)).
Proof.
  split.
  - intros Hshort options g Hsel.
    apply selected_paragraph_candidate, paragraphs_spec in Hsel. lia.
  - intros Hin Hlong Hclean.
    assert (Hcand : p ∈ paragraphs m) by (apply paragraphs_spec; auto).
    split; [exact Hcand |].
    apply list_elem_of_lookup_1 in Hcand as [i Hi].
    exists (Z.of_nat i). intros rz g options.
    pose proof (selected_paragraph_by_position _ _ _ rz g Hi) as Hsel.
    split; [exact Hsel |].
    subst options. rewrite (chunk_of_candidate m p); rewrite Hsel; reflexivity.
Qed.


(** The theorem at the paragraphs of 100 and of 101 characters of the sample
    manuscript. *)
Lemma paragraph_length_threshold_witness :
  (forall options g,
     fst (selected_paragraph (paragraphs sample_manuscript) options g)
     <> Some short_paragraph)
  /\ long_paragraph ∈ paragraphs sample_manuscript
  /\ exists s, forall rz g,
       selected_paragraph (paragraphs sample_manuscript)
         {| seed := Some s; randomize := rz |} g = (Some long_paragraph, g)
       /\ selectRandomManuscriptChunk (Some sample_manuscript)
            {| seed := Some s; randomize := rz |} g
          = (Js.Normal (Some (Js.trim (truncate long_paragraph))), g).
Proof.
  split.
  - apply (proj1 (paragraph_length_threshold sample_manuscript short_paragraph)).
    vm_compute. lia.
  - apply (proj2 (paragraph_length_threshold sample_manuscript long_paragraph)).
    + vm_compute. apply list_elem_of_further, list_elem_of_further, list_elem_of_here.
    + vm_compute. lia.
    + vm_compute. reflexivity.
Defined.


(** C8 (counterexample). A paragraph of twenty sentences, 539 characters
    long: the split has 21 pieces, 40% of which is 8, but the excerpt is
    made of the first three sentences only. *)
Lemma twenty_sentences_keep_three :
  (MAX_CHUNK_LENGTH < String.length twenty_sentences)%nat
  /\ length (Js.split_class is_sentence_end twenty_sentences) = 21%nat
  /\ (21 * 4 / 10 = 8)%nat
  /\ selectRandomManuscriptChunk (Some twenty_sentences)
       {| seed := Some 0; randomize := None |} zero_rng
     = (Js.Normal (Some "The quick brown fox jumps. The quick brown fox jumps. The quick brown fox jumps."),
        zero_rng)
  /\ Js.trim (spec_truncate twenty_sentences)
     = Js.trim (repeat_string "The quick brown fox jumps. " 8)
  /\ Js.trim (truncate twenty_sentences) <> Js.trim (spec_truncate twenty_sentences).
Proof.
  split; [apply Nat.ltb_lt; vm_compute; reflexivity |].
  split; [vm_compute; reflexivity |].
  split; [vm_compute; reflexivity |].
  split; [vm_compute; reflexivity |].
  split; [vm_compute; reflexivity |].
  intros Heq. apply (f_equal String.length) in Heq. vm_compute in Heq. discriminate Heq.
Qed.

Lemma numSentences_range n : (1 <= numSentences n <= 3)%nat.
Proof. unfold numSentences. lia. Qed.

Lemma forty_percent_bounds n :
  ((3 <= n -> 1 <= n * 4 / 10) /\ (n <= 9 -> n * 4 / 10 <= 3)
   /\ (10 <= n -> 4 <= n * 4 / 10) /\ (n <= 2 -> n * 4 / 10 = 0))%nat.
Proof.
  repeat split; intros Hn.
  - apply Nat.div_le_lower_bound; lia.
  - apply Nat.lt_succ_r, Nat.Div0.div_lt_upper_bound. lia.
  - apply Nat.div_le_lower_bound; lia.
  - apply Nat.div_small. lia.
Qed.

Lemma numSentences_forty_percent n :
  (3 <= n <= 9)%nat -> numSentences n = (n * 4 / 10)%nat.
Proof.
  intros Hn. unfold numSentences.
  destruct (forty_percent_bounds n) as (H1 & H2 & _). lia.
Qed.

Lemma numSentences_capped n : (10 <= n)%nat -> numSentences n = 3%nat.
Proof.
  intros Hn. unfold numSentences.
  destruct (forty_percent_bounds n) as (_ & _ & H3 & _). lia.
Qed.

Lemma numSentences_floor n : (n <= 2)%nat -> numSentences n = 1%nat.
Proof.
  intros Hn. unfold numSentences.
  destruct (forty_percent_bounds n) as (_ & _ & _ & H4). lia.
Qed.

(** C8 (amended). The excerpt made from a selected paragraph of more
    than 300 characters is the first [k] pieces of the paragraph split at
    its sentence ends, joined by full stops, where [k] is 40% of the
    number of pieces rounded down, but at least one and at most three.
    It is the first 40% of the pieces when there are three to nine of
    them; from ten pieces on it is the first three. A selected paragraph
    of at most 300 characters is returned whole. *)
Theorem oversized_paragraph_truncation
    (manuscript : option string) (options : Options) (g g' : Js.Rng) (c : string) :
  selectRandomManuscriptChunk manuscript options g = (Js.Normal (Some c), g') ->
  exists m p,
    manuscript = Some m
    /\ fst (selected_paragraph (paragraphs m) options g) = Some p
    /\ ((String.length p <= MAX_CHUNK_LENGTH)%nat -> c = Js.trim p)
    /\ ((MAX_CHUNK_LENGTH < String.length p)%nat ->
        let sentences := Js.split_class is_sentence_end p in
        let n := length sentences in
        let k := Nat.min 3 (Nat.max 1 (n * 4 / 10)) in
        c = Js.trim (Js.join "." (take k sentences) ++ ".")
        /\ (1 <= k <= 3)%nat
        /\ ((3 <= n <= 9)%nat -> c = Js.trim (spec_truncate p))
        /\ ((10 <= n)%nat -> k = 3%nat)).
Proof.
  intros Hsel.
  destruct (chunk_of_selected_paragraph _ _ _ _ _ Hsel) as (m & p & -> & Hp & ->).
  exists m, p. split; [reflexivity |]. split; [exact Hp |].
  split.
  - intros Hle. unfold truncate. apply Nat.ltb_ge in Hle. rewrite Hle. reflexivity.
  - intros Hgt. cbv zeta.
    set (sentences := Js.split_class is_sentence_end p).
    fold (numSentences (length sentences)).
    assert (Htr : truncate p
                  = Js.join "." (take (numSentences (length sentences)) sentences) ++ ".").
    { unfold truncate. apply Nat.ltb_lt in Hgt. rewrite Hgt. reflexivity. }
    rewrite Htr.
    split; [reflexivity |]. split; [apply numSentences_range |]. split.
    + intros Hn. unfold spec_truncate. fold sentences.
      rewrite (numSentences_forty_percent _ Hn). reflexivity.
    + apply numSentences_capped.
Qed.

(** The theorem at a paragraph of five sentences and 344 characters: two of
    its six pieces are kept. *)
Lemma oversized_paragraph_truncation_witness :
  exists m p,
    Some five_sentences = Some m
    /\ fst (selected_paragraph (paragraphs m)
              {| seed := Some 0; randomize := None |} zero_rng) = Some p
    /\ ((String.length p <= MAX_CHUNK_LENGTH)%nat ->
        five_sentences_excerpt = Js.trim p)
    /\ ((MAX_CHUNK_LENGTH < String.length p)%nat ->
        let sentences := Js.split_class is_sentence_end p in
        let n := length sentences in
        let k := Nat.min 3 (Nat.max 1 (n * 4 / 10)) in
        five_sentences_excerpt = Js.trim (Js.join "." (take k sentences) ++ ".")
        /\ (1 <= k <= 3)%nat
        /\ ((3 <= n <= 9)%nat -> five_sentences_excerpt = Js.trim (spec_truncate p))
        /\ ((10 <= n)%nat -> k = 3%nat)).
Proof.
  apply (oversized_paragraph_truncation (Some five_sentences)
           {| seed := Some 0; randomize := None |} zero_rng zero_rng
           five_sentences_excerpt).
  vm_compute. reflexivity.
Defined.

(** The repository's tests of the filter and of the truncation, run on
    the model. *)
Example test_filtering :
  paragraphs test_mockData
  = [ "This is a good paragraph with enough content to be included in the random excerpts. It talks about programming and AI.";
      "Another good paragraph that discusses evolution and machine learning in detail. This has sufficient content." ].
Proof. vm_compute. reflexivity. Qed.

Example test_chunk_truncation :
  truncate test_longChunk
  = "This is a very long paragraph that goes on and on with many sentences. The first sentence is about AI. The second sentence talks about evolution.".
Proof. vm_compute. reflexivity. Qed.

End Manuscript.

(* ===================================================================== *)
(** ** Conversation State and Response Embellisher *)
(* ===================================================================== *)



Section Engine.
Import ChatEngine.

(** The window drawn for a turn lies in the configured range. *)
Lemma getDynamicValues_history_limit (g : Js.Rng) :
  5 <= Config.HISTORY_LIMIT (fst (Config.getDynamicValues g)) <= 10.
Proof.
  unfold Config.getDynamicValues, Config.int_between, Config.float_between, Js.random.
  simpl.
  match goal with
  | |- context [Js.floor_mul (Js.value ?d) (10 - 5 + 1)] =>
      pose proof (floor_mul_range d (10 - 5 + 1) eq_refl)
  end.
  lia.
Qed.

Lemma historyLimit_default : historyLimit new = 8.
Proof. reflexivity. Qed.

Lemma pruneHistory_short (e : t) (currentInput : string) :
  0 < historyLimit e ->
  Z.of_nat (length (history e)) <= historyLimit e ->
  _pruneHistory e currentInput = history e.
Proof.
  intros Hpos Hle. unfold _pruneHistory.
  destruct (Z.leb_spec (Z.of_nat (length (history e))) (historyLimit e)); [| lia].
  rewrite slice_last by exact Hpos.
  replace (length (history e) - Z.to_nat (historyLimit e))%nat with 0%nat by lia.
  reflexivity.
Qed.

Lemma pruneHistory_long (e : t) (currentInput : string) :
  0 < historyLimit e ->
  historyLimit e < Z.of_nat (length (history e)) ->
  let k := (length (history e) - Z.to_nat (historyLimit e))%nat in
  let older := filter (fun turn => relevant (keywords currentInput) turn = true)
                      (take k (history e)) in
  _pruneHistory e currentInput
  = (drop (length older - 2) older ++ drop k (history e))%list.
Proof.
  intros Hpos Hlt k older. unfold _pruneHistory.
  destruct (Z.leb_spec (Z.of_nat (length (history e))) (historyLimit e)); [lia |].
  rewrite (slice_last (history e)) by exact Hpos.
  rewrite slice_but_last by exact Hpos.
  change (Z.neg 2) with (Z.opp 2).
  rewrite slice_last by lia.
  reflexivity.
Qed.

(** The window with which [formatPrompt] leaves the engine is one of
    5..10, whatever the draws. *)
Lemma formatPrompt_begin_window (w : AIChat.t) :
  5 <= historyLimit (AIChat.chatEngine (AIChat.formatPrompt_begin w)) <= 10.
Proof.
  unfold AIChat.formatPrompt_begin.
  pose proof (getDynamicValues_history_limit (AIChat.rng (AIChat.enter AIChat.PromptAssembly w)))
    as Hr.
  destruct (Config.getDynamicValues _) as [params g]. exact Hr.
Qed.

(** C5. For every history, every input and every positive recency window
    [N] (the window of a turn is drawn from 5..10, and is 8 before the
    first draw), pruning returns at most [N + 2] turns, and the turns it
    returns are a subsequence of the history: same turns, same relative
    order. *)
Theorem pruneHistory_bounded_and_ordered (e : t) (currentInput : string) :
  0 < historyLimit e ->
  Z.of_nat (length (_pruneHistory e currentInput)) <= historyLimit e + 2
  /\ _pruneHistory e currentInput `sublist_of` history e.
Proof.
  intros Hpos.
  destruct (Z.le_gt_cases (Z.of_nat (length (history e))) (historyLimit e)) as [Hle | Hgt].
  - rewrite pruneHistory_short by assumption. split; [lia | reflexivity].
  - rewrite pruneHistory_long by lia.
    set (k := (length (history e) - Z.to_nat (historyLimit e))%nat).
    set (older := filter _ (take k (history e))).
    split.
    + rewrite length_app, !length_drop. lia.
    + assert (Hsub : (drop (length older - 2) older ++ drop k (history e))%list
                     `sublist_of` (take k (history e) ++ drop k (history e))%list).
      { apply sublist_app; [| reflexivity].
        etrans; [apply sublist_drop |]. apply sublist_filter. }
      rewrite take_drop in Hsub. exact Hsub.
Qed.

(** The theorem at an engine with six turns and a window of two. *)
Lemma pruneHistory_bounded_and_ordered_witness :
  Z.of_nat (length (_pruneHistory sample_engine "tell me about the robot book"))
    <= historyLimit sample_engine + 2
  /\ _pruneHistory sample_engine "tell me about the robot book"
       `sublist_of` history sample_engine.
Proof.
  apply (pruneHistory_bounded_and_ordered sample_engine "tell me about the robot book").
  reflexivity.
Defined.

Example pruneHistory_sample :
  _pruneHistory sample_engine "tell me about the robot book"
  = [("assistant", "It is a book about robots."); ("assistant", "Which BOOK?");
     ("user", "e"); ("assistant", "f")].
Proof. reflexivity. Qed.

(** With a window of 0, [slice(-0)] is the whole history: the bound needs
    a positive window. *)
Example pruneHistory_zero_window :
  _pruneHistory {| history := [("user", "a"); ("assistant", "b"); ("user", "c")];
                   _genSeq := 0;
                   currentParams := Some (with_history_limit 0) |} "hello"
  = [("user", "a"); ("assistant", "b"); ("user", "c")].
Proof. reflexivity. Qed.

Lemma skip_embellishment_true response :
  (String.length response < MIN_EMBELLISH_LENGTH)%nat
  \/ Js.includes response "apologize" = true
  \/ Js.includes response "not sure" = true ->
  skip_embellishment response = true.
Proof.
  unfold skip_embellishment.
  intros [Hshort | [Hap | Hns]].
  - apply Nat.ltb_lt in Hshort. rewrite Hshort.
    destruct (String.eqb response EmptyString); reflexivity.
  - rewrite Hap. rewrite !orb_true_r. reflexivity.
  - rewrite Hns. rewrite !orb_true_r. reflexivity.
Qed.

(** C7. A reply shorter than 30 characters, or one that contains
    "apologize" or "not sure", is returned unchanged by the finalizer,
    whatever the configuration, the user input and the source of draws;
    no draw is consumed and the debug hook is not written. *)
Theorem short_reply_is_returned_unchanged
    (cfg : SiteConfig.t) (response userText : string) (g : Js.Rng) (d : Config.Debug) :
  (String.length response < MIN_EMBELLISH_LENGTH)%nat
  \/ Js.includes response "apologize" = true
  \/ Js.includes response "not sure" = true ->
  finalizeResponse cfg response userText g d = (response, g, d).
Proof.
  intros Hskip. unfold finalizeResponse.
  rewrite (skip_embellishment_true response Hskip). reflexivity.
Qed.

(** The theorem at a reply of 15 characters and at an apology, both about
    the book. *)
Lemma short_reply_is_returned_unchanged_witness :
  finalizeResponse SiteConfig.SITE_CONFIG "I wrote a book." "tell me about your book"
    zero_rng no_debug
  = ("I wrote a book.", zero_rng, no_debug)
  /\ finalizeResponse SiteConfig.SITE_CONFIG
       "I apologize, but the book is not something I can talk about right now."
       "tell me about your book" zero_rng no_debug
     = ("I apologize, but the book is not something I can talk about right now.",
        zero_rng, no_debug).
Proof.
  split.
  - apply (short_reply_is_returned_unchanged SiteConfig.SITE_CONFIG
             "I wrote a book." "tell me about your book" zero_rng no_debug).
    left. vm_compute. lia.
  - apply (short_reply_is_returned_unchanged SiteConfig.SITE_CONFIG
             "I apologize, but the book is not something I can talk about right now."
             "tell me about your book" zero_rng no_debug).
    right. left. reflexivity.
Defined.

(** A long reply about the book does get a promo under the repository's
    configuration. *)
Example long_reply_gets_promo :
  fst (fst (finalizeResponse SiteConfig.SITE_CONFIG
              "The book covers evolution and machine learning in depth."
              "what is it about?" zero_rng no_debug))
  = "The book covers evolution and machine learning in depth." ++ Js.NL ++ Js.NL
    ++ "Speaking of which, there's a book called 'Your Awesome Book Title' that you might find interesting. Check it out at https://example.com/your-book.".
Proof. reflexivity. Qed.

End Engine.


Section Embellisher.
Import ChatEngine.

Lemma from_list_nil options g : fst (Context.from_list [] options g) = None.
Proof.
  unfold Context.from_list.
  destruct (Context.select_index _ _ _) as [i g']. simpl. apply get_nil.
Qed.

Lemma BOOK_PROMOS_disabled cfg :
  SiteConfig.book cfg = None \/ SiteConfig.useBookPromos cfg = false ->
  Context.BOOK_PROMOS cfg = [].
Proof.
  unfold Context.BOOK_PROMOS, Context.generateBookPromos.
  intros [-> | Hoff]; [reflexivity |].
  rewrite Hoff. destruct (SiteConfig.book cfg); reflexivity.
Qed.

Lemma FUNNY_QUIPS_disabled cfg :
  SiteConfig.useFunnyQuips cfg = false -> Context.FUNNY_QUIPS cfg = [].
Proof. unfold Context.FUNNY_QUIPS. intros ->. reflexivity. Qed.

(** C9. When the book is absent or the promos are turned off,
    [BOOK_PROMOS] is empty and [selectRandomPromo] returns [undefined]
    in both modes; a reply that passes the gate and has a book trigger
    (or draws the promo chance) then ends in the text "undefined". When
    the quips are turned off, [FUNNY_QUIPS] is empty, [selectRandomQuip]
    returns [undefined], and a reply that draws the quip ends in
    "*undefined*". *)
Theorem empty_list_appends_undefined (cfg : SiteConfig.t) :
  ((SiteConfig.book cfg = None \/ SiteConfig.useBookPromos cfg = false) ->
   Context.BOOK_PROMOS cfg = []
   /\ (forall options g, fst (Context.selectRandomPromo cfg options g) = None)
   /\ (forall response userText g d,
         skip_embellishment response = false ->
         hasBookTrigger response userText = true
         \/ Js.Qltb (fst (Js.random g)) bookPromoChance = true ->
         fst (fst (finalizeResponse cfg response userText g d))
         = response ++ Js.NL ++ Js.NL ++ "undefined"))
  /\ (SiteConfig.useFunnyQuips cfg = false ->
      Context.FUNNY_QUIPS cfg = []
      /\ (forall options g, fst (Context.selectRandomQuip cfg options g) = None)
      /\ (forall response userText g d,
            skip_embellishment response = false ->
            hasBookTrigger response userText = false ->
            Js.Qltb (fst (Js.random g)) bookPromoChance = false ->
            Js.Qltb (fst (Js.random (snd (Js.random g)))) (15 # 100) = true ->
            fst (fst (finalizeResponse cfg response userText g d))
            = response ++ Js.NL ++ Js.NL ++ "*undefined*")).
Proof.
  split.
  - intros Hoff. pose proof (BOOK_PROMOS_disabled cfg Hoff) as Hnil.
    assert (Hsel : forall options g, fst (Context.selectRandomPromo cfg options g) = None).
    { intros options g. unfold Context.selectRandomPromo. rewrite Hnil.
      apply from_list_nil. }
    split; [exact Hnil |]. split; [exact Hsel |].
    intros response userText g d Hgate Htrig. unfold finalizeResponse.
    rewrite Hgate.
    destruct (hasBookTrigger response userText) eqn:Ht.
    + pose proof (Hsel Context.no_options g) as Hp.
      destruct (Context.selectRandomPromo cfg Context.no_options g) as [promo g2].
      simpl in Hp. subst promo. reflexivity.
    + destruct Htrig as [Habs | Hdraw]; [discriminate Habs |].
      destruct (Js.random g) as [r g1]. simpl in Hdraw. rewrite Hdraw.
      pose proof (Hsel Context.no_options g1) as Hp.
      destruct (Context.selectRandomPromo cfg Context.no_options g1) as [promo g2].
      simpl in Hp. subst promo. reflexivity.
  - intros Hoff. pose proof (FUNNY_QUIPS_disabled cfg Hoff) as Hnil.
    assert (Hsel : forall options g, fst (Context.selectRandomQuip cfg options g) = None).
    { intros options g. unfold Context.selectRandomQuip. rewrite Hnil.
      apply from_list_nil. }
    split; [exact Hnil |]. split; [exact Hsel |].
    intros response userText g d Hgate Htrig Hpromo Hquip. unfold finalizeResponse.
    rewrite Hgate, Htrig.
    unfold Js.random in *. simpl in Hpromo, Hquip. simpl.
    rewrite Hpromo, Hquip, Hnil. simpl.
    destruct (_ <? 0); reflexivity.
Qed.

(** The theorem at a configuration with no book and no quips. *)
Lemma empty_list_appends_undefined_witness :
  (Context.BOOK_PROMOS bare_config = []
   /\ fst (Context.selectRandomPromo bare_config Context.no_options zero_rng) = None
   /\ fst (Context.selectRandomPromo bare_config
             {| Context.seed := Some 3; Context.randomize := None |} zero_rng) = None
   /\ fst (fst (finalizeResponse bare_config
                  "The book covers evolution and machine learning in depth."
                  "what is it about?" zero_rng no_debug))
      = "The book covers evolution and machine learning in depth."
        ++ Js.NL ++ Js.NL ++ "undefined")
  /\ (Context.FUNNY_QUIPS bare_config = []
      /\ fst (Context.selectRandomQuip bare_config Context.no_options zero_rng) = None
      /\ fst (fst (finalizeResponse bare_config
                     "It is sunny and warm in the valley today."
                     "how is the weather?" half_then_zero no_debug))
         = "It is sunny and warm in the valley today."
           ++ Js.NL ++ Js.NL ++ "*undefined*").
Proof.
  destruct (empty_list_appends_undefined bare_config) as [Hpromo Hquip].
  destruct (Hpromo (or_introl eq_refl)) as (Hnil & Hsel & Hfin).
  destruct (Hquip eq_refl) as (Hnil' & Hsel' & Hfin').
  split.
  - split; [exact Hnil |]. split; [apply Hsel |]. split; [apply Hsel |].
    apply Hfin; [reflexivity | left; reflexivity].
  - split; [exact Hnil' |]. split; [apply Hsel' |].
    apply Hfin'; reflexivity.
Defined.

End Embellisher.


(* ===================================================================== *)
(** ** UI Shell: submit handler and superseded generations *)
(* ===================================================================== *)

Section Submit.
Import AIChat.

Variable cfg : SiteConfig.t.

Lemma canned_index_in_range (d : Js.Draw) :
  (Z.to_nat (Js.floor_mul (Js.value d) (Z.of_nat (length (cannedResponses cfg)))) < 3)%nat.
Proof.
  pose proof (floor_mul_range d 3 eq_refl) as Hr.
  change (Z.of_nat (length (cannedResponses cfg))) with 3. lia.
Qed.

Lemma canned_response_is_canned (d : Js.Draw) :
  nth (Z.to_nat (Js.floor_mul (Js.value d) (Z.of_nat (length (cannedResponses cfg)))))
      (cannedResponses cfg) EmptyString ∈ cannedResponses cfg.
Proof.
  apply list_elem_of_In, nth_In. apply (canned_index_in_range d).
Qed.

Lemma greeting_not_empty (s : string) :
  Js.trim (Js.toLowerCase s) ∈ greetings -> String.eqb s EmptyString = false.
Proof.
  destruct s; [| reflexivity]. vm_compute.
  intros Hin. repeat (apply elem_of_cons in Hin as [Hin | Hin]; [discriminate Hin |]).
  inversion Hin.
Qed.

(** C10. When the trimmed, lowercased input is one of the six greetings,
    the submit handler returns at once: it appends the user turn and one
    of the three canned responses to the history, renders both, and
    enters neither prompt assembly, nor the inference adapter, nor the
    response embellisher; the sequence number, the generation parameters,
    the debug hook, the status and the controls are as before. *)
Theorem greeting_skips_generation (value : string) (w : t) :
  Js.trim (Js.toLowerCase (Js.trim value)) ∈ greetings ->
  exists response w',
    response ∈ cannedResponses cfg
    /\ _handleSubmit cfg value w = Returned w'
    /\ ChatEngine.history (chatEngine w')
       = (ChatEngine.history (chatEngine w)
          ++ [("user", Js.trim value); ("assistant", response)])%list
    /\ invoked w' = invoked w
    /\ ChatEngine._genSeq (chatEngine w') = ChatEngine._genSeq (chatEngine w)
    /\ ChatEngine.currentParams (chatEngine w') = ChatEngine.currentParams (chatEngine w)
    /\ debug w' = debug w
    /\ pipe w' = pipe w
    /\ UIController.elements (ui w')
       = (UIController.elements (ui w)
         ++ [ {| UIController.data_role := "user";
                 UIController.sender := "you";
                 UIController.content :=
                   UIController._formatMessageContent (Js.trim value) |};
              {| UIController.data_role := "assistant";
                 UIController.sender := "ai";
                 UIController.content :=
                   UIController._formatMessageContent response |} ])%list
    /\ UIController.children (ui w')
       = (UIController.children (ui w)
          ++ [ length (UIController.elements (ui w));
               S (length (UIController.elements (ui w))) ])%list
    /\ UIController.status (ui w') = UIController.status (ui w)
    /\ UIController.controlsEnabled (ui w') = UIController.controlsEnabled (ui w).
Proof.
  intros Hgreet. unfold _handleSubmit.
  rewrite (greeting_not_empty _ Hgreet).
  rewrite (bool_decide_eq_true_2 _ Hgreet).
  unfold Js.random, ui_addMessage, UIController.addMessage. simpl.
  eexists _, _. split; [apply canned_response_is_canned |].
  split; [reflexivity |]. simpl.
  rewrite <- !app_assoc, length_app. simpl.
  rewrite Nat.add_1_r.
  repeat split; reflexivity.
Qed.

End Submit.

(** The theorem at the input Hello, surrounded by blanks, in a fresh chat. *)
Lemma greeting_skips_generation_witness :
  exists response w',
    response ∈ AIChat.cannedResponses SiteConfig.SITE_CONFIG
    /\ AIChat._handleSubmit SiteConfig.SITE_CONFIG "  Hello " ready_chat = AIChat.Returned w'
    /\ ChatEngine.history (AIChat.chatEngine w')
       = (ChatEngine.history (AIChat.chatEngine ready_chat)
          ++ [("user", Js.trim "  Hello "); ("assistant", response)])%list
    /\ AIChat.invoked w' = AIChat.invoked ready_chat
    /\ ChatEngine._genSeq (AIChat.chatEngine w') = ChatEngine._genSeq (AIChat.chatEngine ready_chat)
    /\ ChatEngine.currentParams (AIChat.chatEngine w')
       = ChatEngine.currentParams (AIChat.chatEngine ready_chat)
    /\ AIChat.debug w' = AIChat.debug ready_chat
    /\ AIChat.pipe w' = AIChat.pipe ready_chat
    /\ UIController.elements (AIChat.ui w')
       = (UIController.elements (AIChat.ui ready_chat)
         ++ [ {| UIController.data_role := "user";
                 UIController.sender := "you";
                 UIController.content :=
                   UIController._formatMessageContent (Js.trim "  Hello ") |};
              {| UIController.data_role := "assistant";
                 UIController.sender := "ai";
                 UIController.content :=
                   UIController._formatMessageContent response |} ])%list
    /\ UIController.children (AIChat.ui w')
       = (UIController.children (AIChat.ui ready_chat)
          ++ [ length (UIController.elements (AIChat.ui ready_chat));
               S (length (UIController.elements (AIChat.ui ready_chat))) ])%list
    /\ UIController.status (AIChat.ui w') = UIController.status (AIChat.ui ready_chat)
    /\ UIController.controlsEnabled (AIChat.ui w')
       = UIController.controlsEnabled (AIChat.ui ready_chat).
Proof.
  apply (greeting_skips_generation SiteConfig.SITE_CONFIG "  Hello " ready_chat).
  vm_compute. apply list_elem_of_further, list_elem_of_here.
Defined.



Section Superseded.
Import AIChat.

Variable cfg : SiteConfig.t.

Local Abbreviation seq_of w := (ChatEngine._genSeq (chatEngine w)).

Lemma handleSubmit_keeps_genSeq value w w' :
  _handleSubmit cfg value w = Returned w'
  \/ (exists userInput responseEl,
        _handleSubmit cfg value w = Generating w' userInput responseEl) ->
  seq_of w' = seq_of w.
Proof.
  unfold _handleSubmit.
  destruct (String.eqb _ _).
  { intros [[= <-] | (? & ? & [=])]. reflexivity. }
  destruct (bool_decide _).
  { unfold Js.random, ui_addMessage, UIController.addMessage. simpl.
    intros [[= <-] | (? & ? & [=])]. reflexivity. }
  unfold ui_addMessage, UIController.addMessage. simpl.
  destruct (pipe w); simpl.
  - intros [[=] | (? & ? & [= <- _ _])]. reflexivity.
  - intros [[= <-] | (? & ? & [=])]. reflexivity.
Qed.

Lemma result_keeps_genSeq req result w :
  seq_of (_generateResponse_result cfg req result w) = seq_of w.
Proof.
  unfold _generateResponse_result.
  destruct (negb _); [reflexivity |].
  destruct (ChatEngine.finalizeResponse _ _ _ _ _) as [[reply g] d]. reflexivity.
Qed.

Lemma onUpdate_keeps_genSeq req chunk w :
  seq_of (snd (onUpdate req chunk w)) = seq_of w.
Proof. unfold onUpdate. destruct (negb _); reflexivity. Qed.

(** The sequence number never goes down. *)
Lemma step_genSeq_mono w w' : step cfg w w' -> (seq_of w <= seq_of w')%nat.
Proof.
  intros Hstep. destruct Hstep.
  - rewrite (handleSubmit_keeps_genSeq value w w'); [lia | left; assumption].
  - rewrite (handleSubmit_keeps_genSeq value w w'); [lia | right; eauto].
  - unfold formatPrompt_begin.
    destruct (Config.getDynamicValues _) as [params g]. simpl. lia.
  - unfold formatPrompt_end. destruct templated; simpl; lia.
  - simpl. lia.
  - rewrite onUpdate_keeps_genSeq. lia.
  - rewrite result_keeps_genSeq. lia.
  - simpl. lia.
  - simpl. lia.
  - simpl. lia.
  - simpl. lia.
  - simpl. lia.
  - simpl. lia.
  - simpl. lia.
  - simpl. lia.
Qed.

Lemma steps_genSeq_mono w w' : steps cfg w w' -> (seq_of w <= seq_of w')%nat.
Proof.
  induction 1 as [| w1 w2 w3 Hstep _ IH]; [lia |].
  apply step_genSeq_mono in Hstep. lia.
Qed.

(** A request takes the number that follows the current one. *)
Lemma start_takes_next_number userInput responseEl formatted w :
  genSeq (fst (_generateResponse_start userInput responseEl formatted w)) = S (seq_of w)
  /\ seq_of (snd (_generateResponse_start userInput responseEl formatted w)) = S (seq_of w).
Proof. split; reflexivity. Qed.

(** A request whose number is not the current one is ignored by its
    callback and by its final handling. *)
Lemma stale_request_is_ignored req w :
  genSeq req <> seq_of w ->
  (forall chunk, onUpdate req chunk w = (req, w))
  /\ (forall result, _generateResponse_result cfg req result w = w).
Proof.
  intros Hne.
  assert (Hneq : (seq_of w =? genSeq req)%nat = false) by (apply Nat.eqb_neq; lia).
  split; intros; [unfold onUpdate | unfold _generateResponse_result];
    rewrite Hneq; reflexivity.
Qed.

(** C2. Let a request A start in any state, and let a newer request B
    start after any activity of the element. From then on, whatever the
    element does next, every invocation of the streaming callback of A
    (whatever text A has accumulated) and the final handling of any
    result of A return the state as they found it: the conversation
    history, the rendered messages and all the rest are unchanged. *)
Theorem superseded_request_leaves_state_unchanged
    (inputA inputB formattedA formattedB : string) (elA elB : nat)
    (w0 w2 w4 : t) (req : Request) :
  steps cfg (snd (_generateResponse_start inputA elA formattedA w0)) w2 ->
  steps cfg (snd (_generateResponse_start inputB elB formattedB w2)) w4 ->
  genSeq req = genSeq (fst (_generateResponse_start inputA elA formattedA w0)) ->
  (forall chunk,
     onUpdate req chunk w4 = (req, w4)
     /\ visible (snd (onUpdate req chunk w4)) = visible w4)
  /\ (forall result,
        _generateResponse_result cfg req result w4 = w4
        /\ visible (_generateResponse_result cfg req result w4) = visible w4).
Proof.
  intros HA HB Hreq.
  apply steps_genSeq_mono in HA, HB.
  destruct (start_takes_next_number inputA elA formattedA w0) as [HnA HsA].
  destruct (start_takes_next_number inputB elB formattedB w2) as [_ HsB].
  assert (Hstale : genSeq req <> seq_of w4) by lia.
  destruct (stale_request_is_ignored req w4 Hstale) as [Hcb Hfin].
  split.
  - intros chunk. rewrite Hcb. split; reflexivity.
  - intros result. rewrite Hfin. split; reflexivity.
Qed.

End Superseded.

(** The theorem at a first request that streamed one chunk before a second
    one started. *)
Lemma superseded_request_leaves_state_unchanged_witness :
  (forall chunk,
     AIChat.onUpdate first_request_later chunk two_requests_started
       = (first_request_later, two_requests_started)
     /\ AIChat.visible (snd (AIChat.onUpdate first_request_later chunk two_requests_started))
        = AIChat.visible two_requests_started)
  /\ (forall result,
        AIChat._generateResponse_result SiteConfig.SITE_CONFIG
          first_request_later result two_requests_started = two_requests_started
        /\ AIChat.visible (AIChat._generateResponse_result SiteConfig.SITE_CONFIG
                             first_request_later result two_requests_started)
           = AIChat.visible two_requests_started).
Proof.
  apply (superseded_request_leaves_state_unchanged SiteConfig.SITE_CONFIG
           "tell me about the book" "and the robots?" "prompt A" "prompt B" 1 3
           one_turn_shown first_request_streaming two_requests_started
           first_request_later).
  - apply rtc_once.
    exact (AIChat.step_onUpdate SiteConfig.SITE_CONFIG
             (fst (AIChat._generateResponse_start "tell me about the book" 1 "prompt A"
                     one_turn_shown))
             (AIChat.ChunkString "The book")
             (snd (AIChat._generateResponse_start "tell me about the book" 1 "prompt A"
                     one_turn_shown))).
  - apply rtc_refl.
  - reflexivity.
Defined.

(** The first request does write while it is the latest one. *)
Example latest_request_streams :
  UIController.rendered (AIChat.ui first_request_streaming)
  = [ {| UIController.data_role := "user"; UIController.sender := "you";
         UIController.content := "tell me about the book" |};
      {| UIController.data_role := "assistant"; UIController.sender := "ai";
         UIController.content := "The book" |} ].
Proof. reflexivity. Qed.

(* ===================================================================== *)
(** ** Content Loader: caching and failures *)
(* ===================================================================== *)

Section LoaderCache.
Import Context.

Variable cfg : SiteConfig.t.

(** X1. A résumé or a set of highlights that was fetched and parsed is
    kept by the loader: the first call returns the data and stores it,
    and every later call returns the same data and leaves the loader and
    the console alone, whatever the network answers then. *)
Theorem json_load_is_cached
    (e : Env) (r : ResumeData) (h : HighlightsData) (status : string)
    (fetchR : string -> Js.Completion (Response ResumeData))
    (fetchH : string -> Js.Completion (Response HighlightsData)) :
  resumeData (loader e) = None ->
  highlightsData (loader e) = None ->
  Js.truthy (SiteConfig.resumeJsonPath cfg) = true ->
  Js.truthy (SiteConfig.highlightsPath cfg) = true ->
  fetchR (Js.show (SiteConfig.resumeJsonPath cfg))
    = Js.Normal {| ok := true; statusText := status; body := Js.Normal r |} ->
  fetchH (Js.show (SiteConfig.highlightsPath cfg))
    = Js.Normal {| ok := true; statusText := status; body := Js.Normal h |} ->
  let eR := snd (loadResumeData cfg fetchR e) in
  let eH := snd (loadHighlightsData cfg fetchH e) in
  fst (loadResumeData cfg fetchR e) = Js.Normal (Some r)
  /\ resumeData (loader eR) = Some r
  /\ (forall fetch', loadResumeData cfg fetch' eR = (Js.Normal (Some r), eR))
  /\ fst (loadHighlightsData cfg fetchH e) = Js.Normal (Some h)
  /\ highlightsData (loader eH) = Some h
  /\ (forall fetch', loadHighlightsData cfg fetch' eH = (Js.Normal (Some h), eH)).
Proof.
  intros HcR HcH HpR HpH HfR HfH. cbv zeta.
  run_loader. rewrite HcR, HcH, HpR, HpH. simpl. rewrite HfR, HfH. simpl.
  repeat split; reflexivity.
Qed.

(** X2. The manuscript is cached only when it is not empty. A manuscript
    with text is returned from the cache whatever the network answers
    later; an empty manuscript is returned once, but the next call goes
    to the network again, and returns [null] when that fetch is
    rejected. *)
Theorem manuscript_cache_needs_text
    (e : Env) (data status reason : string)
    (fetchM : string -> Js.Completion (Response string)) :
  Js.truthy (manuscriptData (loader e)) = false ->
  Js.truthy (SiteConfig.manuscriptPath cfg) = true ->
  fetchM (Js.show (SiteConfig.manuscriptPath cfg))
    = Js.Normal {| ok := true; statusText := status; body := Js.Normal data |} ->
  let e1 := snd (loadManuscriptData cfg fetchM e) in
  fst (loadManuscriptData cfg fetchM e) = Js.Normal (Some data)
  /\ (data <> EmptyString ->
      forall fetch', loadManuscriptData cfg fetch' e1 = (Js.Normal (Some data), e1))
  /\ (data = EmptyString ->
      fst (loadManuscriptData cfg (fun _ => Js.Throw reason) e1) = Js.Normal None).
Proof.
  intros Hc Hp Hf. cbv zeta.
  run_loader. rewrite Hc, Hp. simpl. rewrite Hf. simpl.
  split; [reflexivity |]. split.
  - intros Hne fetch'.
    assert (Ht : negb (String.eqb data EmptyString) = true).
    { destruct (String.eqb_spec data EmptyString); [contradiction | reflexivity]. }
    rewrite Ht. reflexivity.
  - intros ->. reflexivity.
Qed.

(** X3. No loader ever ends in an exception, and a call that returns
    [null] leaves the three cached fields as they were: a failed load is
    not remembered, so the next call tries the network again. *)
Theorem failed_load_is_not_remembered
    (e : Env)
    (fetchR : string -> Js.Completion (Response ResumeData))
    (fetchH : string -> Js.Completion (Response HighlightsData))
    (fetchM : string -> Js.Completion (Response string)) :
  (exists r, fst (loadResumeData cfg fetchR e) = Js.Normal r
             /\ (r = None -> loader (snd (loadResumeData cfg fetchR e)) = loader e))
  /\ (exists r, fst (loadHighlightsData cfg fetchH e) = Js.Normal r
                /\ (r = None -> loader (snd (loadHighlightsData cfg fetchH e)) = loader e))
  /\ (exists r, fst (loadManuscriptData cfg fetchM e) = Js.Normal r
                /\ (r = None -> loader (snd (loadManuscriptData cfg fetchM e)) = loader e)).
Proof.
  repeat split; run_loader.
  - destruct (resumeData (loader e)); [eexists; split; [reflexivity | discriminate] |].
    destruct (negb _); [eauto |].
    destruct (fetchR _) as [response | msg]; [| eauto].
    destruct (negb (ok response)).
    + destruct (SiteConfig.gracefulDegradation cfg); eauto.
    + destruct (body response); simpl; [| eauto].
      eexists; split; [reflexivity | discriminate].
  - destruct (highlightsData (loader e)); [eexists; split; [reflexivity | discriminate] |].
    destruct (negb _); [eauto |].
    destruct (fetchH _) as [response | msg]; [| eauto].
    destruct (negb (ok response)).
    + destruct (SiteConfig.gracefulDegradation cfg); eauto.
    + destruct (body response); simpl; [| eauto].
      eexists; split; [reflexivity | discriminate].
  - destruct (Js.truthy (manuscriptData (loader e))); [eauto |].
    destruct (negb _); [eauto |].
    destruct (fetchM _) as [response | msg]; [| eauto].
    destruct (negb (ok response)).
    + destruct (SiteConfig.gracefulDegradation cfg); eauto.
    + destruct (body response); simpl; [| eauto].
      eexists; split; [reflexivity | discriminate].
Qed.

End LoaderCache.

(** The theorem at the repository's configuration and a server that
    answers with a résumé and with highlights. *)
Lemma json_load_is_cached_witness :
  fst (Context.loadResumeData SiteConfig.SITE_CONFIG (serve sample_resume) fresh_env)
  = Js.Normal (Some sample_resume)
  /\ Context.resumeData
       (Context.loader
          (snd (Context.loadResumeData SiteConfig.SITE_CONFIG (serve sample_resume) fresh_env)))
     = Some sample_resume
  /\ (forall fetch',
        Context.loadResumeData SiteConfig.SITE_CONFIG fetch'
          (snd (Context.loadResumeData SiteConfig.SITE_CONFIG (serve sample_resume) fresh_env))
        = (Js.Normal (Some sample_resume),
           snd (Context.loadResumeData SiteConfig.SITE_CONFIG (serve sample_resume) fresh_env)))
  /\ fst (Context.loadHighlightsData SiteConfig.SITE_CONFIG (serve five_quotes) fresh_env)
     = Js.Normal (Some five_quotes)
  /\ Context.highlightsData
       (Context.loader
          (snd (Context.loadHighlightsData SiteConfig.SITE_CONFIG (serve five_quotes) fresh_env)))
     = Some five_quotes
  /\ (forall fetch',
        Context.loadHighlightsData SiteConfig.SITE_CONFIG fetch'
          (snd (Context.loadHighlightsData SiteConfig.SITE_CONFIG (serve five_quotes) fresh_env))
        = (Js.Normal (Some five_quotes),
           snd (Context.loadHighlightsData SiteConfig.SITE_CONFIG (serve five_quotes) fresh_env))).
Proof.
  apply (json_load_is_cached SiteConfig.SITE_CONFIG fresh_env sample_resume five_quotes
           "OK" (serve sample_resume) (serve five_quotes)); reflexivity.
Defined.

(** The theorem at the repository's configuration and an empty
    manuscript file. *)
Lemma manuscript_cache_needs_text_witness :
  fst (Context.loadManuscriptData SiteConfig.SITE_CONFIG (serve EmptyString) fresh_env)
  = Js.Normal (Some EmptyString)
  /\ (EmptyString <> EmptyString ->
      forall fetch',
        Context.loadManuscriptData SiteConfig.SITE_CONFIG fetch'
          (snd (Context.loadManuscriptData SiteConfig.SITE_CONFIG (serve EmptyString) fresh_env))
        = (Js.Normal (Some EmptyString),
           snd (Context.loadManuscriptData SiteConfig.SITE_CONFIG (serve EmptyString) fresh_env)))
  /\ (EmptyString = EmptyString ->
      fst (Context.loadManuscriptData SiteConfig.SITE_CONFIG
             (fun _ => Js.Throw "TypeError: Failed to fetch")
             (snd (Context.loadManuscriptData SiteConfig.SITE_CONFIG
                     (serve EmptyString) fresh_env)))
      = Js.Normal None).
Proof.
  apply (manuscript_cache_needs_text SiteConfig.SITE_CONFIG fresh_env EmptyString
           "OK" "TypeError: Failed to fetch" (serve EmptyString)); reflexivity.
Defined.

(* ===================================================================== *)
(** ** Prompt Assembler: what the selections hold *)
(* ===================================================================== *)

Section Highlights.
Import Context.

(** The object at index [i] of [allHighlights] has allocation number
    [i]. *)
Lemma allHighlights_oid bs i r : allHighlights bs !! i = Some r -> oid r = i.
Proof.
  unfold allHighlights. rewrite list_lookup_imap.
  destruct (collect bs !! i); simpl; [| discriminate].
  intros [= <-]. reflexivity.
Qed.

Lemma allHighlights_length bs : length (allHighlights bs) = length (collect bs).
Proof. unfold allHighlights. apply length_imap. Qed.


Section Loop.

Variable all : list Ref.
Hypothesis all_oid : forall i r, all !! i = Some r -> oid r = i.
Hypothesis all_nonempty : (0 < length all)%nat.



End Loop.





(** The random loop keeps a selection of distinct objects whose indices
    are the used ones, and never holds more than three entries or more
    than there are highlights. *)
Lemma random_loop_distinct (all : list Ref) :
  (forall i r, all !! i = Some r -> oid r = i) ->
  forall (fuel : nat) (rs : list Ref) (used : gset Z) (g : Js.Rng) sel g',
    distinct_objects all rs ->
    (forall r, r ∈ rs -> Z.of_nat (oid r) ∈ used) ->
    (length rs <= Nat.min 3 (length all))%nat ->
    random_loop fuel all (Some <$> rs) used g = Some (sel, g') ->
    exists rs',
      sel = Some <$> rs'
      /\ distinct_objects all rs'
      /\ length rs' = Nat.min 3 (length all)
      /\ Js.draws g' = Js.draws g
      /\ (Js.pos g + (length rs' - length rs) <= Js.pos g')%nat.
Proof.
  intros Hoid fuel. induction fuel as [| fuel IH]; intros rs used g sel g' Hd Hused Hlen.
  - cbn [random_loop]. rewrite length_fmap.
    destruct (Nat.ltb_spec (length rs) 3); destruct (Nat.ltb_spec (length rs) (length all));
      cbn [andb]; try discriminate; intros [= <- <-];
      exists rs; repeat split; try apply Hd; lia.
  - cbn [random_loop]. rewrite length_fmap.
    destruct (Nat.ltb_spec (length rs) 3); destruct (Nat.ltb_spec (length rs) (length all));
      cbn [andb];
      try (intros [= <- <-]; exists rs; repeat split; try apply Hd; lia).
    unfold Js.random.
    set (g1 := {| Js.draws := Js.draws g; Js.pos := S (Js.pos g) |}).
    set (idx := Js.floor_mul (Js.value (Js.draws g (Js.pos g))) (Z.of_nat (length all))).
    assert (Hidx : 0 <= idx < Z.of_nat (length all))
      by (apply floor_mul_range; lia).
    destruct (decide (idx ∈ used)) as [Hin | Hout].
    + rewrite bool_decide_eq_true_2 by exact Hin.
      intros Hrun. destruct (IH rs used g1 sel g' Hd Hused Hlen Hrun)
        as (rs' & -> & Hd' & Hl' & Hdr & Hpos).
      exists rs'. repeat split; try apply Hd'; auto. simpl in Hpos. lia.
    + rewrite bool_decide_eq_false_2 by exact Hout.
      destruct (lookup_lt_is_Some_2 all (Z.to_nat idx)) as [r Hr]; [lia |].
      assert (Hget : Js.get all (Some idx) = Some r).
      { unfold Js.get. destruct (Z.ltb_spec idx 0); [exfalso; lia | exact Hr]. }
      rewrite Hget.
      pose proof (Hoid _ _ Hr) as Hor.
      replace ((Some <$> rs) ++ [Some r])%list with (Some <$> (rs ++ [r])%list)
        by (rewrite fmap_app; reflexivity).
      intros Hrun.
      destruct (IH (rs ++ [r])%list ({[idx]} ∪ used) g1 sel g') as (rs' & -> & Hd' & Hl' & Hdr & Hpos).
      * destruct Hd as [Hnd Hall]. split.
        -- rewrite fmap_app. apply NoDup_app. repeat split; [exact Hnd | | apply NoDup_singleton].
           intros x Hx Hx'. apply list_elem_of_singleton in Hx'. subst x.
           apply list_elem_of_fmap in Hx as (r0 & Heq & Hr0).
           apply Hout. pose proof (Hused r0 Hr0) as Hu. rewrite <- Heq, Hor in Hu.
           rewrite Z2Nat.id in Hu by lia. exact Hu.
        -- intros r0 Hr0. apply elem_of_app in Hr0 as [Hr0 | Hr0]; [auto |].
           apply list_elem_of_singleton in Hr0. subst r0. rewrite Hor. exact Hr.
      * intros r0 Hr0. apply elem_of_app in Hr0 as [Hr0 | Hr0].
        -- apply elem_of_union_r. auto.
        -- apply list_elem_of_singleton in Hr0. subst r0. apply elem_of_union_l.
           rewrite Hor, Z2Nat.id by lia. apply elem_of_singleton. reflexivity.
      * rewrite length_app. cbn [length]. lia.
      * exact Hrun.
      * exists rs'. rewrite length_app in Hpos. cbn [length Js.pos g1] in Hpos.
        repeat split; try apply Hd'; auto. subst g1. cbn [Js.pos] in Hpos. lia.
Qed.

(** X6. Without a seed, whenever the random selection returns, it returns
    exactly [min(3, length)] entries, none of them [undefined], all of
    them different objects of the flattened list, and it has consumed at
    least one draw per entry. *)
Theorem random_highlights_are_distinct_objects
    (d : HighlightsData) (bs : list BookEntry) (fuel : nat) (g g' : Js.Rng)
    (result : option (list Slot)) :
  books d = Some bs ->
  collect bs <> [] ->
  selectRandomHighlights (Some d) no_options fuel g = Some (result, g') ->
  exists rs,
    result = Some (Some <$> rs)
    /\ length rs = Nat.min 3 (length (collect bs))
    /\ NoDup (oid <$> rs)
    /\ (forall r, r ∈ rs -> allHighlights bs !! oid r = Some r)
    /\ (Js.pos g + length rs <= Js.pos g')%nat.
Proof.
  intros Hbooks Hne. unfold selectRandomHighlights. rewrite Hbooks.
  pose proof (allHighlights_length bs) as Hlen.
  destruct (Nat.ltb_spec (length (allHighlights bs)) 1).
  { exfalso. rewrite Hlen in *. destruct (collect bs); [contradiction | simpl in *; lia]. }
  cbn [deterministic no_options seed randomize].
  destruct (random_loop fuel (allHighlights bs) [] ∅ g) as [[sel g1] |] eqn:Hrun;
    [| discriminate].
  intros [= <- <-].
  destruct (random_loop_distinct (allHighlights bs) (allHighlights_oid bs)
              fuel [] ∅ g sel g1) as (rs & -> & [Hnd Hall] & Hl & _ & Hpos).
  - split; [apply NoDup_nil_2 | intros r Hr; inversion Hr].
  - intros r Hr. inversion Hr.
  - simpl. lia.
  - exact Hrun.
  - exists rs. rewrite <- Hlen. simpl in Hpos.
    repeat split; auto. lia.
Qed.

End Highlights.



(** The theorem at five quotes and the draws 0/5, 1/5, 2/5. *)
Lemma random_highlights_are_distinct_objects_witness :
  exists rs,
    Some (Some <$> firsts_of_five) = Some (Some <$> rs)
    /\ length rs = Nat.min 3 (length (Context.collect
                                         (default [] (Context.books five_quotes))))
    /\ NoDup (Context.oid <$> rs)
    /\ (forall r, r ∈ rs ->
          Context.allHighlights (default [] (Context.books five_quotes)) !! Context.oid r
          = Some r)
    /\ (Js.pos counting_rng + length rs
        <= Js.pos {| Js.draws := Js.draws counting_rng; Js.pos := 3 |})%nat.
Proof.
  apply (random_highlights_are_distinct_objects five_quotes _ 3%nat counting_rng
           {| Js.draws := Js.draws counting_rng; Js.pos := 3 |}
           (Some (Some <$> firsts_of_five))).
  - reflexivity.
  - discriminate.
  - reflexivity.
Defined.

Section Excerpts.
Import Context.

(** X7. A negative seed that is not a multiple of the number of candidate
    paragraphs makes the remainder negative: the index reads [undefined],
    and the call ends in a TypeError instead of returning an excerpt. *)
Theorem negative_seed_throws
    (m : string) (s : Z) (rz : option bool) (g : Js.Rng) :
  paragraphs m <> [] ->
  s < 0 ->
  Z.rem s (Z.of_nat (length (paragraphs m))) <> 0 ->
  selectRandomManuscriptChunk (Some m) {| seed := Some s; randomize := rz |} g
  = (Js.Throw "TypeError: Cannot read properties of undefined (reading 'length')", g).
Proof.
  intros Hne Hs Hrem. unfold selectRandomManuscriptChunk.
  assert (Hm : Js.truthy (Some m) = true).
  { destruct m; [| reflexivity]. exfalso. apply Hne. reflexivity. }
  rewrite Hm. cbn [negb Js.show].
  destruct (paragraphs m) as [| p ps] eqn:Hps; [contradiction |].
  cbn [length Nat.eqb].
  unfold selected_paragraph, select_index, deterministic, seed_or_zero, Js.rem.
  cbn [seed randomize].
  destruct (Z.eqb_spec (Z.of_nat (length (p :: ps))) 0) as [E | _];
    [simpl in E; exfalso; lia |].
  pose proof (Z.rem_nonpos s (Z.of_nat (length (p :: ps)))) as Hle.
  assert (Hneg : Z.rem s (Z.of_nat (length (p :: ps))) < 0) by (simpl in *; lia).
  unfold Js.get. apply Z.ltb_lt in Hneg. rewrite Hneg. reflexivity.
Qed.

Lemma split_without_separator (s : string) :
  no_sentence_end s = true -> Js.split_class is_sentence_end s = [s].
Proof.
  unfold Js.split_class. induction s as [| c s IH]; [reflexivity |].
  simpl. intros H. apply andb_true_iff in H as [Hc Hs].
  apply negb_true_iff in Hc. rewrite Hc, (IH Hs). reflexivity.
Qed.

Lemma length_append (a b : string) :
  String.length (a ++ b) = (String.length a + String.length b)%nat.
Proof. induction a as [| c a IH]; simpl; [reflexivity | f_equal; exact IH]. Qed.

(** X8. Truncation does not bound the length of an excerpt: a paragraph
    of more than 300 characters with no full stop, exclamation mark or
    question mark is one sentence, and what is kept is the whole
    paragraph with a full stop added, one character longer than
    before. *)
Theorem unpunctuated_paragraph_grows (chunk : string) :
  (MAX_CHUNK_LENGTH < String.length chunk)%nat ->
  no_sentence_end chunk = true ->
  truncate chunk = chunk ++ "."
  /\ String.length (truncate chunk) = S (String.length chunk).
Proof.
  intros Hlong Hno.
  assert (Htr : truncate chunk = chunk ++ ".").
  { unfold truncate. apply Nat.ltb_lt in Hlong. rewrite Hlong.
    rewrite (split_without_separator chunk Hno). reflexivity. }
  split; [exact Htr |].
  rewrite Htr, length_append. simpl. lia.
Qed.

End Excerpts.

(** The theorem at a manuscript with two candidates and seed -1. *)
Lemma negative_seed_throws_witness :
  Context.selectRandomManuscriptChunk (Some two_paragraphs)
    {| Context.seed := Some (-1); Context.randomize := None |} zero_rng
  = (Js.Throw "TypeError: Cannot read properties of undefined (reading 'length')",
     zero_rng).
Proof.
  apply (negative_seed_throws two_paragraphs (-1) None zero_rng).
  - vm_compute. discriminate.
  - lia.
  - vm_compute. discriminate.
Defined.

(** The theorem at a paragraph of 400 letters. *)
Lemma unpunctuated_paragraph_grows_witness :
  Context.truncate unpunctuated = unpunctuated ++ "."
  /\ String.length (Context.truncate unpunctuated) = S (String.length unpunctuated).
Proof.
  apply (unpunctuated_paragraph_grows unpunctuated).
  - apply Nat.ltb_lt. vm_compute. reflexivity.
  - vm_compute. reflexivity.
Defined.

(* ===================================================================== *)
(** ** Prompt Assembler: the system prompt *)
(* ===================================================================== *)

Section SystemPrompt.
Import Context PromptBuilder.

Lemma append_empty_r (s : string) : s ++ EmptyString = s.
Proof.
  induction s as [| c s IH]; [reflexivity |].
  change (String c (s ++ EmptyString) = String c s). f_equal. exact IH.
Qed.

Lemma append_assoc (a b c : string) : (a ++ b) ++ c = a ++ (b ++ c).
Proof.
  induction a as [| x a IH]; [reflexivity |].
  change (String x ((a ++ b) ++ c) = String x (a ++ (b ++ c))). f_equal. exact IH.
Qed.

Lemma prefix_append (a b : string) : String.prefix a (a ++ b) = true.
Proof.
  induction a as [| x a IH]; [destruct b; reflexivity |].
  change (String.prefix (String x a) (String x (a ++ b)) = true). simpl.
  destruct (Ascii.ascii_dec x x) as [_ | NE]; [exact IH | contradiction].
Qed.








Lemma no_highlights_null data options fuel g :
  no_highlights data -> selectRandomHighlights data options fuel g = Some (None, g).
Proof.
  unfold no_highlights, selectRandomHighlights.
  destruct data as [d |]; [| reflexivity].
  destruct (books d) as [bs |]; [| reflexivity].
  intros Hnil. unfold allHighlights. rewrite Hnil. reflexivity.
Qed.

Lemma no_paragraphs_null manuscript options g :
  no_paragraphs manuscript ->
  selectRandomManuscriptChunk manuscript options g = (Js.Normal None, g).
Proof.
  unfold no_paragraphs, selectRandomManuscriptChunk.
  destruct manuscript as [m |]; [| reflexivity].
  destruct (negb (Js.truthy (Some m))); [reflexivity |].
  intros Hnil. cbn [Js.show]. rewrite Hnil. reflexivity.
Qed.

Variable cfg : SiteConfig.t.

(** X9. With no résumé, no highlight in the data and no paragraph of the
    manuscript that passes the filter, the system prompt is the base
    prompt and nothing else, in both selection modes, and no draw is
    consumed. *)
Theorem prompt_without_content_is_base
    (highlightsData : option HighlightsData) (manuscriptData : option string)
    (options : Options) (fuel : nat) (g : Js.Rng) :
  no_highlights highlightsData ->
  no_paragraphs manuscriptData ->
  buildSystemPrompt cfg None highlightsData manuscriptData options fuel g
  = Some (Js.Normal (BASE_SYSTEM_PROMPT cfg), g).
Proof.
  intros Hh Hm. unfold buildSystemPrompt.
  rewrite (no_highlights_null _ options fuel g Hh).
  rewrite (no_paragraphs_null _ options g Hm).
  cbn [ideas_section has_items Js.truthy orb].
  rewrite !append_empty_r. reflexivity.
Qed.

(** X10. Every system prompt that is built starts with the base prompt,
    whatever the résumé, the highlights, the manuscript, the options and
    the draws. *)
Theorem prompt_starts_with_base
    (resumeData : option ResumeData) (highlightsData : option HighlightsData)
    (manuscriptData : option string) (options : Options) (fuel : nat)
    (g g' : Js.Rng) (prompt : string) :
  buildSystemPrompt cfg resumeData highlightsData manuscriptData options fuel g
  = Some (Js.Normal prompt, g') ->
  Js.startsWith prompt (BASE_SYSTEM_PROMPT cfg) = true.
Proof.
  unfold buildSystemPrompt.
  destruct (selectRandomHighlights _ _ _ _) as [[hs g1] |]; [| discriminate].
  destruct (selectRandomManuscriptChunk _ _ _) as [[chunk | e] g2]; [| discriminate].
  destruct (ideas_section cfg hs chunk) as [ideas | e]; [| discriminate].
  intros [= <- _]. unfold Js.startsWith.
  rewrite append_assoc. apply prefix_append.
Qed.




End SystemPrompt.

(** The theorem at the repository's configuration, with highlights data
    that has no book list and a manuscript of one short paragraph. *)
Lemma prompt_without_content_is_base_witness :
  PromptBuilder.buildSystemPrompt SiteConfig.SITE_CONFIG None
    (Some {| Context.books := None |}) (Some short_paragraph)
    Context.no_options 0 zero_rng
  = Some (Js.Normal (PromptBuilder.BASE_SYSTEM_PROMPT SiteConfig.SITE_CONFIG), zero_rng).
Proof.
  apply (prompt_without_content_is_base SiteConfig.SITE_CONFIG
           (Some {| Context.books := None |}) (Some short_paragraph)
           Context.no_options 0%nat zero_rng).
  - exact I.
  - vm_compute. reflexivity.
Defined.

(** The theorem at the repository's configuration, five quotes, the
    sample manuscript and seed 0. *)
Lemma prompt_starts_with_base_witness :
  Js.startsWith seeded_sample_prompt
    (PromptBuilder.BASE_SYSTEM_PROMPT SiteConfig.SITE_CONFIG) = true.
Proof.
  apply (prompt_starts_with_base SiteConfig.SITE_CONFIG (Some sample_resume)
           (Some five_quotes) (Some sample_manuscript)
           {| Context.seed := Some 0; Context.randomize := None |} 0%nat
           zero_rng zero_rng seeded_sample_prompt).
  vm_compute. reflexivity.
Defined.



(* ===================================================================== *)
(** ** Generation parameters, pruning and embellishment *)
(* ===================================================================== *)

Section Parameters.
Import Config.



End Parameters.

Section Pruning.
Import ChatEngine.

(** X14. For a positive window [N], what pruning returns is the most
    recent [N] turns (all of the history when it is no longer than that),
    preceded by at most two older turns; every one of these older turns
    contains a word of the input that is longer than three characters.
    An input with no such word gets the most recent turns only. *)
Theorem pruneHistory_keeps_recent_and_relevant (e : t) (currentInput : string) :
  0 < historyLimit e ->
  let recent := drop (length (history e) - Z.to_nat (historyLimit e)) (history e) in
  exists older,
    _pruneHistory e currentInput = (older ++ recent)%list
    /\ (length older <= 2)%nat
    /\ (forall turn, turn ∈ older ->
          relevant (keywords currentInput) turn = true
          /\ turn ∈ take (length (history e) - Z.to_nat (historyLimit e)) (history e))
    /\ (keywords currentInput = [] -> older = []).
Proof.
  intros Hpos recent.
  destruct (Z.le_gt_cases (Z.of_nat (length (history e))) (historyLimit e)) as [Hle | Hgt].
  - exists []. rewrite pruneHistory_short by assumption. subst recent.
    replace (length (history e) - Z.to_nat (historyLimit e))%nat with 0%nat by lia.
    split; [reflexivity |]. split; [simpl; lia |]. split; [| reflexivity].
    intros x Hin. inversion Hin.
  - rewrite pruneHistory_long by lia.
    set (k := (length (history e) - Z.to_nat (historyLimit e))%nat).
    set (matching := filter _ (take k (history e))).
    exists (drop (length matching - 2) matching).
    split; [reflexivity |]. split; [rewrite length_drop; lia |]. split.
    + intros turn Hin.
      assert (Hm : turn ∈ matching).
      { rewrite <- (take_drop (length matching - 2) matching).
        apply elem_of_app. right. exact Hin. }
      apply list_elem_of_filter in Hm. exact Hm.
    + intros Hk. subst matching. rewrite Hk.
      assert (Hnone : filter (fun turn => relevant [] turn = true) (take k (history e)) = []).
      { induction (take k (history e)) as [| x l IH]; [reflexivity |].
        rewrite filter_cons. destruct (decide _) as [E | _]; [discriminate E | exact IH]. }
      rewrite Hnone. reflexivity.
Qed.

(** The theorem at the engine with six turns and a window of two. *)
Lemma pruneHistory_keeps_recent_and_relevant_witness :
  exists older,
    _pruneHistory sample_engine "tell me about the robot book"
    = (older ++ drop (length (history sample_engine)
                      - Z.to_nat (historyLimit sample_engine))
                     (history sample_engine))%list
    /\ (length older <= 2)%nat
    /\ (forall turn, turn ∈ older ->
          relevant (keywords "tell me about the robot book") turn = true
          /\ turn ∈ take (length (history sample_engine)
                          - Z.to_nat (historyLimit sample_engine))
                         (history sample_engine))
    /\ (keywords "tell me about the robot book" = [] -> older = []).
Proof.
  apply (pruneHistory_keeps_recent_and_relevant sample_engine
           "tell me about the robot book").
  reflexivity.
Defined.

(** X15. The finalizer only ever appends: what it returns starts with the
    reply it was given. It draws at most three times, and when the reply
    passes the gate the debug hook holds exactly what is returned. *)
Theorem finalizeResponse_only_appends
    (cfg : SiteConfig.t) (response userText : string) (g : Js.Rng) (d : Config.Debug) :
  let '(final, g', d') := finalizeResponse cfg response userText g d in
  Js.startsWith final response = true
  /\ Js.draws g' = Js.draws g
  /\ (Js.pos g <= Js.pos g' <= Js.pos g + 3)%nat
  /\ (skip_embellishment response = false -> Config.lastResponse d' = Some final).
Proof.
  assert (Hself : Js.startsWith response response = true).
  { unfold Js.startsWith. rewrite <- (append_empty_r response) at 2. apply prefix_append. }
  unfold finalizeResponse.
  destruct (skip_embellishment response).
  { repeat split; auto; try lia; discriminate. }
  unfold Context.selectRandomPromo, Context.selectRandomQuip, Context.from_list,
    Context.select_index, Js.random.
  cbn [Context.deterministic Context.no_options Context.seed Context.randomize].
  destruct (hasBookTrigger response userText).
  - cbn [fst snd Js.pos Js.draws Config.set_lastResponse Config.lastResponse].
    repeat split; auto; try lia. apply prefix_append.
  - destruct (Js.Qltb _ bookPromoChance).
    + cbn [fst snd Js.pos Js.draws Config.set_lastResponse Config.lastResponse].
      repeat split; auto; try lia. apply prefix_append.
    + destruct (Js.Qltb _ (15 # 100)).
      * cbn [fst snd Js.pos Js.draws Config.set_lastResponse Config.lastResponse].
        repeat split; auto; try lia. apply prefix_append.
      * cbn [fst snd Js.pos Js.draws Config.set_lastResponse Config.lastResponse].
        repeat split; auto; lia.
Qed.

Lemma from_list_random_member (l : list string) (g : Js.Rng) :
  l <> [] ->
  exists x, x ∈ l
    /\ Context.from_list l Context.no_options g
       = (Some x, {| Js.draws := Js.draws g; Js.pos := S (Js.pos g) |}).
Proof.
  intros Hne. unfold Context.from_list, Context.select_index, Js.random.
  cbn [Context.deterministic Context.no_options Context.seed Context.randomize].
  assert (Hlen : 0 < Z.of_nat (length l)) by (destruct l; [contradiction | simpl; lia]).
  pose proof (floor_mul_range (Js.draws g (Js.pos g)) _ Hlen) as Hr.
  unfold Js.get. destruct (Z.ltb_spec (Js.floor_mul (Js.value (Js.draws g (Js.pos g)))
                                                   (Z.of_nat (length l))) 0);
    [exfalso; lia |].
  destruct (lookup_lt_is_Some_2 l
              (Z.to_nat (Js.floor_mul (Js.value (Js.draws g (Js.pos g)))
                                      (Z.of_nat (length l))))) as [x Hx]; [lia |].
  exists x. rewrite Hx. split; [eapply list_elem_of_lookup_2; exact Hx | reflexivity].
Qed.

(** X16. When the reply passes the gate and the reply or the input
    contains a trigger word, no chance is drawn: with a promo list that
    is not empty, the finalizer returns the reply followed by a blank
    line and one of the promos of the list, and consumes one draw, the
    one that picks the promo. *)
Theorem triggered_reply_gets_a_listed_promo
    (cfg : SiteConfig.t) (response userText : string) (g : Js.Rng) (d : Config.Debug) :
  skip_embellishment response = false ->
  hasBookTrigger response userText = true ->
  Context.BOOK_PROMOS cfg <> [] ->
  exists promo,
    promo ∈ Context.BOOK_PROMOS cfg
    /\ finalizeResponse cfg response userText g d
       = (response ++ Js.NL ++ Js.NL ++ promo,
          {| Js.draws := Js.draws g; Js.pos := S (Js.pos g) |},
          Config.set_lastResponse (response ++ Js.NL ++ Js.NL ++ promo) d).
Proof.
  intros Hgate Htrig Hne. unfold finalizeResponse. rewrite Hgate, Htrig.
  unfold Context.selectRandomPromo.
  destruct (from_list_random_member _ g Hne) as (promo & Hin & ->).
  exists promo. split; [exact Hin | reflexivity].
Qed.

End Pruning.

(** The theorem at the repository's configuration and a reply about the
    book. *)
Lemma triggered_reply_gets_a_listed_promo_witness :
  exists promo,
    promo ∈ Context.BOOK_PROMOS SiteConfig.SITE_CONFIG
    /\ ChatEngine.finalizeResponse SiteConfig.SITE_CONFIG
         "The book covers evolution and machine learning in depth."
         "what is it about?" counting_rng no_debug
       = ("The book covers evolution and machine learning in depth."
          ++ Js.NL ++ Js.NL ++ promo,
          {| Js.draws := Js.draws counting_rng; Js.pos := S (Js.pos counting_rng) |},
          Config.set_lastResponse
            ("The book covers evolution and machine learning in depth."
             ++ Js.NL ++ Js.NL ++ promo) no_debug).
Proof.
  apply (triggered_reply_gets_a_listed_promo SiteConfig.SITE_CONFIG
           "The book covers evolution and machine learning in depth."
           "what is it about?" counting_rng no_debug).
  - reflexivity.
  - reflexivity.
  - discriminate.
Defined.

(* ===================================================================== *)
(** ** UI Shell: the submit handler, the history and the message store *)
(* ===================================================================== *)

Section Shell.
Import AIChat.

Variable cfg : SiteConfig.t.

(** X17. What the submit handler does with an input that is not a
    greeting. An input that is blank is dropped and nothing changes.
    Without a model, the user turn is recorded and shown, the hint to
    load a model is shown but not recorded as a turn, and the handler
    returns. With a model, the user turn is recorded and shown, the
    controls are disabled, the status says Thinking, a placeholder
    element is added last, and the handler goes on to generation with
    the trimmed input and that element. In none of these cases has the
    handler itself entered a component or touched the sequence number. *)
Theorem handleSubmit_dispatch (value : string) (w : t) :
  let userInput := Js.trim value in
  let n := length (UIController.elements (ui w)) in
  let user_el := {| UIController.data_role := "user"; UIController.sender := "you";
                    UIController.content := UIController._formatMessageContent userInput |} in
  let assistant_el text :=
    {| UIController.data_role := "assistant"; UIController.sender := "ai";
       UIController.content := UIController._formatMessageContent text |} in
  (userInput = EmptyString -> _handleSubmit cfg value w = Returned w)
  /\ (userInput <> EmptyString ->
      Js.trim (Js.toLowerCase userInput) ∉ greetings ->
      (pipe w = false ->
       exists w',
         _handleSubmit cfg value w = Returned w'
         /\ ChatEngine.history (chatEngine w')
            = (ChatEngine.history (chatEngine w) ++ [("user", userInput)])%list
         /\ UIController.elements (ui w')
            = (UIController.elements (ui w)
               ++ [user_el; assistant_el "Load a model first."])%list
         /\ UIController.children (ui w')
            = (UIController.children (ui w) ++ [n; S n])%list
         /\ UIController.controlsEnabled (ui w') = UIController.controlsEnabled (ui w)
         /\ invoked w' = invoked w
         /\ ChatEngine._genSeq (chatEngine w') = ChatEngine._genSeq (chatEngine w))
      /\ (pipe w = true ->
          exists w',
            _handleSubmit cfg value w = Generating w' userInput (S n)
            /\ ChatEngine.history (chatEngine w')
               = (ChatEngine.history (chatEngine w) ++ [("user", userInput)])%list
            /\ UIController.elements (ui w')
               = (UIController.elements (ui w)
                  ++ [user_el;
                      {| UIController.data_role := "assistant";
                         UIController.sender := "ai";
                         UIController.content := UIController.THINKING_DOTS |}])%list
            /\ UIController.children (ui w')
               = (UIController.children (ui w) ++ [n; S n])%list
            /\ UIController.controlsEnabled (ui w') = false
            /\ UIController.status (ui w') = "Thinking…"
            /\ invoked w' = invoked w
            /\ ChatEngine._genSeq (chatEngine w') = ChatEngine._genSeq (chatEngine w))).
Proof.
  cbv zeta. split.
  - intros Hempty. unfold _handleSubmit. rewrite Hempty. reflexivity.
  - intros Hne Hgreet.
    assert (He : String.eqb (Js.trim value) EmptyString = false).
    { destruct (String.eqb_spec (Js.trim value) EmptyString); [contradiction | reflexivity]. }
    assert (Hdots : UIController._formatMessageContent UIController.THINKING_DOTS
                    = UIController.THINKING_DOTS) by reflexivity.
    split; intros Hpipe; unfold _handleSubmit; rewrite He;
      rewrite (bool_decide_eq_false_2 _ Hgreet);
      unfold ui_addMessage, UIController.addMessage;
      cbn [with_engine with_ui chatEngine ui pipe snd fst invoked debug rng];
      rewrite Hpipe; cbn [negb];
      cbn [with_engine with_ui chatEngine ui pipe snd fst invoked debug rng
           UIController.setControlsEnabled UIController.setStatus
           UIController.elements UIController.children UIController.status
           UIController.controlsEnabled ChatEngine.addMessage ChatEngine.history
           ChatEngine._genSeq];
      rewrite ?length_app, ?Hdots; cbn [length]; rewrite ?Nat.add_1_r;
      eexists; (split; [reflexivity |]);
      cbn [with_engine with_ui chatEngine ui pipe snd fst invoked debug rng
           UIController.elements UIController.children UIController.status
           UIController.controlsEnabled ChatEngine.addMessage ChatEngine.history
           ChatEngine._genSeq];
      rewrite <- ?app_assoc; repeat split; reflexivity.
Qed.

(** *** The history *)

Lemma ui_addMessage_eq role content w :
  ui_addMessage role content w
  = (fst (UIController.addMessage role content (ui w)),
     with_ui (fun _ => snd (UIController.addMessage role content (ui w))) w).
Proof. reflexivity. Qed.

Lemma history_step_same h : history_step h h.
Proof.
  right. exists []. rewrite app_nil_r.
  repeat split; [apply Forall_nil_2 | simpl; lia].
Qed.

Lemma history_step_one h role content :
  role = "user" \/ role = "assistant" ->
  history_step h (h ++ [(role, content)]).
Proof.
  intros Hr. right. exists [(role, content)].
  repeat split; [apply Forall_singleton; exact Hr | simpl; lia].
Qed.

Lemma history_step_two h r1 c1 r2 c2 :
  r1 = "user" \/ r1 = "assistant" ->
  r2 = "user" \/ r2 = "assistant" ->
  history_step h ((h ++ [(r1, c1)]) ++ [(r2, c2)]).
Proof.
  intros H1 H2. right. exists [(r1, c1); (r2, c2)].
  rewrite <- app_assoc. repeat split; [| simpl; lia].
  apply Forall_cons; split; [exact H1 |]. apply Forall_singleton. exact H2.
Qed.

Lemma step_history w w' :
  step cfg w w' ->
  history_step (ChatEngine.history (chatEngine w)) (ChatEngine.history (chatEngine w')).
Proof.
  intros Hstep. destruct Hstep as
    [value w w' H | value w w' u el H | w | userText sys templated w | u el f w
     | req chunk w | req result w | el w | w | w | w | modelId w | p w
     | modelId fb w | modelId w].
  - revert H. unfold _handleSubmit.
    destruct (String.eqb _ _); [intros [= <-]; apply history_step_same |].
    rewrite !ui_addMessage_eq. unfold Js.random.
    destruct (bool_decide _).
    + intros [= <-]. apply history_step_two; auto.
    + cbn [snd pipe with_ui with_engine]. destruct (pipe w); cbn [negb]; [discriminate |].
      intros [= <-]. apply history_step_one; auto.
  - revert H. unfold _handleSubmit.
    destruct (String.eqb _ _); [discriminate |].
    rewrite !ui_addMessage_eq. unfold Js.random.
    destruct (bool_decide _); [discriminate |].
    cbn [snd pipe with_ui with_engine]. destruct (pipe w); cbn [negb]; [| discriminate].
    intros [= <- _ _]. apply history_step_one; auto.
  - unfold formatPrompt_begin. destruct (Config.getDynamicValues _). apply history_step_same.
  - unfold formatPrompt_end. destruct templated; apply history_step_same.
  - apply history_step_same.
  - unfold onUpdate. destruct (negb _); apply history_step_same.
  - unfold _generateResponse_result. destruct (negb _); [apply history_step_same |].
    destruct (ChatEngine.finalizeResponse _ _ _ _ _) as [[reply g] d].
    apply history_step_one; auto.
  - apply history_step_same.
  - apply history_step_same.
  - left. reflexivity.
  - apply history_step_same.
  - apply history_step_same.
  - apply history_step_same.
  - apply history_step_same.
  - apply history_step_same.
Qed.

Lemma steps_roles_ok w w' :
  steps cfg w w' ->
  roles_ok (ChatEngine.history (chatEngine w)) ->
  roles_ok (ChatEngine.history (chatEngine w')).
Proof.
  induction 1 as [| w1 w2 w3 Hstep _ IH]; [auto |].
  intros Hok. apply IH.
  destruct (step_history _ _ Hstep) as [-> | (added & -> & Hadd & _)];
    [apply Forall_nil_2 | apply Forall_app; split; assumption].
Qed.

(** Pruning returns turns of the history, in their order, whatever the
    window. *)
Lemma pruneHistory_sublist (e : ChatEngine.t) (currentInput : string) :
  ChatEngine._pruneHistory e currentInput `sublist_of` ChatEngine.history e.
Proof.
  unfold ChatEngine._pruneHistory.
  destruct (_ <=? _); [apply slice_sublist |].
  set (h := ChatEngine.history e). set (N := ChatEngine.historyLimit e).
  unfold Js.slice at 2 3.
  set (k := Js.rel_index (Z.of_nat (length h)) (- N)).
  assert (Hk : 0 <= k <= Z.of_nat (length h)).
  { subst k. unfold Js.rel_index. destruct (Z.ltb_spec (- N) 0); lia. }
  assert (H0 : Js.rel_index (Z.of_nat (length h)) 0 = 0).
  { unfold Js.rel_index. change (0 <? 0) with false. cbn iota. lia. }
  rewrite H0. cbn [Z.to_nat drop].
  rewrite (take_ge (drop (Z.to_nat k) h)) by (rewrite length_drop; lia).
  rewrite <- (take_drop (Z.to_nat k) h) at 3.
  replace (Z.to_nat (k - 0)) with (Z.to_nat k) by lia.
  apply sublist_app; [| reflexivity].
  etrans; [apply slice_sublist |]. apply sublist_filter.
Qed.

Lemma sublist_Forall {A} (P : A -> Prop) (l1 l2 : list A) :
  l1 `sublist_of` l2 -> Forall P l2 -> Forall P l1.
Proof.
  induction 1 as [| x l1 l2 _ IH | x l1 l2 _ IH]; intros H; [constructor | |].
  - apply Forall_cons in H as [Hx Hl]. constructor; auto.
  - apply Forall_cons in H as [_ Hl]. auto.
Qed.

Lemma history_line_known turn :
  known_role turn -> history_line turn = "Assistant: " ++ snd turn.
Proof. unfold history_line. intros [-> | ->]; reflexivity. Qed.

(** X18. Turns are only ever recorded under the roles "user" and
    "assistant", never under "me", which is the role the prompt
    formatter looks for. So in every state the element can reach from a
    history with those roles, the prompt written without a chat template
    labels every past turn "Assistant", the turns of the user included. *)
Theorem past_turns_are_labelled_assistant
    (w0 w : t) (userText systemPrompt : string) :
  roles_ok (ChatEngine.history (chatEngine w0)) ->
  steps cfg w0 w ->
  roles_ok (ChatEngine.history (chatEngine w))
  /\ let lines :=
       map (fun turn => "Assistant: " ++ snd turn)
           (ChatEngine._pruneHistory (chatEngine w) userText) in
     fst (formatPrompt_end userText systemPrompt None w)
     = systemPrompt ++ Js.NL
       ++ (if String.eqb (Js.join Js.NL lines) EmptyString then EmptyString
           else Js.join Js.NL lines ++ Js.NL)
       ++ "User: " ++ userText ++ Js.NL ++ "Assistant:".
Proof.
  intros Hok0 Hsteps. pose proof (steps_roles_ok _ _ Hsteps Hok0) as Hok.
  split; [exact Hok |]. cbv zeta. unfold formatPrompt_end. cbn [fst].
  assert (Hlines :
            map (fun turn : ChatEngine.Turn =>
                   (if String.eqb (fst turn) "me" then "User" else "Assistant")
                   ++ ": " ++ snd turn)
                (ChatEngine._pruneHistory (chatEngine w) userText)
            = map (fun turn => "Assistant: " ++ snd turn)
                  (ChatEngine._pruneHistory (chatEngine w) userText)).
  { pose proof (sublist_Forall _ _ _ (pruneHistory_sublist (chatEngine w) userText) Hok)
      as Hp.
    induction Hp as [| turn l Hturn _ IH]; [reflexivity |].
    cbn [map]. rewrite IH. f_equal. apply (history_line_known turn Hturn). }
  rewrite Hlines. reflexivity.
Qed.

End Shell.

(** The theorem at a fresh chat in which the user has asked one
    question. *)
Lemma past_turns_are_labelled_assistant_witness :
  roles_ok (ChatEngine.history (AIChat.chatEngine one_turn_shown))
  /\ fst (AIChat.formatPrompt_end "tell me about the book" "SYSTEM" None one_turn_shown)
     = "SYSTEM" ++ Js.NL
       ++ (if String.eqb
                (Js.join Js.NL
                   (map (fun turn : ChatEngine.Turn => "Assistant: " ++ snd turn)
                        (ChatEngine._pruneHistory (AIChat.chatEngine one_turn_shown)
                           "tell me about the book")))
                EmptyString
           then EmptyString
           else Js.join Js.NL
                  (map (fun turn : ChatEngine.Turn => "Assistant: " ++ snd turn)
                       (ChatEngine._pruneHistory (AIChat.chatEngine one_turn_shown)
                          "tell me about the book")) ++ Js.NL)
       ++ "User: " ++ "tell me about the book" ++ Js.NL ++ "Assistant:".
Proof.
  apply (past_turns_are_labelled_assistant SiteConfig.SITE_CONFIG ready_chat
           one_turn_shown "tell me about the book" "SYSTEM").
  - apply Forall_nil_2.
  - apply rtc_once.
    apply (AIChat.step_submit_generating SiteConfig.SITE_CONFIG "tell me about the book"
             ready_chat one_turn_shown "tell me about the book" 1%nat).
    reflexivity.
Defined.

Example fallback_prompt_of_one_turn :
  fst (AIChat.formatPrompt_end "tell me about the book" "SYSTEM" None one_turn_shown)
  = "SYSTEM" ++ Js.NL ++ "Assistant: tell me about the book" ++ Js.NL
    ++ "User: tell me about the book" ++ Js.NL ++ "Assistant:".
Proof. reflexivity. Qed.

(** *** The message store *)

Section Store.
Import UIController.

Lemma ui_ok_refl u : ui_ok u u.
Proof. split; [auto |]. intros i el H. eauto. Qed.

Lemma ui_ok_trans u1 u2 u3 : ui_ok u1 u2 -> ui_ok u2 u3 -> ui_ok u1 u3.
Proof.
  intros [Hw12 Hp12] [Hw23 Hp23]. split; [auto |].
  intros i el H. destruct (Hp12 _ _ H) as (el2 & H2 & Hr2 & Hs2).
  destruct (Hp23 _ _ H2) as (el3 & H3 & Hr3 & Hs3).
  exists el3. repeat split; congruence.
Qed.

Lemma ui_ok_addMessage role content u : ui_ok u (snd (addMessage role content u)).
Proof.
  split.
  - intros [Hin Hnd]. unfold ui_wf, addMessage. cbn [snd elements children]. split.
    + apply Forall_app. split.
      * eapply Forall_impl; [exact Hin |]. intros r Hr. cbv beta in *.
        rewrite length_app. cbn [length]. lia.
      * apply Forall_singleton. rewrite length_app. cbn [length]. lia.
    + apply NoDup_app. repeat split; [exact Hnd | | apply NoDup_singleton].
      intros r Hr Hr'. apply list_elem_of_singleton in Hr'. subst r.
      rewrite Forall_forall in Hin. specialize (Hin _ Hr). cbv beta in Hin. lia.
  - intros i el H. exists el. unfold addMessage. cbn [snd elements].
    rewrite lookup_app_l by (eapply lookup_lt_Some; exact H). auto.
Qed.

Lemma ui_ok_updateMessage element content u : ui_ok u (updateMessage element content u).
Proof.
  split.
  - intros [Hin Hnd]. unfold ui_wf, updateMessage. cbn [elements children].
    rewrite length_alter. split; assumption.
  - intros i el H. unfold updateMessage. cbn [elements].
    destruct (decide (i = element)) as [-> | Hne].
    + eexists. rewrite list_lookup_alter_eq, H. cbn. repeat split; reflexivity.
    + exists el. rewrite list_lookup_alter_ne by congruence. auto.
Qed.

Lemma ui_ok_clearMessages u : ui_ok u (clearMessages u).
Proof.
  split; [| intros i el H; eauto].
  intros _. split; [apply Forall_nil_2 | apply NoDup_nil_2].
Qed.

Lemma ui_ok_setStatus text u : ui_ok u (setStatus text u).
Proof. split; [auto | intros i el H; eauto]. Qed.

Lemma ui_ok_setControlsEnabled b u : ui_ok u (setControlsEnabled b u).
Proof. split; [auto | intros i el H; eauto]. Qed.

End Store.

(** Applies the lemma of one store operation; splits a chain of
    operations at its last one. *)
Ltac store_op :=
  first [ apply ui_ok_addMessage | apply ui_ok_updateMessage
        | apply ui_ok_clearMessages | apply ui_ok_setStatus
        | apply ui_ok_setControlsEnabled ].

Ltac store_chain :=
  repeat first [ apply ui_ok_refl
               | solve [store_op]
               | eapply ui_ok_trans; [| solve [store_op]] ].

Section StoreSteps.
Import AIChat.

Variable cfg : SiteConfig.t.

Lemma handleSubmit_ui_ok value w :
  ui_ok (ui w) (ui (submit_world (_handleSubmit cfg value w))).
Proof.
  unfold _handleSubmit.
  destruct (String.eqb _ _); [apply ui_ok_refl |].
  rewrite !ui_addMessage_eq. unfold Js.random.
  destruct (bool_decide _).
  - cbn [submit_world snd fst ui with_ui with_engine with_rng]. store_chain.
  - cbn [snd pipe with_ui with_engine]. destruct (pipe w); cbn [negb].
    + rewrite ?ui_addMessage_eq.
      cbn [submit_world snd fst ui with_ui with_engine]. store_chain.
    + rewrite ?ui_addMessage_eq.
      cbn [submit_world snd fst ui with_ui with_engine]. store_chain.
Qed.

Lemma step_ui_ok w w' : step cfg w w' -> ui_ok (ui w) (ui w').
Proof.
  intros Hstep. destruct Hstep as
    [value w w' H | value w w' u el H | w | userText sys templated w | u el f w
     | req chunk w | req result w | el w | w | w | w | modelId w | p w
     | modelId fb w | modelId w].
  - change w' with (submit_world (Returned w')). rewrite <- H. apply handleSubmit_ui_ok.
  - change w' with (submit_world (Generating w' u el)). rewrite <- H.
    apply handleSubmit_ui_ok.
  - unfold formatPrompt_begin. destruct (Config.getDynamicValues _). apply ui_ok_refl.
  - unfold formatPrompt_end. destruct templated; apply ui_ok_refl.
  - apply ui_ok_refl.
  - unfold onUpdate. destruct (negb _); cbn [snd ui with_ui]; store_chain.
  - unfold _generateResponse_result. destruct (negb _); [apply ui_ok_refl |].
    destruct (ChatEngine.finalizeResponse _ _ _ _ _) as [[reply g] d].
    cbn [ui with_ui with_engine with_debug with_rng enter]. store_chain.
  - unfold _handleSubmit_catch. cbn [ui with_ui]. store_chain.
  - unfold _handleSubmit_finally. cbn [ui with_ui]. store_chain.
  - unfold _clearChat. rewrite ui_addMessage_eq. cbn [snd ui with_ui with_engine].
    store_chain.
  - apply ui_ok_refl.
  - unfold _loadSelectedModel_begin. cbn [ui with_ui]. store_chain.
  - apply ui_ok_refl.
  - unfold _loadSelectedModel_loaded. rewrite ui_addMessage_eq.
    cbn [snd ui with_ui]. store_chain.
  - unfold _loadSelectedModel_failed. rewrite ui_addMessage_eq.
    cbn [snd ui with_ui]. store_chain.
Qed.

Lemma rendered_length (u : UIController.t) :
  ui_wf u -> length (UIController.rendered u) = length (UIController.children u).
Proof.
  intros [Hin _]. unfold UIController.rendered.
  induction (UIController.children u) as [| r rs IH]; [reflexivity |].
  apply Forall_cons in Hin as [Hr Hrs]. cbn [omap list_omap].
  destruct (lookup_lt_is_Some_2 _ _ Hr) as [el Hel]. rewrite Hel.
  cbn [length]. f_equal. exact (IH Hrs).
Qed.

(** X19. The message store stays well formed through everything the
    element does: every reference attached to the container points to an
    element of the store and is attached once, so the container shows
    exactly one element per reference. An element, once created, stays
    in the store under its reference and keeps its role and its sender;
    only its content can change. *)
Theorem message_store_stays_well_formed (w0 w : t) :
  ui_wf (ui w0) ->
  steps cfg w0 w ->
  ui_wf (ui w)
  /\ length (UIController.rendered (ui w)) = length (UIController.children (ui w))
  /\ elements_persist (ui w0) (ui w).
Proof.
  intros Hwf Hsteps.
  assert (Hok : ui_ok (ui w0) (ui w)).
  { induction Hsteps as [| w1 w2 w3 Hstep _ IH]; [apply ui_ok_refl |].
    eapply ui_ok_trans; [apply step_ui_ok; exact Hstep | apply IH].
    apply (proj1 (step_ui_ok _ _ Hstep)). exact Hwf. }
  destruct Hok as [Hw Hp].
  split; [auto |]. split; [apply rendered_length; auto | exact Hp].
Qed.

End StoreSteps.

(** The theorem from the fresh chat to the state in which two requests
    have started. *)
Lemma message_store_stays_well_formed_witness :
  ui_wf (AIChat.ui two_requests_started)
  /\ length (UIController.rendered (AIChat.ui two_requests_started))
     = length (UIController.children (AIChat.ui two_requests_started))
  /\ elements_persist (AIChat.ui ready_chat) (AIChat.ui two_requests_started).
Proof.
  apply (message_store_stays_well_formed SiteConfig.SITE_CONFIG ready_chat
           two_requests_started).
  - split; [apply Forall_nil_2 | apply NoDup_nil_2].
  - eapply rtc_l.
    { apply (AIChat.step_submit_generating SiteConfig.SITE_CONFIG "tell me about the book"
               ready_chat one_turn_shown "tell me about the book" 1%nat). reflexivity. }
    eapply rtc_l.
    { apply (AIChat.step_generate_start SiteConfig.SITE_CONFIG "tell me about the book"
               1%nat "prompt A" one_turn_shown). }
    eapply rtc_l.
    { apply (AIChat.step_onUpdate SiteConfig.SITE_CONFIG
               (fst (AIChat._generateResponse_start "tell me about the book" 1 "prompt A"
                       one_turn_shown))
               (AIChat.ChunkString "The book")). }
    apply rtc_once.
    apply (AIChat.step_generate_start SiteConfig.SITE_CONFIG "and the robots?" 3%nat
             "prompt B" first_request_streaming).
Defined.

(** *** The model manager *)

Section Manager.
Import Js ModelManager.

Lemma loadTransformers_keeps gpu rt m c m' :
  _loadTransformers gpu rt m = (c, m') ->
  pipe m' = pipe m /\ tokenizer m' = tokenizer m
  /\ currentModelId m' = currentModelId m /\ _loadSeq m' = _loadSeq m.
Proof.
  unfold _loadTransformers. destruct (tf m); [intros [= <- <-]; auto |].
  destruct (imported rt); intros [= <- <-]; auto.
Qed.

Lemma configureAuth_keeps tok m :
  pipe (_configureAuth tok m) = pipe m
  /\ tokenizer (_configureAuth tok m) = tokenizer m
  /\ currentModelId (_configureAuth tok m) = currentModelId m
  /\ _loadSeq (_configureAuth tok m) = _loadSeq m.
Proof. unfold _configureAuth. destruct (truthy tok); auto. Qed.

Lemma createPipeline_model modelId dev dtype rt p :
  _createPipeline modelId dev dtype rt = Normal p -> p_model p = modelId.
Proof.
  unfold _createPipeline. destruct (with_dtype rt); [intros [= <-]; reflexivity |].
  destruct (without_dtype rt); [intros [= <-]; reflexivity | discriminate].
Qed.

(** The outcomes of [loadModel], case by case. *)
Lemma loadModel_cases (modelId : string) (hfToken : option string) (gpu : bool)
    (rt : Runtime) (m : t) :
  let '(outcome, m') := loadModel modelId hfToken gpu rt m in
  _loadSeq m' = S (_loadSeq m)
  /\ match outcome with
     | Normal None => False
     | Normal (Some r) =>
         success r = true
         /\ (exists p, pipe m' = Some p /\ p_model p = modelId)
         /\ if fallback r
            then gpu = true /\ device r = "cpu" /\ tokenizer m' = None
                 /\ currentModelId m' = currentModelId m
            else device r = (if gpu then "webgpu" else "cpu")
                 /\ tokenizer m' = _loadTokenizer modelId rt
                 /\ currentModelId m' = Some modelId
     | Throw _ =>
         pipe m' = None /\ tokenizer m' = None
         /\ currentModelId m' = currentModelId m
     end.
Proof.
  unfold loadModel, loadModel_enter.
  destruct (_loadTransformers gpu rt _) as [c m1] eqn:Hl.
  apply loadTransformers_keeps in Hl as (Hp & Hk & Hc & Hs).
  cbn [_cleanup set_tokenizer set_pipe pipe tokenizer currentModelId _loadSeq] in Hp, Hk, Hc, Hs.
  destruct c as [[] | e]; [| auto].
  destruct (configureAuth_keeps hfToken m1) as (Hp' & Hk' & Hc' & Hs').
  destruct (_createPipeline modelId (device_of gpu) (dtype_of modelId) rt) as [p | e] eqn:Hcp.
  - apply createPipeline_model in Hcp.
    unfold loadModel_pipe, loadModel_tokenizer. cbv zeta.
    cbn [set_pipe set_tokenizer set_currentModelId _loadSeq pipe tokenizer currentModelId].
    rewrite Hs', Hs, Nat.eqb_refl. cbn [negb].
    cbn [set_pipe set_tokenizer set_currentModelId _loadSeq pipe tokenizer
         currentModelId success fallback device].
    rewrite Hs', Hs. split; [reflexivity |]. split; [reflexivity |].
    split; [eauto |]. destruct gpu; auto.
  - destruct gpu; cbn [device_of truthy String.eqb negb].
    + change (negb (String.eqb "webgpu" EmptyString)) with true. cbn iota.
      destruct (on_cpu rt) as [[] | e'].
      * unfold _fallbackToCPU. cbv zeta.
        cbn [set_pipe _loadSeq pipe tokenizer currentModelId].
        rewrite Hs', Hs, Nat.eqb_refl. cbn [negb].
        cbn [set_pipe _loadSeq pipe tokenizer currentModelId success fallback device
             p_model].
        rewrite Hs', Hs, Hk', Hk, Hc', Hc. repeat split; eauto.
      * rewrite Hs', Hs, Hp', Hp, Hk', Hk, Hc', Hc. auto.
    + rewrite Hs', Hs, Hp', Hp, Hk', Hk, Hc', Hc. auto.
Qed.

(** X20. What one load of a model leaves behind when no other load runs
    in between. It takes the next sequence number. It never resolves to
    null. When it resolves, a pipeline of the requested model is
    installed; a regular load also records the model as the current one
    and stores its tokenizer, while a load that fell back to the CPU
    reports the device "cpu", has no tokenizer, and leaves the current
    model as it was before. When it throws, no pipeline and no tokenizer
    are left, the ones of the previous model included. *)
Theorem loadModel_outcome (modelId : string) (hfToken : option string) (gpu : bool)
    (rt : Runtime) (m : t) :
  let '(outcome, m') := loadModel modelId hfToken gpu rt m in
  _loadSeq m' = S (_loadSeq m)
  /\ match outcome with
     | Normal None => False
     | Normal (Some r) =>
         success r = true
         /\ (exists p, pipe m' = Some p /\ p_model p = modelId)
         /\ if fallback r
            then gpu = true /\ device r = "cpu" /\ tokenizer m' = None
                 /\ currentModelId m' = currentModelId m
            else device r = (if gpu then "webgpu" else "cpu")
                 /\ tokenizer m' = _loadTokenizer modelId rt
                 /\ currentModelId m' = Some modelId
     | Throw _ =>
         pipe m' = None /\ tokenizer m' = None
         /\ currentModelId m' = currentModelId m
     end.
Proof. apply loadModel_cases. Qed.

(** X21. A load that fails leaves the chat without a model, even when
    one was loaded before: the text generation that follows throws
    "No model loaded", whatever the runtime would have answered, while
    the manager still names the previous model as the current one. *)
Theorem failed_load_leaves_no_model (modelId : string) (hfToken : option string)
    (gpu : bool) (rt : Runtime) (m m' : t) (error : string)
    (first second : Completion string) (cpu : Completion unit) :
  loadModel modelId hfToken gpu rt m = (Throw error, m') ->
  generateText first cpu second m' = (Throw "No model loaded", m')
  /\ currentModelId m' = currentModelId m.
Proof.
  intros H. pose proof (loadModel_cases modelId hfToken gpu rt m) as Ho.
  rewrite H in Ho. destruct Ho as (_ & Hp & _ & Hc).
  unfold generateText. rewrite Hp. auto.
Qed.

(** X22. After a load that fell back to the CPU the manager does not
    know the model it runs. When the generation then fails with a GPU
    kernel error, the retry on the CPU throws "No current model for CPU
    retry" if no model had been loaded regularly before, and otherwise
    creates its pipeline for the model loaded before, not for the one
    the user selected. *)
Theorem retry_after_fallback_uses_previous_model (modelId : string)
    (hfToken : option string) (gpu : bool) (rt : Runtime) (m m' : t) (r : LoadResult)
    (error : string) (second : Completion string) :
  loadModel modelId hfToken gpu rt m = (Normal (Some r), m') ->
  fallback r = true ->
  _isGPUKernelError error = true ->
  match currentModelId m with
  | Some previous =>
      if String.eqb previous EmptyString
      then generateText (Throw error) (Normal tt) second m'
           = (Throw "No current model for CPU retry", m')
      else exists m'',
          generateText (Throw error) (Normal tt) second m' = (second, m'')
          /\ pipe m'' = Some {| p_model := previous; p_device := None; p_dtype := None |}
          /\ tokenizer m'' = None
  | None =>
      generateText (Throw error) (Normal tt) second m'
      = (Throw "No current model for CPU retry", m')
  end.
Proof.
  intros H Hf He. pose proof (loadModel_cases modelId hfToken gpu rt m) as Ho.
  rewrite H in Ho. destruct Ho as (_ & _ & (p & Hp & _) & Hr).
  rewrite Hf in Hr. destruct Hr as (_ & _ & _ & Hc).
  unfold generateText, _retryOnCPU. rewrite Hp, He, Hc.
  destruct (currentModelId m) as [previous |]; cbn [truthy negb show]; [| reflexivity].
  destruct (String.eqb previous EmptyString); cbn [negb]; [reflexivity |].
  eexists. split; [reflexivity |]. split; reflexivity.
Qed.

(** X23. A load that has been overtaken still installs its pipeline. A
    first load runs up to the creation of its pipeline; a second load
    then runs from its first line to its last and resolves; when the
    pipeline of the first load arrives, that load resolves to null, but
    its pipeline has replaced the one of the second load, while the
    current model and the tokenizer stay those of the second load. *)
Theorem overtaken_load_still_installs_its_pipeline (second_model : string)
    (hfToken hfToken' : option string) (gpu : bool) (rt rt' : Runtime)
    (p : Pipeline) (r : LoadResult) (seq : nat) (m m0 m1 m2 : t) :
  loadModel_enter m = (seq, m0) ->
  _loadTransformers gpu rt (_cleanup m0) = (Normal tt, m1) ->
  loadModel second_model hfToken' gpu rt' (_configureAuth hfToken m1)
  = (Normal (Some r), m2) ->
  fallback r = false ->
  exists m3,
    loadModel_pipe seq p m2 = (false, m3)
    /\ pipe m3 = Some p
    /\ currentModelId m3 = Some second_model
    /\ tokenizer m3 = _loadTokenizer second_model rt'.
Proof.
  unfold loadModel_enter. intros [= <- <-] Hl H Hf.
  pose proof (loadModel_cases second_model hfToken' gpu rt' (_configureAuth hfToken m1))
    as Ho.
  rewrite H in Ho. destruct Ho as (Hs & _ & _ & Hr). rewrite Hf in Hr.
  destruct Hr as (_ & Hk & Hc).
  destruct (configureAuth_keeps hfToken m1) as (_ & _ & _ & Hs1).
  apply loadTransformers_keeps in Hl as (_ & _ & _ & Hs0).
  cbn [_cleanup set_tokenizer set_pipe _loadSeq] in Hs0.
  unfold loadModel_pipe. cbn [set_pipe _loadSeq]. eexists. split.
  - f_equal. apply Nat.eqb_neq. lia.
  - cbn [pipe tokenizer currentModelId]. auto.
Qed.

End Manager.

(** The theorem at a load of a model that cannot be fetched, after
    another model had been loaded. *)
Lemma failed_load_leaves_no_model_witness :
  ModelManager.generateText (Js.Normal "Hello") (Js.Normal tt) (Js.Normal "Hello")
    (snd (ModelManager.loadModel SMOL_360 None true nothing_loads smol_135_loaded))
  = (Js.Throw "No model loaded",
     snd (ModelManager.loadModel SMOL_360 None true nothing_loads smol_135_loaded))
  /\ ModelManager.currentModelId
       (snd (ModelManager.loadModel SMOL_360 None true nothing_loads smol_135_loaded))
     = Some SMOL_135.
Proof.
  apply (failed_load_leaves_no_model SMOL_360 None true nothing_loads smol_135_loaded
           _ "Failed to fetch").
  reflexivity.
Defined.

(** The theorem at a load that fell back to the CPU after another model
    had been loaded on the GPU: the retry runs the other model. *)
Lemma retry_after_fallback_uses_previous_model_witness :
  exists m'',
    ModelManager.generateText (Js.Throw "WebGPU device lost") (Js.Normal tt)
      (Js.Normal "Hello")
      (snd (ModelManager.loadModel SMOL_360 None true only_cpu_loads smol_135_loaded))
    = (Js.Normal "Hello", m'')
    /\ ModelManager.pipe m''
       = Some {| ModelManager.p_model := SMOL_135;
                 ModelManager.p_device := None;
                 ModelManager.p_dtype := None |}
    /\ ModelManager.tokenizer m'' = None.
Proof.
  apply (retry_after_fallback_uses_previous_model SMOL_360 None true only_cpu_loads
           smol_135_loaded _
           {| ModelManager.success := true; ModelManager.device := "cpu";
              ModelManager.fallback := true |}
           "WebGPU device lost" (Js.Normal "Hello")); reflexivity.
Defined.

(** The theorem at two loads started from a fresh manager. *)
Lemma overtaken_load_still_installs_its_pipeline_witness :
  exists m3,
    ModelManager.loadModel_pipe 1 smol_135_pipeline smol_360_overtakes = (false, m3)
    /\ ModelManager.pipe m3 = Some smol_135_pipeline
    /\ ModelManager.currentModelId m3 = Some SMOL_360
    /\ ModelManager.tokenizer m3 = ModelManager._loadTokenizer SMOL_360 all_loads.
Proof.
  apply (overtaken_load_still_installs_its_pipeline SMOL_360 None None true
           all_loads all_loads smol_135_pipeline
           {| ModelManager.success := true; ModelManager.device := "webgpu";
              ModelManager.fallback := false |}
           1%nat ModelManager.new
           (snd (ModelManager.loadModel_enter ModelManager.new))
           (snd (ModelManager._loadTransformers true all_loads
                   (ModelManager._cleanup
                      (snd (ModelManager.loadModel_enter ModelManager.new)))))
           smol_360_overtakes); reflexivity.
Defined.

(** *** Clearing the chat and asking while a reply is on its way *)

Section Conversation.
Import AIChat.

Variable cfg : SiteConfig.t.

Lemma handleSubmit_generating value w w1 u el :
  _handleSubmit cfg value w = Generating w1 u el ->
  ChatEngine.history (chatEngine w1)
  = (ChatEngine.history (chatEngine w) ++ [("user", u)])%list.
Proof.
  unfold _handleSubmit.
  destruct (String.eqb _ _); [discriminate |].
  rewrite !ui_addMessage_eq. unfold Js.random.
  destruct (bool_decide _); [discriminate |].
  cbn [snd pipe with_ui with_engine]. destruct (pipe w); cbn [negb]; [| discriminate].
  intros [= <- <- _]. reflexivity.
Qed.

Lemma formatPrompt_begin_history w :
  ChatEngine.history (chatEngine (formatPrompt_begin w))
  = ChatEngine.history (chatEngine w).
Proof.
  unfold formatPrompt_begin. destruct (Config.getDynamicValues _). reflexivity.
Qed.

Lemma pruneHistory_ends_with_last (e : ChatEngine.t) (currentInput : string)
    (h : list ChatEngine.Turn) (turn : ChatEngine.Turn) :
  0 < ChatEngine.historyLimit e ->
  ChatEngine.history e = (h ++ [turn])%list ->
  exists before, ChatEngine._pruneHistory e currentInput = (before ++ [turn])%list.
Proof.
  intros Hpos Hh.
  destruct (Z.le_gt_cases (Z.of_nat (length (ChatEngine.history e)))
              (ChatEngine.historyLimit e)) as [Hle | Hgt].
  - exists h. rewrite pruneHistory_short by assumption. exact Hh.
  - rewrite pruneHistory_long by lia. cbv zeta.
    assert (Hd : drop (length (ChatEngine.history e)
                       - Z.to_nat (ChatEngine.historyLimit e)) (ChatEngine.history e)
                 = (drop (length (ChatEngine.history e)
                          - Z.to_nat (ChatEngine.historyLimit e)) h ++ [turn])%list).
    { rewrite Hh at 2. apply drop_app_le.
      rewrite Hh, length_app. cbn [length]. lia. }
    rewrite Hd. eexists. rewrite app_assoc. reflexivity.
Qed.

Lemma join_ends_with_last (sep : string) (l : list string) (x : string) :
  exists before, Js.join sep (l ++ [x]) = before ++ x.
Proof.
  induction l as [| a l [before IH]]; [exists EmptyString; reflexivity |].
  change ((a :: l) ++ [x])%list with (a :: (l ++ [x]))%list.
  destruct (l ++ [x])%list as [| b r] eqn:E.
  { destruct l; discriminate. }
  exists (a ++ sep ++ before).
  change (Js.join sep (a :: b :: r)) with (a ++ sep ++ Js.join sep (b :: r)).
  rewrite IH, !append_assoc. reflexivity.
Qed.

(** X24. Clearing the chat does not cancel a reply that is on its way.
    When the generation of a request that was the current one at the
    time of the clearing resolves, its reply is recorded as the first
    turn of the emptied history, while the page goes on showing only the
    message that the chat was cleared: the element the reply is written
    to is no longer attached. *)
Theorem clearChat_does_not_cancel_generation (req : Request) (result : Result) (w : t) :
  genSeq req = ChatEngine._genSeq (chatEngine w) ->
  (responseEl req < length (UIController.elements (ui w)))%nat ->
  let w' := _generateResponse_result cfg req result (_clearChat w) in
  (exists reply, ChatEngine.history (chatEngine w') = [("assistant", reply)])
  /\ UIController.rendered (ui w')
     = [ {| UIController.data_role := "assistant";
            UIController.sender := "ai";
            UIController.content :=
              UIController._formatMessageContent
                "Chat cleared. What would you like to know?" |} ].
Proof.
  intros Hseq Hel w'. subst w'.
  unfold _clearChat. rewrite ui_addMessage_eq. cbn [snd].
  unfold _generateResponse_result.
  cbn [chatEngine with_ui with_engine ChatEngine.clearHistory ChatEngine._genSeq].
  rewrite <- Hseq, Nat.eqb_refl. cbn [negb].
  destruct (ChatEngine.finalizeResponse _ _ _ _ _) as [[reply g] d].
  split.
  - exists reply. reflexivity.
  - cbn [ui with_ui with_engine with_debug with_rng enter].
    unfold UIController.rendered, UIController.setStatus, UIController.updateMessage,
      UIController.addMessage, UIController.clearMessages.
    cbn [snd UIController.elements UIController.children app omap list_omap].
    rewrite list_lookup_alter_ne by lia.
    rewrite lookup_app_r by lia. rewrite Nat.sub_diag. reflexivity.
Qed.

(** X25. The history that the prompt is built from already holds the
    input that is being answered: [_handleSubmit] records the input
    before the prompt is formatted. So the pruned history ends with the
    current input, and the prompt written without a chat template shows
    it twice, first as a past turn of the assistant and then as the
    question of the user. *)
Theorem current_input_is_in_the_prompt_twice (value userInput systemPrompt : string)
    (w w1 : t) (el : nat) :
  _handleSubmit cfg value w = Generating w1 userInput el ->
  let w2 := formatPrompt_begin w1 in
  last (ChatEngine._pruneHistory (chatEngine w2) userInput) = Some ("user", userInput)
  /\ exists before,
       fst (formatPrompt_end userInput systemPrompt None w2)
       = before ++ "Assistant: " ++ userInput ++ Js.NL
         ++ "User: " ++ userInput ++ Js.NL ++ "Assistant:".
Proof.
  intros H w2. apply handleSubmit_generating in H.
  destruct (pruneHistory_ends_with_last (chatEngine w2) userInput
              (ChatEngine.history (chatEngine w)) ("user", userInput))
    as [before Hp].
  { pose proof (formatPrompt_begin_window w1). subst w2. lia. }
  { subst w2. rewrite formatPrompt_begin_history. exact H. }
  split; [rewrite Hp; apply last_snoc |].
  unfold formatPrompt_end. cbn [fst]. rewrite Hp, map_app. cbn [map fst snd].
  change (String.eqb "user" "me") with false. cbn iota.
  destruct (join_ends_with_last Js.NL
              (map (fun turn : ChatEngine.Turn =>
                      (if String.eqb (fst turn) "me" then "User" else "Assistant")
                      ++ ": " ++ snd turn) before)
              ("Assistant" ++ ": " ++ userInput)) as [pre Hj].
  rewrite Hj.
  assert (Hne : String.eqb (pre ++ "Assistant" ++ ": " ++ userInput) EmptyString = false).
  { destruct pre; reflexivity. }
  rewrite Hne. exists (systemPrompt ++ Js.NL ++ pre).
  rewrite !append_assoc. reflexivity.
Qed.

End Conversation.

(** The theorem at a chat that is cleared while its first request
    streams. *)
Lemma clearChat_does_not_cancel_generation_witness :
  (exists reply,
      ChatEngine.history
        (AIChat.chatEngine
           (AIChat._generateResponse_result SiteConfig.SITE_CONFIG first_request_later
              (Some (Some "The book is about robots."))
              (AIChat._clearChat first_request_streaming)))
      = [("assistant", reply)])
  /\ UIController.rendered
       (AIChat.ui
          (AIChat._generateResponse_result SiteConfig.SITE_CONFIG first_request_later
             (Some (Some "The book is about robots."))
             (AIChat._clearChat first_request_streaming)))
     = [ {| UIController.data_role := "assistant";
            UIController.sender := "ai";
            UIController.content :=
              UIController._formatMessageContent
                "Chat cleared. What would you like to know?" |} ].
Proof.
  apply (clearChat_does_not_cancel_generation SiteConfig.SITE_CONFIG first_request_later
           (Some (Some "The book is about robots.")) first_request_streaming).
  - reflexivity.
  - vm_compute. lia.
Defined.

(** The theorem at the first question of a fresh chat. *)
Lemma current_input_is_in_the_prompt_twice_witness :
  last (ChatEngine._pruneHistory
          (AIChat.chatEngine (AIChat.formatPrompt_begin one_turn_shown))
          "tell me about the book")
  = Some ("user", "tell me about the book")
  /\ exists before,
       fst (AIChat.formatPrompt_end "tell me about the book" "SYSTEM" None
              (AIChat.formatPrompt_begin one_turn_shown))
       = before ++ "Assistant: " ++ "tell me about the book" ++ Js.NL
         ++ "User: " ++ "tell me about the book" ++ Js.NL ++ "Assistant:".
Proof.
  apply (current_input_is_in_the_prompt_twice SiteConfig.SITE_CONFIG
           "tell me about the book" "tell me about the book" "SYSTEM"
           ready_chat one_turn_shown 1%nat).
  reflexivity.
Defined.

(** *** Escaping of the messages *)

Section Escaping.
Import Js UIController.

Lemma prefix_empty (s : string) : String.prefix EmptyString s = true.
Proof. destruct s; reflexivity. Qed.

Lemma includes_char_cons (c a : ascii) (s : string) :
  includes (String a s) (String c EmptyString)
  = Ascii.eqb c a || includes s (String c EmptyString).
Proof.
  cbn [includes String.prefix].
  destruct (Ascii.ascii_dec c a) as [-> | Hne].
  - rewrite prefix_empty, Ascii.eqb_refl. reflexivity.
  - apply Ascii.eqb_neq in Hne. rewrite Hne. reflexivity.
Qed.

Lemma includes_char_app (c : ascii) (a b : string) :
  includes (a ++ b) (String c EmptyString)
  = includes a (String c EmptyString) || includes b (String c EmptyString).
Proof.
  induction a as [| x a IH]; [reflexivity |].
  change (String x a ++ b) with (String x (a ++ b)).
  rewrite !includes_char_cons, IH, orb_assoc. reflexivity.
Qed.

Lemma escape_entities_cons (c : ascii) (s : string) :
  escape_entities (String c s)
  = (if Ascii.eqb c "&" then "&amp;"
     else if Ascii.eqb c "<" then "&lt;"
     else if Ascii.eqb c ">" then "&gt;"
     else String c EmptyString) ++ escape_entities s.
Proof. reflexivity. Qed.

Lemma escape_entities_app (a b : string) :
  escape_entities (a ++ b) = escape_entities a ++ escape_entities b.
Proof.
  induction a as [| x a IH]; [reflexivity |].
  change (String x a ++ b) with (String x (a ++ b)).
  rewrite !escape_entities_cons, IH, append_assoc. reflexivity.
Qed.

(** Escaping adds no character other than those of the three entities. *)
Lemma escape_entities_adds (c : ascii) (s : string) :
  includes "&amp;&lt;&gt;" (String c EmptyString) = false ->
  includes s (String c EmptyString) = false ->
  includes (escape_entities s) (String c EmptyString) = false.
Proof.
  intros Hc. induction s as [| x s IH]; [reflexivity |].
  rewrite includes_char_cons, escape_entities_cons, includes_char_app.
  intros [Hx Hs]%orb_false_elim. rewrite (IH Hs), orb_false_r.
  rewrite !includes_char_cons in Hc.
  repeat (apply orb_false_elim in Hc as [? Hc]).
  destruct (Ascii.eqb x "&"); [| destruct (Ascii.eqb x "<"); [| destruct (Ascii.eqb x ">")]];
    rewrite ?includes_char_cons;
    repeat (apply orb_false_intro; [assumption |]); try reflexivity.
Qed.


Lemma escape_entities_not_empty (s : string) :
  String.eqb s EmptyString = false ->
  String.eqb (escape_entities s) EmptyString = false.
Proof.
  destruct s as [| x s]; [discriminate |]. intros _. rewrite escape_entities_cons.
  destruct (Ascii.eqb x "&"); [reflexivity |].
  destruct (Ascii.eqb x "<"); [reflexivity |].
  destruct (Ascii.eqb x ">"); reflexivity.
Qed.


Lemma replace_links_empty (fuel : nat) : replace_links fuel EmptyString = EmptyString.
Proof. destruct fuel; reflexivity. Qed.

Lemma span_until_first (stop : ascii) (a r : string) :
  includes a (String stop EmptyString) = false ->
  span_until stop (a ++ String stop r) = Some (a, r).
Proof.
  induction a as [| x a IH].
  - intros _. change (EmptyString ++ String stop r) with (String stop r).
    cbn [span_until]. rewrite Ascii.eqb_refl. reflexivity.
  - rewrite includes_char_cons. intros [Hx Ha]%orb_false_elim.
    change (String x a ++ String stop r) with (String x (a ++ String stop r)).
    cbn [span_until]. rewrite Ascii.eqb_sym, Hx, (IH Ha). reflexivity.
Qed.


(** X27. A message that is one markdown link is written as one anchor.
    Its text and its address are the escaped ones, so the address is put
    between the quotes of the attribute with only the ampersand and the
    angle brackets replaced. *)
Theorem markdown_link_becomes_anchor (txt href : string) :
  String.eqb txt EmptyString = false ->
  String.eqb href EmptyString = false ->
  includes txt "]" = false ->
  includes href ")" = false ->
  _escapeHTML ("[" ++ txt ++ "](" ++ href ++ ")")
  = anchor (escape_entities txt) (escape_entities href).
Proof.
  intros Ht Hh Hnt Hnh. unfold _escapeHTML.
  rewrite !escape_entities_app.
  change (escape_entities "[") with "[".
  change (escape_entities "](") with "](".
  change (escape_entities ")") with ")".
  set (t := escape_entities txt). set (h := escape_entities href).
  assert (Ht' : String.eqb t EmptyString = false)
    by (apply escape_entities_not_empty; exact Ht).
  assert (Hh' : String.eqb h EmptyString = false)
    by (apply escape_entities_not_empty; exact Hh).
  assert (Hnt' : includes t "]" = false)
    by (apply escape_entities_adds; [reflexivity | exact Hnt]).
  assert (Hnh' : includes h ")" = false)
    by (apply escape_entities_adds; [reflexivity | exact Hnh]).
  change ("[" ++ t ++ "](" ++ h ++ ")")
    with (String "[" (t ++ String "]" (String "(" (h ++ String ")" EmptyString)))).
  cbn [String.length replace_links match_link].
  rewrite Ascii.eqb_refl, (span_until_first "]" t _ Hnt'), Ascii.eqb_refl, Ht'.
  cbn [negb andb]. rewrite (span_until_first ")" h _ Hnh'), Hh'.
  rewrite replace_links_empty. apply append_empty_r.
Qed.

End Escaping.


(** The theorem at a link to the book of the site. *)
Lemma markdown_link_becomes_anchor_witness :
  UIController._escapeHTML ("[" ++ "the book" ++ "](" ++ "https://example.com/your-book" ++ ")")
  = UIController.anchor (UIController.escape_entities "the book")
      (UIController.escape_entities "https://example.com/your-book").
Proof.
  apply (markdown_link_becomes_anchor "the book" "https://example.com/your-book");
    reflexivity.
Defined.
